(** * Taskboard: the client-side board store and the WebSocket service

    A shallow embedding of [frontend/src/services/projectDataService.js]
    (the per-project board store), of the state updaters of the [Board]
    component that drive it, and of
    [frontend/src/services/websocketService.js] (the realtime client),
    together with the properties of the realtime core that are settled
    on them. *)

From Stdlib Require Import ZArith Ascii String.
From stdpp Require Import gmap strings list fin_maps pretty.

Set Warnings "-register-all,-clear-no-such-hyp".

Open Scope Z_scope.

(** ** The board store: [ProjectDataService] *)

Module ProjectDataService.

(** A task object.  The default data and the inline creation form of
    [Column.jsx] give every task these six properties ([assignee_id] is
    [null] when nobody is assigned). *)
Record Task := mkTask {
  id : string;
  title : string;
  tag : string;
  description : string;
  due_date : string;
  assignee_id : option Z
}.

(** A project's board is a JS object whose own properties are the column
    names, each holding the array of its tasks in display order; the
    order of the columns themselves, which no operation changes, is not
    kept.  [projectsData] is a [Map] from project ids to boards. *)
Abbreviation board := (gmap string (list Task)).
Abbreviation store := (gmap Z (gmap string (list Task))).

(** How a call completes: normally, or by a [TypeError] raised by the
    runtime.  The store has no error class of its own. *)
Inductive completion := Returned | TypeError.


(** [projectData[name]] on a board object.  A name that is not an own
    property is looked up on [Object.prototype], whose properties are all
    truthy (functions, or the prototype object itself for [__proto__]) and
    have none of [push], [find], [filter]. *)
Definition object_prototype_keys : list string :=
  ["constructor"; "hasOwnProperty"; "isPrototypeOf"; "propertyIsEnumerable";
   "toLocaleString"; "toString"; "valueOf"; "__proto__";
   "__defineGetter__"; "__defineSetter__"; "__lookupGetter__";
   "__lookupSetter__"]%string.

Inductive property :=
| PArray (l : list Task)
| PInherited
| PUndefined.

Definition get_prop (b : board) (name : string) : property :=
  match b !! name with
  | Some l => PArray l
  | None =>
      if bool_decide (name ∈ object_prototype_keys) then PInherited
      else PUndefined
  end.

Definition emptyBoard : board :=
  list_to_map [("TO DO", []); ("IN PROGRESS", []); ("IN REVIEW", []);
               ("DONE", [])]%string.

Open Scope string_scope.

(** [initializeDefaultData]: the three sample projects. *)
Definition projectA : board :=
  list_to_map [
    ("TO DO", [
      mkTask "PA-1" "User Authentication System"
        "AUTHENTICATION"
        "Implement user login and registration system with JWT tokens"
        "2025-02-05" (Some 1);
      mkTask "PA-2" "Database Schema Design"
        "DATABASE"
        "Design and implement PostgreSQL database schema for user management"
        "2025-02-03" (Some 2);
      mkTask "PA-3" "Frontend Component Library"
        "FRONTEND"
        "Create reusable React components for the application"
        "2025-02-10" (Some 3)]);
    ("IN PROGRESS", [
      mkTask "PA-4" "REST API Development"
        "BACKEND"
        "Develop REST API endpoints for CRUD operations"
        "2025-02-04" (Some 6);
      mkTask "PA-5" "User Interface Mockups"
        "DESIGN"
        "Create high-fidelity mockups for main application screens"
        "2025-02-02" (Some 3)]);
    ("IN REVIEW", [
      mkTask "PA-6" "Security Implementation"
        "SECURITY"
        "Implement OAuth2 and security middleware"
        "2025-02-15" (Some 2);
      mkTask "PA-7" "Unit Testing Setup"
        "TESTING"
        "Set up Jest and testing framework for backend APIs"
        "2025-02-01" (Some 7)]);
    ("DONE", [
      mkTask "PA-8" "Project Setup & Configuration"
        "SETUP"
        "Initialize project structure and development environment"
        "2024-01-30" (Some 6);
      mkTask "PA-9" "Requirements Analysis"
        "PLANNING"
        "Gather and document functional requirements"
        "2024-01-25" (Some 1)])].

Definition projectB : board :=
  list_to_map [
    ("TO DO", [
      mkTask "PB-1" "Product Catalog Frontend"
        "FRONTEND"
        "Build responsive product catalog with search and filtering"
        "2025-02-06" (Some 3);
      mkTask "PB-2" "Payment Gateway Integration"
        "PAYMENT"
        "Integrate Stripe payment processing with checkout flow"
        "2024-03-01" (Some 2);
      mkTask "PB-3" "Inventory Management System"
        "BACKEND"
        "Develop inventory tracking and stock management APIs"
        "2024-02-28" (Some 6)]);
    ("IN PROGRESS", [
      mkTask "PB-4" "Shopping Cart Functionality"
        "FRONTEND"
        "Implement add to cart, quantity updates, and cart persistence"
        "2025-02-04" (Some 3);
      mkTask "PB-5" "Order Management Backend"
        "BACKEND"
        "Create APIs for order processing and status tracking"
        "2024-02-20" (Some 2);
      mkTask "PB-6" "Product Images & Media"
        "DESIGN"
        "Design and implement product image gallery and zoom features"
        "2024-02-16" (Some 8)]);
    ("IN REVIEW", [
      mkTask "PB-7" "User Reviews & Ratings"
        "FEATURE"
        "Allow users to rate and review products with moderation"
        "2024-02-22" (Some 6);
      mkTask "PB-8" "Email Notifications"
        "NOTIFICATION"
        "Send order confirmations and shipping notifications"
        "2024-02-19" (Some 4)]);
    ("DONE", [
      mkTask "PB-9" "Database Design"
        "DATABASE"
        "Design e-commerce database schema for products, orders, users"
        "2024-02-05" (Some 2);
      mkTask "PB-10" "Brand Identity & Logo"
        "DESIGN"
        "Create brand guidelines and logo for e-commerce platform"
        "2024-02-01" (Some 8)])].

Definition projectC : board :=
  list_to_map [
    ("TO DO", [
      mkTask "PC-1" "Push Notifications System"
        "MOBILE"
        "Implement Firebase push notifications for iOS and Android"
        "2024-02-28" (Some 5);
      mkTask "PC-2" "Offline Data Sync"
        "MOBILE"
        "Implement offline mode with data synchronization"
        "2024-03-05" (Some 6);
      mkTask "PC-3" "App Store Optimization"
        "MARKETING"
        "Prepare app store listings and optimize for discovery"
        "2024-03-10" (Some 4)]);
    ("IN PROGRESS", [
      mkTask "PC-4" "React Native Setup"
        "MOBILE"
        "Initialize React Native project with navigation and state management"
        "2025-02-03" (Some 6);
      mkTask "PC-5" "API Integration Layer"
        "INTEGRATION"
        "Connect mobile app with backend REST APIs"
        "2024-02-24" (Some 1);
      mkTask "PC-6" "User Authentication Flow"
        "MOBILE"
        "Implement login, signup, and session management"
        "2024-02-20" (Some 6);
      mkTask "PC-7" "Camera Integration"
        "FEATURE"
        "Add photo capture and image processing features"
        "2024-02-26" (Some 5)]);
    ("IN REVIEW", [
      mkTask "PC-8" "App Icon & Splash Screen"
        "DESIGN"
        "Design app icon and splash screen for both platforms"
        "2024-02-14" (Some 8)]);
    ("DONE", [
      mkTask "PC-9" "Market Research & Analysis"
        "RESEARCH"
        "Analyze competitor apps and user behavior patterns"
        "2024-01-25" (Some 4);
      mkTask "PC-10" "UI/UX Wireframes"
        "DESIGN"
        "Create detailed wireframes and user flow diagrams"
        "2024-02-02" (Some 8);
      mkTask "PC-11" "Technical Architecture"
        "ARCHITECTURE"
        "Define mobile app architecture and technology stack"
        "2024-02-08" (Some 7)])].

Close Scope string_scope.

Definition initialStore : store :=
  <[3 := projectC]> (<[2 := projectB]> (<[1 := projectA]> ∅)).

(** [getProjectData]: an unknown project is first given four empty
    columns; the board returned is the stored object itself. *)
Definition getProjectData (projectId : Z) (s : store) : store * board :=
  match s !! projectId with
  | Some b => (s, b)
  | None => (<[projectId := emptyBoard]> s, emptyBoard)
  end.

Definition updateProjectData (projectId : Z) (newData : board) (s : store) : store :=
  <[projectId := newData]> s.

(** [addTaskToProject]: [push] on the column's array when
    [projectData[columnName]] is truthy. *)
Definition addTaskToProject (projectId : Z) (columnName : string) (task : Task)
    (s : store) : store * completion :=
  let '(s1, projectData) := getProjectData projectId s in
  match get_prop projectData columnName with
  | PArray l =>
      (updateProjectData projectId (<[columnName := l ++ [task]]> projectData) s1,
       Returned)
  | PInherited => (s1, TypeError)
  | PUndefined => (s1, Returned)
  end.

(** [moveTaskInProject].  [projectData] is the stored object, so the
    assignment to [projectData[fromColumn]] is already in the store when
    [projectData[toColumn].push] is evaluated. *)
Definition moveTaskInProject (projectId : Z) (taskId fromColumn toColumn : string)
    (s : store) : store * completion :=
  let '(s1, projectData) := getProjectData projectId s in
  match get_prop projectData fromColumn with
  | PUndefined => (s1, Returned)
  | PInherited => (s1, TypeError)
  | PArray l =>
      match List.find (λ t, bool_decide (id t = taskId)) l with
      | None => (s1, Returned)
      | Some task =>
          let removed := <[fromColumn := filter (λ t, id t ≠ taskId) l]> projectData in
          let s2 := <[projectId := removed]> s1 in
          match get_prop removed toColumn with
          | PArray l' =>
              (updateProjectData projectId (<[toColumn := l' ++ [task]]> removed) s2,
               Returned)
          | PInherited | PUndefined => (s2, TypeError)
          end
      end
  end.

(** [deleteTaskFromProject] *)
Definition deleteTaskFromProject (projectId : Z) (taskId columnName : string)
    (s : store) : store * completion :=
  let '(s1, projectData) := getProjectData projectId s in
  match get_prop projectData columnName with
  | PArray l =>
      (updateProjectData projectId
         (<[columnName := filter (λ t, id t ≠ taskId) l]> projectData) s1,
       Returned)
  | PInherited => (s1, TypeError)
  | PUndefined => (s1, Returned)
  end.

(** [clearProjectData] *)
Definition clearProjectData (projectId : Z) (s : store) : store :=
  <[projectId := emptyBoard]> s.

(** The board that [getProjectData projectId] hands out, and the store
    once it has done so. *)
Definition view (s : store) (projectId : Z) : board := (getProjectData projectId s).2.
Definition loaded (projectId : Z) (s : store) : store := (getProjectData projectId s).1.

(** *** The state updaters of the [Board] component

    [setColumns] is given a function from the previous [columns] object
    to the next one; [None] stands for a [TypeError] raised while it is
    evaluated ([prev[name]] is not an array, so it has no [find] and
    cannot be spread). *)
Definition own_array (prev : board) (name : string) : option (list Task) :=
  match get_prop prev name with
  | PArray l => Some l
  | PInherited | PUndefined => None
  end.

Definition handleAddTaskInline_updater (columnTitle : string) (taskWithId : Task)
    (prev : board) : option board :=
  l ← own_array prev columnTitle;
  Some (<[columnTitle := l ++ [taskWithId]]> prev).

Definition handleMoveTask_updater (taskId fromColumn toColumn : string)
    (prev : board) : option board :=
  l ← own_array prev fromColumn;
  match List.find (λ t, bool_decide (id t = taskId)) l with
  | None => Some prev
  | Some task =>
      l' ← own_array prev toColumn;
      Some (<[toColumn := l' ++ [task]]>
              (<[fromColumn := filter (λ t, id t ≠ taskId) l]> prev))
  end.

(** *** Operations and reachable stores *)
Inductive operation :=
| OpGetProjectData (projectId : Z)
| OpAddTask (projectId : Z) (columnName : string) (task : Task)
| OpMoveTask (projectId : Z) (taskId fromColumn toColumn : string)
| OpDeleteTask (projectId : Z) (taskId columnName : string)
| OpClearProjectData (projectId : Z).

(** The store an operation leaves behind, whether it returned or threw. *)
Definition perform (o : operation) (s : store) : store :=
  match o with
  | OpGetProjectData p => loaded p s
  | OpAddTask p c t => (addTaskToProject p c t s).1
  | OpMoveTask p i f t => (moveTaskInProject p i f t s).1
  | OpDeleteTask p i c => (deleteTaskFromProject p i c s).1
  | OpClearProjectData p => clearProjectData p s
  end.

Inductive reachable : store → Prop :=
| reachable_init : reachable initialStore
| reachable_step s o : reachable s → reachable (perform o s).

Definition columnNames : gset string :=
  {[ "TO DO"; "IN PROGRESS"; "IN REVIEW"; "DONE" ]}%string.

(** A task, named by its id, sits in a column when the column's array has
    an element with that id. *)
Definition inColumn (b : board) (taskId column : string) : Prop :=
  ∃ l, b !! column = Some l ∧ ∃ t, t ∈ l ∧ id t = taskId.

Definition inExactlyOneColumn (b : board) (taskId : string) : Prop :=
  ∃ c, inColumn b taskId c ∧ ∀ c', inColumn b taskId c' → c' = c.

(** The columns that hold a task, computed. *)
Definition columnsOf (b : board) (taskId : string) : list string :=
  (filter (λ cl, Exists (λ t, id t = taskId) cl.2) (map_to_list b)).*1.

(** Creating the tasks [ts] one after the other in one column. *)
Fixpoint addTasks (projectId : Z) (columnName : string) (ts : list Task)
    (s : store) : store :=
  match ts with
  | [] => s
  | t :: ts' => addTasks projectId columnName ts' (addTaskToProject projectId columnName t s).1
  end.

(** Sample tasks: three new ones, and the first task of project 1. *)
Definition T1 : Task := mkTask "T1" "First" "GENERAL" "" "" None.
Definition T2 : Task := mkTask "T2" "Second" "GENERAL" "" "" None.
Definition T3 : Task := mkTask "T3" "Third" "GENERAL" "" "" None.
Definition PA_1 : Task :=
  mkTask "PA-1" "User Authentication System" "AUTHENTICATION"
    "Implement user login and registration system with JWT tokens"
    "2025-02-05" (Some 1).

(** The store after that task, already in TO DO, has been added to DONE. *)
Definition withDuplicate : store :=
  perform (OpAddTask 1 "DONE" PA_1) initialStore.

End ProjectDataService.

(** ** [Date.prototype.toISOString]

    The timestamp of an outgoing message is [new Date().toISOString()].
    The functions below follow the time-value arithmetic of ECMA-262
    (section "Time Values and Time Range"); a time value is a number of
    milliseconds since 1970-01-01T00:00:00Z. *)

Module IsoDate.

Definition msPerDay : Z := 86400000.
Definition msPerHour : Z := 3600000.
Definition msPerMinute : Z := 60000.
Definition msPerSecond : Z := 1000.

Definition Day (t : Z) : Z := t / msPerDay.
Definition TimeWithinDay (t : Z) : Z := t mod msPerDay.

Definition DayFromYear (y : Z) : Z :=
  365 * (y - 1970) + (y - 1969) / 4 - (y - 1901) / 100 + (y - 1601) / 400.

Definition isLeapYear (y : Z) : bool :=
  if negb (y mod 4 =? 0) then false
  else if negb (y mod 100 =? 0) then true
  else if negb (y mod 400 =? 0) then false
  else true.

(** The largest year [y] with [DayFromYear y <= Day t]: an estimate from
    the mean length of a year, corrected by at most one. *)
Definition YearFromTime (t : Z) : Z :=
  let d := Day t in
  let y0 := 1970 + (d * 400) / 146097 in
  if d <? DayFromYear y0 then y0 - 1
  else if DayFromYear (y0 + 1) <=? d then y0 + 1
  else y0.

Definition InLeapYear (t : Z) : Z := if isLeapYear (YearFromTime t) then 1 else 0.
Definition DayWithinYear (t : Z) : Z := Day t - DayFromYear (YearFromTime t).

(** Months are numbered from 0 (January). *)
Definition MonthFromTime (t : Z) : Z :=
  let d := DayWithinYear t in
  let leap := InLeapYear t in
  if d <? 31 then 0
  else if d <? 59 + leap then 1
  else if d <? 90 + leap then 2
  else if d <? 120 + leap then 3
  else if d <? 151 + leap then 4
  else if d <? 181 + leap then 5
  else if d <? 212 + leap then 6
  else if d <? 243 + leap then 7
  else if d <? 273 + leap then 8
  else if d <? 304 + leap then 9
  else if d <? 334 + leap then 10
  else 11.

Definition DateFromTime (t : Z) : Z :=
  let d := DayWithinYear t in
  let leap := InLeapYear t in
  match MonthFromTime t with
  | 0 => d + 1
  | 1 => d - 30
  | 2 => d - 58 - leap
  | 3 => d - 89 - leap
  | 4 => d - 119 - leap
  | 5 => d - 150 - leap
  | 6 => d - 180 - leap
  | 7 => d - 211 - leap
  | 8 => d - 242 - leap
  | 9 => d - 272 - leap
  | 10 => d - 303 - leap
  | _ => d - 333 - leap
  end.

Definition HourFromTime (t : Z) : Z := (t / msPerHour) mod 24.
Definition MinFromTime (t : Z) : Z := (t / msPerMinute) mod 60.
Definition SecFromTime (t : Z) : Z := (t / msPerSecond) mod 60.
Definition msFromTime (t : Z) : Z := t mod msPerSecond.

(** Decimal digits, most significant first. *)
Definition digit (n : Z) : ascii := ascii_of_nat (48 + Z.to_nat (n mod 10)).

Fixpoint digits (width : nat) (n : Z) (rest : string) : string :=
  match width with
  | O => rest
  | S w => digits w (n / 10) (String (digit n) rest)
  end.

Definition pad (width : nat) (n : Z) : string := digits width n EmptyString.

(** Years 0 to 9999 are written with four digits, the others with a sign
    and six digits. *)
Definition yearString (y : Z) : string :=
  if (0 <=? y) && (y <=? 9999) then pad 4 y
  else String (if y <? 0 then "-"%char else "+"%char) (pad 6 (Z.abs y)).

Definition toISOString (t : Z) : string :=
  (yearString (YearFromTime t) ++ "-" ++ pad 2 (MonthFromTime t + 1) ++ "-"
   ++ pad 2 (DateFromTime t) ++ "T" ++ pad 2 (HourFromTime t) ++ ":"
   ++ pad 2 (MinFromTime t) ++ ":" ++ pad 2 (SecFromTime t) ++ "."
   ++ pad 3 (msFromTime t) ++ "Z")%string.

(** The time values a [Date] can hold. *)
Definition validTime (t : Z) : Prop :=
  -8640000000000000 <= t <= 8640000000000000.

(** The shape of an ISO 8601 date-time in UTC: [d] stands for a digit,
    [s] for a sign, any other character for itself. *)
Definition is_digit (c : ascii) : bool :=
  ((48 <=? nat_of_ascii c) && (nat_of_ascii c <=? 57))%nat.

Definition is_sign (c : ascii) : bool :=
  bool_decide (c = "+"%char) || bool_decide (c = "-"%char).

Fixpoint hasShape (shape s : string) : bool :=
  match shape, s with
  | EmptyString, EmptyString => true
  | String p shape', String c s' =>
      (if bool_decide (p = "d"%char) then is_digit c
       else if bool_decide (p = "s"%char) then is_sign c
       else bool_decide (c = p))
      && hasShape shape' s'
  | _, _ => false
  end.

Definition iso8601 (s : string) : bool :=
  hasShape "dddd-dd-ddTdd:dd:dd.dddZ" s || hasShape "sdddddd-dd-ddTdd:dd:dd.dddZ" s.

End IsoDate.

(** ** The realtime client: [WebSocketService] *)

Module WebSocketService.

Import IsoDate.

(** JavaScript values as the service handles them: payloads, parsed
    messages, listener arguments.  Numbers are integers here. *)
Inductive jsval :=
| VUndefined
| VNull
| VBool (b : bool)
| VNum (n : Z)
| VStr (s : string)
| VArr (items : list jsval)
| VObj (fields : list (string * jsval)).

(** A JSON document, the tree of the text that [JSON.stringify] writes. *)
Inductive json :=
| JNull
| JBool (b : bool)
| JNum (n : Z)
| JStr (s : string)
| JArr (items : list json)
| JObj (fields : list (string * json)).

(** [JSON.stringify]: [undefined] has no JSON form; inside an array it is
    written [null], a property holding it is left out. *)
Fixpoint stringify (v : jsval) : option json :=
  match v with
  | VUndefined => None
  | VNull => Some JNull
  | VBool b => Some (JBool b)
  | VNum n => Some (JNum n)
  | VStr s => Some (JStr s)
  | VArr items =>
      Some (JArr ((fix elements (l : list jsval) : list json :=
                     match l with
                     | [] => []
                     | x :: l' => default JNull (stringify x) :: elements l'
                     end) items))
  | VObj fields =>
      Some (JObj ((fix properties (l : list (string * jsval)) : list (string * json) :=
                     match l with
                     | [] => []
                     | (k, x) :: l' =>
                         match stringify x with
                         | Some j => (k, j) :: properties l'
                         | None => properties l'
                         end
                     end) fields))
  end.

(** [v.name] for the names the service reads ([type], [payload],
    [count]), which no prototype supplies: [None] is the [TypeError] of
    reading a property of [undefined] or [null]. *)
Definition field (name : string) (fields : list (string * jsval)) : jsval :=
  match List.find (λ kv, bool_decide (kv.1 = name)) fields with
  | Some kv => kv.2
  | None => VUndefined
  end.

Definition get (v : jsval) (name : string) : option jsval :=
  match v with
  | VUndefined | VNull => None
  | VObj fields => Some (field name fields)
  | VBool _ | VNum _ | VStr _ | VArr _ => Some VUndefined
  end.

(** A listener: a function of the client code, known to the service by
    its identity only.  Calling it with an argument either returns or
    throws; what it does otherwise is outside the service. *)
Record callback := mkCallback {
  cb_id : nat;
  cb_throws : jsval → bool
}.

Inductive ReadyState := CONNECTING | OPEN | CLOSING | CLOSED.

#[global] Instance ReadyState_eq_dec : EqDecision ReadyState.
Proof. solve_decision. Defined.

Record WebSocket := mkWebSocket {
  ws_url : string;
  readyState : ReadyState
}.

(** The fields of the service object. *)
Record Service := mkService {
  ws : option WebSocket;
  url : string;
  listeners : gmap string (list callback);
  reconnectAttempts : Z;
  maxReconnectAttempts : Z;
  reconnectInterval : Z;
  isConnected : bool;
  onlineUsers : jsval
}.

Inductive consoleEntry :=
| ConsoleLog (text : string)
| ConsoleWarn (text : string)
| ConsoleError (text : string).

(** What a [setTimeout] callback of the service runs. *)
Inductive timerAction :=
| RunConnect (userId : string)
| RunAttemptReconnect (userId : string).

(** The service in its environment: the frames handed to [ws.send], the
    console, the pending timers with their delays in milliseconds, the
    delays of all [setTimeout] calls made so far, and the listener calls
    made so far (callback and argument), each oldest first. *)
Record World := mkWorld {
  service : Service;
  sent : list json;
  console : list consoleEntry;
  timers : list (Z * timerAction);
  delays : list Z;
  invoked : list (nat * jsval)
}.

Definition constructor : Service :=
  {| ws := None;
     url := "ws://localhost:8000/ws";
     listeners := ∅;
     reconnectAttempts := 0;
     maxReconnectAttempts := 5;
     reconnectInterval := 3000;
     isConnected := false;
     onlineUsers := VNum 0 |}.

Definition initialWorld : World :=
  {| service := constructor; sent := []; console := []; timers := [];
     delays := []; invoked := [] |}.

(** Field updates. *)
Definition withService (f : Service → Service) (w : World) : World :=
  {| service := f (service w); sent := sent w; console := console w;
     timers := timers w; delays := delays w; invoked := invoked w |}.

Definition set_ws (x : option WebSocket) (s : Service) : Service :=
  {| ws := x; url := url s; listeners := listeners s;
     reconnectAttempts := reconnectAttempts s;
     maxReconnectAttempts := maxReconnectAttempts s;
     reconnectInterval := reconnectInterval s;
     isConnected := isConnected s; onlineUsers := onlineUsers s |}.

Definition set_listeners (x : gmap string (list callback)) (s : Service) : Service :=
  {| ws := ws s; url := url s; listeners := x;
     reconnectAttempts := reconnectAttempts s;
     maxReconnectAttempts := maxReconnectAttempts s;
     reconnectInterval := reconnectInterval s;
     isConnected := isConnected s; onlineUsers := onlineUsers s |}.

Definition set_reconnectAttempts (x : Z) (s : Service) : Service :=
  {| ws := ws s; url := url s; listeners := listeners s;
     reconnectAttempts := x;
     maxReconnectAttempts := maxReconnectAttempts s;
     reconnectInterval := reconnectInterval s;
     isConnected := isConnected s; onlineUsers := onlineUsers s |}.

Definition set_isConnected (x : bool) (s : Service) : Service :=
  {| ws := ws s; url := url s; listeners := listeners s;
     reconnectAttempts := reconnectAttempts s;
     maxReconnectAttempts := maxReconnectAttempts s;
     reconnectInterval := reconnectInterval s;
     isConnected := x; onlineUsers := onlineUsers s |}.

Definition set_onlineUsers (x : jsval) (s : Service) : Service :=
  {| ws := ws s; url := url s; listeners := listeners s;
     reconnectAttempts := reconnectAttempts s;
     maxReconnectAttempts := maxReconnectAttempts s;
     reconnectInterval := reconnectInterval s;
     isConnected := isConnected s; onlineUsers := x |}.

Definition send (frame : json) (w : World) : World :=
  {| service := service w; sent := sent w ++ [frame]; console := console w;
     timers := timers w; delays := delays w; invoked := invoked w |}.

Definition print (e : consoleEntry) (w : World) : World :=
  {| service := service w; sent := sent w; console := console w ++ [e];
     timers := timers w; delays := delays w; invoked := invoked w |}.

Definition setTimeout (action : timerAction) (delay : Z) (w : World) : World :=
  {| service := service w; sent := sent w; console := console w;
     timers := timers w ++ [(delay, action)]; delays := delays w ++ [delay];
     invoked := invoked w |}.

Definition record_call (cb : callback) (data : jsval) (w : World) : World :=
  {| service := service w; sent := sent w; console := console w;
     timers := timers w; delays := delays w;
     invoked := invoked w ++ [(cb_id cb, data)] |}.

(** *** Computations that may throw *)
Inductive completion := Normal | Throw.

Definition Js := World → World * completion.

Definition andThen (m k : Js) : Js :=
  λ w, match m w with
       | (w', Normal) => k w'
       | (w', Throw) => (w', Throw)
       end.

Definition tryCatch (body handler : Js) : Js :=
  λ w, match body w with
       | (w', Normal) => (w', Normal)
       | (w', Throw) => handler w'
       end.

Definition pure (f : World → World) : Js := λ w, (f w, Normal).
Definition throw : Js := λ w, (w, Throw).

Declare Scope js_scope.
Delimit Scope js_scope with js.
Bind Scope js_scope with Js.
Notation "m ;; k" := (andThen m k)
  (at level 100, k at level 200, right associativity) : js_scope.
Open Scope js_scope.

(** [callback(data)] *)
Definition call (cb : callback) (data : jsval) : Js :=
  λ w, (record_call cb data w, if cb_throws cb data then Throw else Normal).

(** [Array.prototype.forEach]: an exception thrown by the function ends
    the loop. *)
Fixpoint forEach (f : callback → Js) (callbacks : list callback) : Js :=
  match callbacks with
  | [] => pure (λ w, w)
  | cb :: rest => f cb ;; forEach f rest
  end.

(** [notifyListeners] *)
Definition notifyListeners (event : string) (data : jsval) : Js :=
  λ w, match listeners (service w) !! event with
       | None => (w, Normal)
       | Some callbacks =>
           forEach (λ callback,
                      tryCatch (call callback data)
                        (pure (print (ConsoleError "Error in WebSocket listener:"))))
             callbacks w
       end.

(** [subscribe], and the function it returns. *)
Definition subscribe (event : string) (cb : callback) (w : World) : World :=
  withService (λ s,
    set_listeners (<[event := default [] (listeners s !! event) ++ [cb]]> (listeners s)) s) w.

Fixpoint removeFirst (n : nat) (l : list callback) : list callback :=
  match l with
  | [] => []
  | cb :: rest => if bool_decide (cb_id cb = n) then rest else cb :: removeFirst n rest
  end.

Definition unsubscribe (event : string) (cb : callback) (w : World) : World :=
  withService (λ s,
    match listeners s !! event with
    | None => s
    | Some callbacks => set_listeners (<[event := removeFirst (cb_id cb) callbacks]> (listeners s)) s
    end) w.

Open Scope string_scope.

Definition status (name : string) : jsval := VObj [("status", VStr name)].

(** [attemptReconnect] *)
Definition attemptReconnect (userId : string) : Js :=
  λ w,
    let s := service w in
    if bool_decide (reconnectAttempts s < maxReconnectAttempts s) then
      let w1 := withService (set_reconnectAttempts (reconnectAttempts s + 1)) w in
      let w2 := print (ConsoleLog ("Attempting to reconnect... ("
                   ++ pretty (reconnectAttempts (service w1)) ++ "/"
                   ++ pretty (maxReconnectAttempts s) ++ ")")) w1 in
      (setTimeout (RunConnect userId) (reconnectInterval s) w2, Normal)
    else
      (print (ConsoleLog "Max reconnection attempts reached") w, Normal).

(** [connect].  [created] tells whether [new WebSocket(...)] returned a
    socket or threw; the handlers it installs are the four functions that
    follow. *)
Definition isOpen (s : Service) : bool :=
  match ws s with
  | Some sock => bool_decide (readyState sock = OPEN)
  | None => false
  end.

Definition connect (userId : string) (created : bool) (error : jsval) : Js :=
  λ w,
    if isOpen (service w) then
      (print (ConsoleLog "WebSocket already connected") w, Normal)
    else
      let target := url (service w) ++ "?user_id=" ++ userId in
      let w1 := print (ConsoleLog ("Attempting to connect to WebSocket: " ++ target)) w in
      if created then
        (withService (set_ws (Some {| ws_url := target; readyState := CONNECTING |})) w1,
         Normal)
      else
        (pure (print (ConsoleError "Failed to create WebSocket connection:")) ;;
         notifyListeners "connection" (VObj [("status", VStr "error"); ("error", error)]) ;;
         pure (withService (set_isConnected false)) ;;
         pure (λ w', setTimeout (RunAttemptReconnect userId)
                       (reconnectInterval (service w')) w')) w1.

Definition onopen : Js :=
  pure (print (ConsoleLog "WebSocket connected successfully")) ;;
  pure (withService (set_isConnected true)) ;;
  pure (withService (set_reconnectAttempts 0)) ;;
  notifyListeners "connection" (status "connected").

Definition onclose (userId : string) (code : Z) : Js :=
  pure (print (ConsoleLog "WebSocket disconnected:")) ;;
  pure (withService (set_isConnected false)) ;;
  notifyListeners "connection" (status "disconnected") ;;
  (if bool_decide (code ≠ 1000) then attemptReconnect userId else pure (λ w, w)).

Definition onerror (error : jsval) : Js :=
  pure (print (ConsoleError "WebSocket connection error:")) ;;
  pure (withService (set_isConnected false)) ;;
  notifyListeners "connection" (VObj [("status", VStr "error"); ("error", error)]).

(** [value === 'literal'] *)
Definition strictEquals (value : jsval) (literal : string) : bool :=
  match value with
  | VStr s => bool_decide (s = literal)
  | _ => false
  end.

(** [handleMessage]: the [switch] on [data.type]. *)
Definition handleMessage (data : jsval) : Js :=
  λ w,
    match get data "type", get data "payload" with
    | Some type, Some payload =>
        if strictEquals type "task_created" then
          notifyListeners "taskCreated" payload w
        else if strictEquals type "task_updated" then
          notifyListeners "taskUpdated" payload w
        else if strictEquals type "task_moved" then
          notifyListeners "taskMoved" payload w
        else if strictEquals type "task_deleted" then
          notifyListeners "taskDeleted" payload w
        else if strictEquals type "user_count" then
          match get payload "count" with
          | Some count =>
              notifyListeners "userCount" payload
                (withService (set_onlineUsers count) w)
          | None => (w, Throw)
          end
        else if strictEquals type "board_sync" then
          notifyListeners "boardSync" payload w
        else
          (print (ConsoleLog "Unknown message type:") w, Normal)
    | _, _ => (w, Throw)
    end.

(** The [onmessage] handler.  [parsed] is the result of
    [JSON.parse(event.data)], [None] when the text is not JSON. *)
Definition onmessage (parsed : option jsval) : Js :=
  tryCatch
    (match parsed with
     | Some data => handleMessage data
     | None => throw
     end)
    (pure (print (ConsoleError "Error parsing WebSocket message:"))).

(** [sendMessage].  [now] is the time value of [new Date()]. *)
Definition sendMessage (type : string) (payload : jsval) (now : Z) : Js :=
  λ w,
    if isOpen (service w) then
      let message := VObj [("type", VStr type); ("payload", payload);
                           ("timestamp", VStr (toISOString now))] in
      match stringify message with
      | Some frame =>
          (print (ConsoleLog ("Sent WebSocket message: " ++ type)) (send frame w), Normal)
      | None => (w, Throw)
      end
    else
      (print (ConsoleWarn ("WebSocket is not connected, skipping message: " ++ type)) w,
       Normal).

(** Task operations. *)
Definition createTask (task column projectId : jsval) : Z → Js :=
  sendMessage "create_task"
    (VObj [("task", task); ("column", column); ("projectId", projectId)]).

Definition updateTask (taskId updates projectId : jsval) : Z → Js :=
  sendMessage "update_task"
    (VObj [("taskId", taskId); ("updates", updates); ("projectId", projectId)]).

Definition moveTask (taskId fromColumn toColumn position projectId : jsval) : Z → Js :=
  sendMessage "move_task"
    (VObj [("taskId", taskId); ("fromColumn", fromColumn); ("toColumn", toColumn);
           ("position", position); ("projectId", projectId)]).

Definition deleteTask (taskId column projectId : jsval) : Z → Js :=
  sendMessage "delete_task"
    (VObj [("taskId", taskId); ("column", column); ("projectId", projectId)]).

Definition requestBoardSync (projectId : jsval) : Z → Js :=
  sendMessage "request_board_sync" (VObj [("projectId", projectId)]).

Definition disconnect (w : World) : World :=
  withService (λ s, set_listeners ∅ (set_isConnected false (set_ws None s))) w.

Definition getConnectionStatus (w : World) : bool * jsval :=
  (isConnected (service w), onlineUsers (service w)).

(** *** The environment

    The browser changes the socket's [readyState] before it calls the
    handler, and runs a timer's function when its delay has passed. *)
Definition setReadyState (r : ReadyState) (s : Service) : Service :=
  match ws s with
  | Some sock => set_ws (Some {| ws_url := ws_url sock; readyState := r |}) s
  | None => s
  end.

Definition runTimer (action : timerAction) (created : bool) (error : jsval) : Js :=
  match action with
  | RunConnect userId => connect userId created error
  | RunAttemptReconnect userId => attemptReconnect userId
  end.

Definition dropTimer (w : World) : World :=
  {| service := service w; sent := sent w; console := console w;
     timers := tail (timers w); delays := delays w; invoked := invoked w |}.

Definition fireTimer (created : bool) (error : jsval) : Js :=
  λ w, match timers w with
       | [] => (w, Normal)
       | (_, action) :: _ => runTimer action created error (dropTimer w)
       end.

Definition opened : Js :=
  pure (withService (setReadyState OPEN)) ;; onopen.

Definition closed (userId : string) (code : Z) : Js :=
  pure (withService (setReadyState CLOSED)) ;; onclose userId code.

Definition received (messages : list jsval) : Js :=
  foldr (λ data rest, onmessage (Some data) ;; rest) (pure (λ w, w)) messages.

(** A connection that keeps failing: the socket closes with [code], the
    pending timer fires and [connect] opens a new socket, [n] times over. *)
Fixpoint dropRepeatedly (n : nat) (userId : string) (code : Z) : Js :=
  match n with
  | O => pure (λ w, w)
  | S n' =>
      closed userId code ;; fireTimer true VUndefined ;; dropRepeatedly n' userId code
  end.

(** *** What listeners observe

    The world after the listeners have been called with [calls] and the
    console has received [errors]. *)
Definition afterCalls (calls : list (nat * jsval)) (errors : list consoleEntry)
    (w : World) : World :=
  {| service := service w; sent := sent w;
     console := (console w ++ errors)%list; timers := timers w;
     delays := delays w; invoked := (invoked w ++ calls)%list |}.

Definition listenerErrors (callbacks : list callback) (data : jsval) : list consoleEntry :=
  (λ _, ConsoleError "Error in WebSocket listener:")
    <$> filter (λ cb, cb_throws cb data = true) callbacks.

(** The event a message type is dispatched to, if it is recognised. *)
Definition eventOf (type : jsval) : option string :=
  if strictEquals type "task_created" then Some "taskCreated"
  else if strictEquals type "task_updated" then Some "taskUpdated"
  else if strictEquals type "task_moved" then Some "taskMoved"
  else if strictEquals type "task_deleted" then Some "taskDeleted"
  else if strictEquals type "user_count" then Some "userCount"
  else if strictEquals type "board_sync" then Some "boardSync"
  else None.

(** The listener calls an inbound message gives rise to. *)
Definition delivery (data : jsval) : option (string * jsval) :=
  type ← get data "type";
  payload ← get data "payload";
  event ← eventOf type;
  if bool_decide (event = "userCount") then
    _ ← get payload "count"; Some (event, payload)
  else Some (event, payload).

Definition callsFor (registered : gmap string (list callback)) (data : jsval)
    : list (nat * jsval) :=
  match delivery data with
  | Some (event, payload) =>
      (λ cb, (cb_id cb, payload)) <$> default [] (registered !! event)
  | None => []
  end.





(** A call that sends nothing and changes nothing but the console. *)
Definition skipped (m : Js) (w : World) : Prop :=
  ∃ w', m w = (w', Normal)
        ∧ service w' = service w ∧ sent w' = sent w ∧ timers w' = timers w
        ∧ delays w' = delays w ∧ invoked w' = invoked w.

(** The envelope of a message on the wire. *)
Definition envelope (frame : json) : Prop :=
  ∃ type payload timestamp,
    frame = JObj [("type", JStr type); ("payload", JObj payload);
                  ("timestamp", JStr timestamp)]
    ∧ iso8601 timestamp = true.

Definition sendsEnvelope (m : Js) (w : World) : Prop :=
  ∃ w' frame, m w = (w', Normal) ∧ sent w' = (sent w ++ [frame])%list ∧ envelope frame.

(** Some acknowledgment leaves the service: a frame is sent or a listener
    is called. *)
Definition acknowledged (m : Js) (w : World) : Prop :=
  sent (m w).1 ≠ sent w ∨ invoked (m w).1 ≠ invoked w.

(** *** Sample worlds and messages *)
Definition connectedWorld : World :=
  ((connect "anonymous" true VUndefined ;; opened) initialWorld).1.

Definition listener (n : nat) : callback := mkCallback n (λ _, false).
Definition faulty (n : nat) : callback := mkCallback n (λ _, true).

Definition listeningWorld : World :=
  subscribe "connection" (listener 3)
    (subscribe "error" (listener 2)
       (subscribe "taskCreated" (listener 1) connectedWorld)).

Definition created (sequence : Z) : jsval :=
  VObj [("type", VStr "task_created");
        ("payload", VObj [("sequence", VNum sequence)])].

Definition ping : jsval := VObj [("type", VStr "ping"); ("payload", VObj [])].

Close Scope string_scope.

End WebSocketService.

(** ** The [Board] component's delete handler and the [Card] menu *)

Module Board.

Import ProjectDataService.

(** The update of [handleDeleteTask]: [prev[columnTitle].filter(...)]
    under the key [columnTitle]; [None] is the [TypeError] of a name that
    holds no array. *)
Definition handleDeleteTask_updater (taskId columnTitle : string)
    (prev : board) : option board :=
  l ← own_array prev columnTitle;
  Some (<[columnTitle := filter (λ t, id t ≠ taskId) l]> prev).

(** The id [handleAddTaskInline] gives a new task:
    [`P${projectId}-${Date.now()}`]. *)
Definition newTaskId (projectId now : Z) : string :=
  "P" +:+ pretty projectId +:+ "-" +:+ pretty now.

(** [{...newTask, id}] *)
Definition withId (newTask : Task) (newId : string) : Task :=
  {| id := newId; title := title newTask; tag := tag newTask;
     description := description newTask; due_date := due_date newTask;
     assignee_id := assignee_id newTask |}.

(** [Card]: the columns its menu offers,
    [availableColumns.filter(column => column !== currentColumn)]. *)
Definition moveOptions (availableColumns : list string) (currentColumn : string)
    : list string :=
  filter (λ column, column ≠ currentColumn) availableColumns.

End Board.

(** ** The account service: [AuthService]

    The class that follows [ProjectDataService] in the services file.  It
    keeps the current user, the list of known users with their
    [isActive] flags, a set of listeners, and two items of
    [localStorage]. *)

Module AuthService.

Record User := mkUser {
  id : Z;
  name : string;
  email : string;
  avatar : string;
  role : string;
  isActive : bool
}.

#[global] Instance User_eq_dec : EqDecision User.
Proof. solve_decision. Defined.

(** The [updates] object of [updateProfile]: the properties it carries. *)
Record Updates := mkUpdates {
  new_id : option Z;
  new_name : option string;
  new_email : option string;
  new_avatar : option string;
  new_role : option string;
  new_isActive : option bool
}.

(** [{...user, ...updates}] *)
Definition merge (user : User) (updates : Updates) : User :=
  {| id := default (id user) (new_id updates);
     name := default (name user) (new_name updates);
     email := default (email user) (new_email updates);
     avatar := default (avatar user) (new_avatar updates);
     role := default (role user) (new_role updates);
     isActive := default (isActive user) (new_isActive updates) |}.

Definition setActive (active : bool) (u : User) : User :=
  {| id := id u; name := name u; email := email u; avatar := avatar u;
     role := role u; isActive := active |}.

(** A listener, known by its identity; called with the current user and
    the authentication flag it either returns or throws. *)
Record listener := mkListener {
  l_id : nat;
  l_throws : option User → bool → bool
}.

(** The text under the key [currentUser]: the JSON text of a user, kept as
    the user it denotes, or a text that [JSON.parse] rejects. *)
Inductive savedUser :=
| UserJson (user : User)
| NotJson (text : string).

Inductive consoleEntry :=
| ConsoleLog (text : string)
| ConsoleError (text : string).

(** The service with its environment: the two [localStorage] items, the
    console and the calls made to listeners, oldest first. *)
Record State := mkState {
  currentUser : option User;
  isAuthenticated : bool;
  availableUsers : list User;
  authListeners : list listener;
  item_currentUser : option savedUser;
  item_isAuthenticated : option string;
  console : list consoleEntry;
  notified : list (nat * option User * bool)
}.

Open Scope string_scope.

Definition defaultUsers : list User :=
  [mkUser 1 "Alice Johnson" "alice.johnson@company.com"
     "👩‍💼" "Frontend Developer" true;
   mkUser 2 "Bob Smith" "bob.smith@company.com"
     "👨‍💻" "Backend Developer" false;
   mkUser 3 "Charlie Wilson" "charlie.wilson@company.com"
     "👨‍🎨" "UI/UX Designer" false;
   mkUser 4 "Diana Chen" "diana.chen@company.com"
     "👩‍🔬" "Product Manager" false;
   mkUser 5 "Erik Anderson" "erik.anderson@company.com"
     "👨" "DevOps Engineer" false;
   mkUser 6 "Fiona Martinez" "fiona.martinez@company.com"
     "👩‍💻" "Full Stack Developer" false;
   mkUser 7 "George Thompson" "george.thompson@company.com"
     "👨‍🔧" "QA Engineer" false;
   mkUser 8 "Hannah Lee" "hannah.lee@company.com"
     "👩‍🎨" "Graphic Designer" false].

(** [notifyAuthListeners] *)
Definition callListener (st : State) (l : listener) : State :=
  let called :=
    {| currentUser := currentUser st; isAuthenticated := isAuthenticated st;
       availableUsers := availableUsers st; authListeners := authListeners st;
       item_currentUser := item_currentUser st;
       item_isAuthenticated := item_isAuthenticated st;
       console := console st;
       notified := (notified st ++ [(l_id l, currentUser st, isAuthenticated st)])%list |} in
  if l_throws l (currentUser st) (isAuthenticated st) then
    {| currentUser := currentUser called; isAuthenticated := isAuthenticated called;
       availableUsers := availableUsers called; authListeners := authListeners called;
       item_currentUser := item_currentUser called;
       item_isAuthenticated := item_isAuthenticated called;
       console := (console called ++ [ConsoleError "Error in auth listener:"])%list;
       notified := notified called |}
  else called.

Definition notifyAuthListeners (st : State) : State :=
  foldl callListener st (authListeners st).

(** [login] *)
Definition login (user : User) (st : State) : State :=
  notifyAuthListeners
    {| currentUser := Some user;
       isAuthenticated := true;
       availableUsers :=
         (λ u, setActive (bool_decide (id u = id user)) u) <$> availableUsers st;
       authListeners := authListeners st;
       item_currentUser := Some (UserJson user);
       item_isAuthenticated := Some "true";
       console :=
         (console st ++ [ConsoleLog ("User " ++ name user ++ " logged in successfully")])%list;
       notified := notified st |}.

(** [logout] *)
Definition logout (st : State) : State :=
  notifyAuthListeners
    {| currentUser := None;
       isAuthenticated := false;
       availableUsers := setActive false <$> availableUsers st;
       authListeners := authListeners st;
       item_currentUser := None;
       item_isAuthenticated := None;
       console :=
         (console st
          ++ [ConsoleLog ("User "
                          ++ match currentUser st with
                             | Some u => name u
                             | None => "undefined"
                             end
                          ++ " logged out")])%list;
       notified := notified st |}.

(** [switchAccount] *)
Definition switchAccount (userId : Z) (st : State) : State * bool :=
  match List.find (λ u, bool_decide (id u = userId)) (availableUsers st) with
  | Some newUser => (login newUser st, true)
  | None => (st, false)
  end.

Definition getCurrentUser (st : State) : option User := currentUser st.

Definition isLoggedIn (st : State) : bool :=
  isAuthenticated st && bool_decide (currentUser st ≠ None).

Definition getAvailableUsers (st : State) : list User :=
  filter (λ u, isActive u = false) (availableUsers st).

(** [availableUsers[userIndex] = {...availableUsers[userIndex], ...updates}]
    at the first index whose user has the id. *)
Fixpoint updateFirst (userId : Z) (updates : Updates) (users : list User) : list User :=
  match users with
  | [] => []
  | u :: rest =>
      if bool_decide (id u = userId) then merge u updates :: rest
      else u :: updateFirst userId updates rest
  end.

(** [updateProfile] *)
Definition updateProfile (updates : Updates) (st : State) : State * bool :=
  match currentUser st with
  | Some user =>
      let updated := merge user updates in
      (notifyAuthListeners
         {| currentUser := Some updated;
            isAuthenticated := isAuthenticated st;
            availableUsers := updateFirst (id updated) updates (availableUsers st);
            authListeners := authListeners st;
            item_currentUser := Some (UserJson updated);
            item_isAuthenticated := item_isAuthenticated st;
            console := console st;
            notified := notified st |},
       true)
  | None => (st, false)
  end.

(** [addAuthListener], a [Set.add], and the function it returns, a
    [Set.delete]. *)
Definition hasListener (l : listener) (st : State) : bool :=
  bool_decide (l_id l ∈ l_id <$> authListeners st).

Definition withListeners (ls : list listener) (st : State) : State :=
  {| currentUser := currentUser st; isAuthenticated := isAuthenticated st;
     availableUsers := availableUsers st; authListeners := ls;
     item_currentUser := item_currentUser st;
     item_isAuthenticated := item_isAuthenticated st;
     console := console st; notified := notified st |}.

Definition addAuthListener (l : listener) (st : State) : State :=
  if hasListener l st then st
  else withListeners (authListeners st ++ [l])%list st.

Definition removeAuthListener (l : listener) (st : State) : State :=
  withListeners (filter (λ l', l_id l' ≠ l_id l) (authListeners st)) st.

(** [restoreAuthState] *)
Definition restoreAuthState (st : State) : State :=
  match item_currentUser st, item_isAuthenticated st with
  | Some (UserJson user), Some flag =>
      if bool_decide (flag = "true") then login user st else st
  | Some (NotJson text), Some flag =>
      if bool_decide (text ≠ "") && bool_decide (flag = "true") then
        logout
          {| currentUser := currentUser st; isAuthenticated := isAuthenticated st;
             availableUsers := availableUsers st; authListeners := authListeners st;
             item_currentUser := item_currentUser st;
             item_isAuthenticated := item_isAuthenticated st;
             console := (console st ++ [ConsoleError "Failed to restore auth state:"])%list;
             notified := notified st |}
      else st
  | _, _ => st
  end.

(** The constructor, which logs the first user in, followed by the
    [restoreAuthState] of the module; [saved] and [flag] are the two
    items found in [localStorage]. *)
Definition constructor (saved : option savedUser) (flag : option string) : State :=
  let fields :=
    {| currentUser := None; isAuthenticated := false;
       availableUsers := defaultUsers; authListeners := [];
       item_currentUser := saved; item_isAuthenticated := flag;
       console := []; notified := [] |} in
  match availableUsers fields with
  | first :: _ => login first fields
  | [] => fields
  end.

Definition startup (saved : option savedUser) (flag : option string) : State :=
  restoreAuthState (constructor saved flag).

(** The states the service can be in: started, then any calls. *)
Inductive call :=
| Login (user : User)
| Logout
| SwitchAccount (userId : Z)
| UpdateProfile (updates : Updates)
| AddAuthListener (l : listener)
| RemoveAuthListener (l : listener)
| RestoreAuthState.

Definition run (c : call) (st : State) : State :=
  match c with
  | Login user => login user st
  | Logout => logout st
  | SwitchAccount userId => (switchAccount userId st).1
  | UpdateProfile updates => (updateProfile updates st).1
  | AddAuthListener l => addAuthListener l st
  | RemoveAuthListener l => removeAuthListener l st
  | RestoreAuthState => restoreAuthState st
  end.

Inductive reachable : State → Prop :=
| reachable_start saved flag : reachable (startup saved flag)
| reachable_run st c : reachable st → reachable (run c st).

(** [localStorage] mirrors the session: the saved user is the current
    one, the flag is there exactly when authenticated, and that is exactly
    when there is a current user. *)
Definition mirrored (st : State) : Prop :=
  item_currentUser st = UserJson <$> currentUser st
  ∧ item_isAuthenticated st = (if isAuthenticated st then Some "true" else None)
  ∧ (isAuthenticated st = true ↔ is_Some (currentUser st)).

(** Sample values. *)
Definition Bob : User :=
  mkUser 2 "Bob Smith" "bob.smith@company.com" "B" "Backend Developer" true.

Definition rename (to : string) : Updates :=
  mkUpdates None (Some to) None None None None.

Definition quiet (n : nat) : listener := mkListener n (λ _ _, false).

Close Scope string_scope.

End AuthService.

(** ** The board store with its objects

    [projectsData] holds references: [updateProjectData] stores the object
    it is given, [getProjectData] returns the stored object itself, and
    [push] and the assignment to [projectData[name]] change that object in
    place.  Here boards and arrays live in a heap and are named by their
    address, so that two project ids can hold the same board and two
    boards the same array. *)

Module StoreObjects.

Import ProjectDataService.

(** [projectsData] maps a project id to the address of its board
    object, [objects] a board object to its own properties (each the
    address of an array), [arrays] an array to its elements; [next] is the
    first address not yet used. *)
Record Heap := mkHeap {
  projectsData : gmap Z nat;
  objects : gmap nat (gmap string nat);
  arrays : gmap nat (list Task);
  next : nat
}.

Definition properties (h : Heap) (r : nat) : gmap string nat :=
  default ∅ (objects h !! r).

Definition elements (h : Heap) (a : nat) : list Task :=
  default [] (arrays h !! a).

(** The board an object holds, and the board of a project; [None] for a
    project the [Map] has no entry for. *)
Definition boardOf (h : Heap) (r : nat) : board := elements h <$> properties h r.

Definition view (h : Heap) (projectId : Z) : option board :=
  boardOf h <$> projectsData h !! projectId.

(** [projectData[name]]: the array an own property holds, or what
    [Object.prototype] supplies. *)
Inductive value :=
| Array (a : nat)
| Inherited
| Undefined.

Definition get_prop (h : Heap) (r : nat) (name : string) : value :=
  match properties h r !! name with
  | Some a => Array a
  | None =>
      if bool_decide (name ∈ object_prototype_keys) then Inherited else Undefined
  end.

(** An array literal or the result of [filter]: a new array. *)
Definition newArray (l : list Task) (h : Heap) : Heap * nat :=
  ({| projectsData := projectsData h; objects := objects h;
      arrays := <[next h := l]> (arrays h); next := S (next h) |},
   next h).

(** An object literal whose properties are array literals: each array is
    made and put under its name, then the object itself. *)
Definition newProperty (column : string * list Task) (acc : Heap * gmap string nat)
    : Heap * gmap string nat :=
  let made := newArray column.2 acc.1 in
  (made.1, <[column.1 := made.2]> acc.2).

Definition newObject (b : board) (h : Heap) : Heap * nat :=
  let filled := foldr newProperty (h, ∅) (map_to_list b) in
  let h1 := filled.1 in
  ({| projectsData := projectsData h1;
      objects := <[next h1 := filled.2]> (objects h1);
      arrays := arrays h1; next := S (next h1) |},
   next h1).

(** [projectsData.set(projectId, r)] *)
Definition setProject (projectId : Z) (r : nat) (h : Heap) : Heap :=
  {| projectsData := <[projectId := r]> (projectsData h); objects := objects h;
     arrays := arrays h; next := next h |}.

(** [r[name] = a] *)
Definition assign (r : nat) (name : string) (a : nat) (h : Heap) : Heap :=
  {| projectsData := projectsData h;
     objects := <[r := <[name := a]> (properties h r)]> (objects h);
     arrays := arrays h; next := next h |}.

(** [a.push(task)] *)
Definition push (a : nat) (task : Task) (h : Heap) : Heap :=
  {| projectsData := projectsData h; objects := objects h;
     arrays := <[a := elements h a ++ [task]]> (arrays h); next := next h |}.

(** [initializeDefaultData] *)
Definition initialHeap : Heap :=
  let h0 := mkHeap ∅ ∅ ∅ 0 in
  let a := newObject projectA h0 in
  let h1 := setProject 1 a.2 a.1 in
  let b := newObject projectB h1 in
  let h2 := setProject 2 b.2 b.1 in
  let c := newObject projectC h2 in
  setProject 3 c.2 c.1.

(** [getProjectData]: the address of the stored board. *)
Definition getProjectData (projectId : Z) (h : Heap) : Heap * nat :=
  match projectsData h !! projectId with
  | Some r => (h, r)
  | None =>
      let created := newObject emptyBoard h in
      (setProject projectId created.2 created.1, created.2)
  end.

(** [updateProjectData]: [newData] is the address of the object passed. *)
Definition updateProjectData (projectId : Z) (newData : nat) (h : Heap) : Heap :=
  setProject projectId newData h.

(** [addTaskToProject] *)
Definition addTaskToProject (projectId : Z) (columnName : string) (task : Task)
    (h : Heap) : Heap * completion :=
  let loaded := getProjectData projectId h in
  let projectData := loaded.2 in
  match get_prop loaded.1 projectData columnName with
  | Array a =>
      (updateProjectData projectId projectData (push a task loaded.1), Returned)
  | Inherited => (loaded.1, TypeError)
  | Undefined => (loaded.1, Returned)
  end.

(** [moveTaskInProject] *)
Definition moveTaskInProject (projectId : Z) (taskId fromColumn toColumn : string)
    (h : Heap) : Heap * completion :=
  let loaded := getProjectData projectId h in
  let projectData := loaded.2 in
  match get_prop loaded.1 projectData fromColumn with
  | Undefined => (loaded.1, Returned)
  | Inherited => (loaded.1, TypeError)
  | Array a =>
      match List.find (λ t, bool_decide (id t = taskId)) (elements loaded.1 a) with
      | None => (loaded.1, Returned)
      | Some task =>
          let filtered :=
            newArray (filter (λ t, id t ≠ taskId) (elements loaded.1 a)) loaded.1 in
          let removed := assign projectData fromColumn filtered.2 filtered.1 in
          match get_prop removed projectData toColumn with
          | Array a' =>
              (updateProjectData projectId projectData (push a' task removed), Returned)
          | Inherited | Undefined => (removed, TypeError)
          end
      end
  end.

(** [deleteTaskFromProject] *)
Definition deleteTaskFromProject (projectId : Z) (taskId columnName : string)
    (h : Heap) : Heap * completion :=
  let loaded := getProjectData projectId h in
  let projectData := loaded.2 in
  match get_prop loaded.1 projectData columnName with
  | Array a =>
      let filtered :=
        newArray (filter (λ t, id t ≠ taskId) (elements loaded.1 a)) loaded.1 in
      (updateProjectData projectId projectData
         (assign projectData columnName filtered.2 filtered.1),
       Returned)
  | Inherited => (loaded.1, TypeError)
  | Undefined => (loaded.1, Returned)
  end.

(** [clearProjectData] *)
Definition clearProjectData (projectId : Z) (h : Heap) : Heap :=
  let created := newObject emptyBoard h in
  setProject projectId created.2 created.1.

(** The board of [projectId] is made of addresses in use. *)
Definition allocated (h : Heap) (projectId : Z) : Prop :=
  ∀ r, projectsData h !! projectId = Some r →
       (r < next h)%nat
       ∧ ∀ name a, properties h r !! name = Some a → (a < next h)%nat.

(** Two projects share nothing: their boards are different objects and
    no array is a column of both. *)
Definition apart (h : Heap) (p q : Z) : Prop :=
  ∀ rp rq, projectsData h !! p = Some rp → projectsData h !! q = Some rq →
           rp ≠ rq
           ∧ ∀ name name' a, properties h rp !! name = Some a →
                             properties h rq !! name' = Some a → False.

(** The board of [projectId] is in [h'] the object it was in [h], with
    the properties and the arrays it had. *)
Definition sameBoard (h h' : Heap) (projectId : Z) : Prop :=
  projectsData h' !! projectId = projectsData h !! projectId
  ∧ ∀ r, projectsData h !! projectId = Some r →
         objects h' !! r = objects h !! r
         ∧ ∀ name a, properties h r !! name = Some a →
                     arrays h' !! a = arrays h !! a.

(** The heap an operation leaves behind, and the heaps the service
    reaches through the operations that take no board from the caller. *)
Definition perform (o : operation) (h : Heap) : Heap :=
  match o with
  | OpGetProjectData p => (getProjectData p h).1
  | OpAddTask p c t => (addTaskToProject p c t h).1
  | OpMoveTask p i f t => (moveTaskInProject p i f t h).1
  | OpDeleteTask p i c => (deleteTaskFromProject p i c h).1
  | OpClearProjectData p => clearProjectData p h
  end.

Inductive reachable : Heap → Prop :=
| reachable_init : reachable initialHeap
| reachable_step h o : reachable h → reachable (perform o h).

(** Every board is made of addresses in use, and no two projects share
    anything. *)
Definition wellFormed (h : Heap) : Prop :=
  (∀ p, allocated h p) ∧ (∀ p q, p ≠ q → apart h p q).

(** The board of [projectId] in [h'] is made of addresses that are new
    since [h] or were its own in [h]. *)
Definition grownFrom (h h' : Heap) (projectId : Z) : Prop :=
  ∀ r', projectsData h' !! projectId = Some r' →
        (r' < next h')%nat
        ∧ ((next h ≤ r')%nat ∨ projectsData h !! projectId = Some r')
        ∧ ∀ name a, properties h' r' !! name = Some a →
                    (a < next h')%nat
                    ∧ ((next h ≤ a)%nat
                       ∨ ∃ r name0, projectsData h !! projectId = Some r
                                    ∧ properties h r !! name0 = Some a).

(** The store after [updateProjectData(2, getProjectData(1))]. *)
Definition sharedBoard : Heap :=
  let loaded := getProjectData 1 initialHeap in
  updateProjectData 2 loaded.2 loaded.1.

End StoreObjects.

(** ** Listeners that change the subscriptions

    [notifyListeners] walks the very array that [listeners] holds for the
    event, and the function returned by [subscribe] splices that array.
    A listener may call either while it is being notified.  Here a
    listener comes with the calls it makes to [subscribe] and to
    unsubscribe functions when it is called; other calls into the service
    are left out.  With these two the array under an event, once made, is
    never replaced, so the array being walked is the one [listeners]
    holds. *)

Module LiveListeners.

Import WebSocketService.

Inductive reentry :=
| Subscribes (event : string) (cb : callback)
| Unsubscribes (event : string) (cb : callback).

Definition reenter (w : World) (a : reentry) : World :=
  match a with
  | Subscribes event cb => subscribe event cb w
  | Unsubscribes event cb => unsubscribe event cb w
  end.

(** What the listener with a given identity does when called with an
    argument. *)
Definition behaviour := nat → jsval → list reentry.

(** [callback(data)]: the listener makes its calls, then returns or
    throws. *)
Definition call (does : behaviour) (cb : callback) (data : jsval) : Js :=
  λ w, (foldl reenter (record_call cb data w) (does (cb_id cb) data),
        if cb_throws cb data then Throw else Normal).

(** [Array.prototype.forEach] on the array under [event]: the length is
    read once, before the first call; the element at an index is read when
    its turn comes, and an index the array no longer has is passed over. *)
Fixpoint forEach (f : callback → Js) (event : string) (index steps : nat) : Js :=
  match steps with
  | O => pure (λ w, w)
  | S steps' =>
      λ w, match default [] (listeners (service w) !! event) !! index with
           | Some cb => (f cb ;; forEach f event (S index) steps') w
           | None => forEach f event (S index) steps' w
           end
  end.

(** [notifyListeners] *)
Definition notifyListeners (does : behaviour) (event : string) (data : jsval) : Js :=
  λ w, match listeners (service w) !! event with
       | None => (w, Normal)
       | Some callbacks =>
           forEach (λ callback,
                      tryCatch (call does callback data)
                        (pure (print (ConsoleError "Error in WebSocket listener:"))))
             event 0 (length callbacks) w
       end.

(** Listeners that leave the subscriptions alone. *)
Definition passive : behaviour := λ _ _, [].



End LiveListeners.

(** ** Reading an ISO 8601 timestamp

    The date and time a string of the form [YYYY-MM-DDTHH:mm:ss.sssZ]
    (or, with an expanded year, [±YYYYYY-MM-DDTHH:mm:ss.sssZ]) denotes,
    and the time value of that date and time in UTC. *)

Module Iso8601.

Import IsoDate.

Record DateTime := mkDateTime {
  year : Z;
  month : Z;
  day : Z;
  hour : Z;
  minute : Z;
  second : Z;
  millisecond : Z
}.

Definition digitValue (c : ascii) : option Z :=
  if is_digit c then Some (Z.of_nat (nat_of_ascii c) - 48) else None.

(** [width] digits, most significant first. *)
Fixpoint readNumber (width : nat) (acc : Z) (s : string) : option (Z * string) :=
  match width with
  | O => Some (acc, s)
  | S width' =>
      match s with
      | String c s' =>
          match digitValue c with
          | Some v => readNumber width' (acc * 10 + v) s'
          | None => None
          end
      | EmptyString => None
      end
  end.

Definition expect (c : ascii) (s : string) : option string :=
  match s with
  | String c' s' => if bool_decide (c' = c) then Some s' else None
  | EmptyString => None
  end.

Definition readYear (s : string) : option (Z * string) :=
  match s with
  | String c s' =>
      if is_sign c then
        match readNumber 6 0 s' with
        | Some (y, rest) => Some (if bool_decide (c = "-"%char) then - y else y, rest)
        | None => None
        end
      else readNumber 4 0 s
  | EmptyString => None
  end.

Definition parse (s : string) : option DateTime :=
  '(y, s) ← readYear s;
  s ← expect "-" s;
  '(mo, s) ← readNumber 2 0 s;
  s ← expect "-" s;
  '(d, s) ← readNumber 2 0 s;
  s ← expect "T" s;
  '(h, s) ← readNumber 2 0 s;
  s ← expect ":" s;
  '(mi, s) ← readNumber 2 0 s;
  s ← expect ":" s;
  '(sec, s) ← readNumber 2 0 s;
  s ← expect "." s;
  '(ms, s) ← readNumber 3 0 s;
  s ← expect "Z" s;
  if bool_decide (s = EmptyString) then Some (mkDateTime y mo d h mi sec ms) else None.

Definition daysInMonth (y m : Z) : Z :=
  match m with
  | 2 => if isLeapYear y then 29 else 28
  | 4 | 6 | 9 | 11 => 30
  | _ => 31
  end.

(** A date of the calendar and a time of the day. *)
Definition calendar (d : DateTime) : Prop :=
  1 <= month d <= 12
  ∧ 1 <= day d <= daysInMonth (year d) (month d)
  ∧ 0 <= hour d <= 23
  ∧ 0 <= minute d <= 59
  ∧ 0 <= second d <= 59
  ∧ 0 <= millisecond d <= 999.

(** The days of year [y] before its month [m]. *)
Definition daysBefore (y m : Z) : Z :=
  let leap := if isLeapYear y then 1 else 0 in
  match m with
  | 1 => 0
  | 2 => 31
  | 3 => 59 + leap
  | 4 => 90 + leap
  | 5 => 120 + leap
  | 6 => 151 + leap
  | 7 => 181 + leap
  | 8 => 212 + leap
  | 9 => 243 + leap
  | 10 => 273 + leap
  | 11 => 304 + leap
  | _ => 334 + leap
  end.

(** Milliseconds from 1970-01-01T00:00:00.000Z to the date and time. *)
Definition timeOf (d : DateTime) : Z :=
  (DayFromYear (year d) + daysBefore (year d) (month d) + (day d - 1)) * msPerDay
  + hour d * msPerHour + minute d * msPerMinute + second d * msPerSecond
  + millisecond d.

End Iso8601.

(** ** The envelope on the wire *)

Module Protocol.

Import IsoDate WebSocketService.

Open Scope string_scope.

(** The envelope of the protocol with its three fields filled in. *)
Definition envelopeOf (type : string) (payload : json) (timestamp : string) : json :=
  JObj [("type", JStr type); ("payload", payload); ("timestamp", JStr timestamp)].

Definition isObject (j : json) : bool :=
  match j with
  | JObj _ => true
  | _ => false
  end.

(** A call that hands exactly [frame] to the socket and changes nothing
    else but the console. *)
Definition sends (m : Js) (frame : json) (w : World) : Prop :=
  ∃ w', m w = (w', Normal)
        ∧ sent w' = (sent w ++ [frame])%list
        ∧ service w' = service w ∧ timers w' = timers w
        ∧ delays w' = delays w ∧ invoked w' = invoked w.

Close Scope string_scope.

End Protocol.

(** * Properties of the board store *)

Section BoardStore.

Import ProjectDataService.

Lemma get_prop_array (b : board) name l :
  get_prop b name = PArray l ↔ b !! name = Some l.
Proof.
  unfold get_prop. destruct (b !! name) as [l'|]; [naive_solver|].
  case_bool_decide; naive_solver.
Qed.

Lemma get_prop_not_array (b : board) name :
  b !! name = None →
  get_prop b name = (if bool_decide (name ∈ object_prototype_keys) then PInherited
                     else PUndefined).
Proof. unfold get_prop. by intros ->. Qed.

Lemma loaded_lookup s p : loaded p s !! p = Some (view s p).
Proof.
  unfold loaded, view, getProjectData.
  destruct (s !! p) eqn:E; simpl; [done|]. by rewrite lookup_insert_eq.
Qed.

Lemma loaded_lookup_ne s p q : p ≠ q → loaded p s !! q = s !! q.
Proof.
  intros Hne. unfold loaded, getProjectData.
  destruct (s !! p); simpl; [done|]. by rewrite lookup_insert_ne.
Qed.

Lemma getProjectData_eq s p : getProjectData p s = (loaded p s, view s p).
Proof. unfold loaded, view. by destruct (getProjectData p s). Qed.

Lemma view_lookup s p b : s !! p = Some b → view s p = b.
Proof. unfold view, getProjectData. by intros ->. Qed.

Lemma view_default s p : view s p = default emptyBoard (s !! p).
Proof. unfold view, getProjectData. by destruct (s !! p). Qed.

Lemma view_loaded s p q : view (loaded p s) q = view s q.
Proof.
  destruct (decide (p = q)) as [->|Hne].
  - apply view_lookup, loaded_lookup.
  - rewrite !view_default. by rewrite loaded_lookup_ne.
Qed.

Lemma view_insert s p b : view (<[p := b]> s) p = b.
Proof. apply view_lookup, lookup_insert_eq. Qed.

Lemma view_insert_ne s p q b : p ≠ q → view (<[p := b]> s) q = view s q.
Proof. intros. rewrite !view_default. by rewrite lookup_insert_ne. Qed.

Lemma find_id_Some (l : list Task) i t :
  List.find (λ t, bool_decide (id t = i)) l = Some t → t ∈ l ∧ id t = i.
Proof.
  intros H. apply find_some in H as [Hin Hb].
  apply bool_decide_eq_true in Hb. by rewrite list_elem_of_In.
Qed.

Lemma find_id_None (l : list Task) i :
  List.find (λ t, bool_decide (id t = i)) l = None ↔ ∀ t, t ∈ l → id t ≠ i.
Proof.
  split.
  - intros H t Hin Heq. rewrite list_elem_of_In in Hin.
    pose proof (find_none _ _ H t Hin) as Hb. simpl in Hb.
    by apply bool_decide_eq_false in Hb.
  - intros H. destruct (List.find _ l) as [t|] eqn:E; [|done].
    apply find_id_Some in E as [Hin Heq]. by destruct (H t Hin).
Qed.

(** What each operation does, in terms of the board it works on. *)
Lemma addTaskToProject_column s p c t l :
  view s p !! c = Some l →
  addTaskToProject p c t s
  = (<[p := <[c := l ++ [t]]> (view s p)]> (loaded p s), Returned).
Proof.
  intros H. unfold addTaskToProject. rewrite getProjectData_eq.
  apply get_prop_array in H. by rewrite H.
Qed.

Lemma addTaskToProject_no_column s p c t :
  view s p !! c = None → (addTaskToProject p c t s).1 = loaded p s.
Proof.
  intros H. unfold addTaskToProject. rewrite getProjectData_eq.
  rewrite (get_prop_not_array _ _ H). by case_bool_decide.
Qed.

Lemma deleteTaskFromProject_column s p i c l :
  view s p !! c = Some l →
  deleteTaskFromProject p i c s
  = (<[p := <[c := filter (λ t, id t ≠ i) l]> (view s p)]> (loaded p s), Returned).
Proof.
  intros H. unfold deleteTaskFromProject. rewrite getProjectData_eq.
  apply get_prop_array in H. by rewrite H.
Qed.

Lemma deleteTaskFromProject_no_column s p i c :
  view s p !! c = None → (deleteTaskFromProject p i c s).1 = loaded p s.
Proof.
  intros H. unfold deleteTaskFromProject. rewrite getProjectData_eq.
  rewrite (get_prop_not_array _ _ H). by case_bool_decide.
Qed.

Lemma moveTaskInProject_no_column s p i f t :
  view s p !! f = None →
  moveTaskInProject p i f t s
  = (loaded p s, if bool_decide (f ∈ object_prototype_keys) then TypeError else Returned).
Proof.
  intros H. unfold moveTaskInProject. rewrite getProjectData_eq.
  rewrite (get_prop_not_array _ _ H). by case_bool_decide.
Qed.

Lemma moveTaskInProject_not_found s p i f t l :
  view s p !! f = Some l →
  List.find (λ x, bool_decide (id x = i)) l = None →
  moveTaskInProject p i f t s = (loaded p s, Returned).
Proof.
  intros H Hfind. unfold moveTaskInProject. rewrite getProjectData_eq.
  apply get_prop_array in H. by rewrite H, Hfind.
Qed.

Lemma moveTaskInProject_found s p i f t l task :
  view s p !! f = Some l →
  List.find (λ x, bool_decide (id x = i)) l = Some task →
  let removed := <[f := filter (λ x, id x ≠ i) l]> (view s p) in
  moveTaskInProject p i f t s
  = match removed !! t with
    | Some l' => (<[p := <[t := l' ++ [task]]> removed]> (loaded p s), Returned)
    | None => (<[p := removed]> (loaded p s), TypeError)
    end.
Proof.
  intros H Hfind removed. unfold moveTaskInProject. rewrite getProjectData_eq.
  apply get_prop_array in H. rewrite H, Hfind. fold removed.
  unfold updateProjectData. destruct (removed !! t) as [l'|] eqn:E.
  - apply get_prop_array in E. rewrite E. by rewrite insert_insert_eq.
  - rewrite (get_prop_not_array _ _ E). by case_bool_decide.
Qed.

(** Every stored board has the four columns. *)
Definition fourColumns (s : store) : Prop :=
  ∀ p b, s !! p = Some b → dom b = columnNames.

Lemma dom_emptyBoard : dom emptyBoard = columnNames.
Proof. unfold emptyBoard, columnNames. rewrite dom_list_to_map_L. set_solver. Qed.

Lemma fourColumns_view s p : fourColumns s → dom (view s p) = columnNames.
Proof.
  intros H. rewrite view_default. destruct (s !! p) as [b|] eqn:E; simpl.
  - by apply (H p).
  - apply dom_emptyBoard.
Qed.

Lemma fourColumns_insert s p b :
  fourColumns s → dom b = columnNames → fourColumns (<[p := b]> s).
Proof.
  intros H Hb q b'. destruct (decide (p = q)) as [->|Hne].
  - rewrite lookup_insert_eq. by intros [= <-].
  - rewrite lookup_insert_ne by done. apply H.
Qed.

Lemma fourColumns_loaded s p : fourColumns s → fourColumns (loaded p s).
Proof.
  intros H. unfold loaded, getProjectData. destruct (s !! p); simpl; [done|].
  apply fourColumns_insert; [done|apply dom_emptyBoard].
Qed.

Lemma dom_insert_column (b : board) c l l' :
  b !! c = Some l → dom (<[c := l']> b) = dom b.
Proof. intros H. apply dom_insert_lookup_L. by exists l. Qed.

Lemma fourColumns_perform o s : fourColumns s → fourColumns (perform o s).
Proof.
  intros H. pose proof (fourColumns_loaded s) as Hl.
  destruct o as [p|p c t|p i f t|p i c|p]; simpl.
  - by apply Hl.
  - destruct (view s p !! c) as [l|] eqn:E.
    + rewrite (addTaskToProject_column _ _ _ _ _ E). simpl.
      apply fourColumns_insert; [by apply Hl|].
      rewrite (dom_insert_column _ _ _ _ E). by apply fourColumns_view.
    + rewrite (addTaskToProject_no_column _ _ _ _ E). by apply Hl.
  - destruct (view s p !! f) as [l|] eqn:E.
    + destruct (List.find (λ x, bool_decide (id x = i)) l) as [task|] eqn:Hfind.
      * rewrite (moveTaskInProject_found _ _ _ _ t _ _ E Hfind).
        set (removed := <[f := _]> (view s p)).
        assert (dom removed = columnNames) as Hr.
        { unfold removed. rewrite (dom_insert_column _ _ _ _ E).
          by apply fourColumns_view. }
        destruct (removed !! t) as [l'|] eqn:E'; simpl.
        -- apply fourColumns_insert; [by apply Hl|].
           by rewrite (dom_insert_column _ _ _ _ E').
        -- apply fourColumns_insert; [by apply Hl|done].
      * rewrite (moveTaskInProject_not_found _ _ _ _ t _ E Hfind). by apply Hl.
    + rewrite (moveTaskInProject_no_column _ _ _ _ t E). by apply Hl.
  - destruct (view s p !! c) as [l|] eqn:E.
    + rewrite (deleteTaskFromProject_column _ _ _ _ _ E). simpl.
      apply fourColumns_insert; [by apply Hl|].
      rewrite (dom_insert_column _ _ _ _ E). by apply fourColumns_view.
    + rewrite (deleteTaskFromProject_no_column _ _ _ _ E). by apply Hl.
  - apply fourColumns_insert; [done|apply dom_emptyBoard].
Qed.

Lemma fourColumns_initialStore : fourColumns initialStore.
Proof.
  unfold initialStore.
  repeat apply fourColumns_insert;
    [by intros p b; rewrite lookup_empty|..];
    unfold projectA, projectB, projectC, columnNames;
    rewrite dom_list_to_map_L; set_solver.
Qed.

Lemma fourColumns_reachable s : reachable s → fourColumns s.
Proof.
  induction 1 as [|s o _ IH].
  - apply fourColumns_initialStore.
  - by apply fourColumns_perform.
Qed.

Lemma emptyBoard_lookup c : c ∈ columnNames → emptyBoard !! c = Some [].
Proof.
  unfold columnNames. rewrite !elem_of_union, !elem_of_singleton.
  intros [[[-> | ->] | ->] | ->]; reflexivity.
Qed.

(** C8.  In every store reachable from the default data through
    [getProjectData], [addTaskToProject], [moveTaskInProject],
    [deleteTaskFromProject] and [clearProjectData], every project's board
    has exactly the columns TO DO, IN PROGRESS, IN REVIEW and DONE, no
    operation adds or removes one, and loading an unknown project stores
    and returns a board with exactly these four columns, all empty. *)
Theorem board_columns_fixed (s : store) (p : Z) :
  reachable s →
  (∀ b, s !! p = Some b → dom b = columnNames)
  ∧ (∀ o, dom (view (perform o s) p) = dom (view s p))
  ∧ (s !! p = None →
     ∃ b, getProjectData p s = (<[p := b]> s, b)
          ∧ dom b = columnNames
          ∧ ∀ c, c ∈ columnNames → b !! c = Some []).
Proof.
  intros Hs. pose proof (fourColumns_reachable s Hs) as H4.
  split; [|split].
  - intros b Hb. by apply (H4 p).
  - intros o. rewrite !fourColumns_view; [done|done|].
    by apply fourColumns_perform.
  - intros Hnone. exists emptyBoard. split; [|split].
    + unfold getProjectData. by rewrite Hnone.
    + apply dom_emptyBoard.
    + apply emptyBoard_lookup.
Qed.

(** Membership of a task in the columns of an updated board. *)
Lemma inColumn_insert (b : board) c l j c' :
  inColumn (<[c := l]> b) j c'
  ↔ (c' = c ∧ ∃ x, x ∈ l ∧ id x = j) ∨ (c' ≠ c ∧ inColumn b j c').
Proof.
  unfold inColumn. destruct (decide (c' = c)) as [->|Hne].
  - rewrite lookup_insert_eq. naive_solver.
  - rewrite lookup_insert_ne by done. naive_solver.
Qed.

Lemma inColumn_lookup (b : board) c l j :
  b !! c = Some l → inColumn b j c ↔ ∃ x, x ∈ l ∧ id x = j.
Proof. intros H. unfold inColumn. rewrite H. naive_solver. Qed.

Lemma not_inColumn_find (b : board) c l i :
  b !! c = Some l →
  ¬ inColumn b i c ↔ List.find (λ x, bool_decide (id x = i)) l = None.
Proof.
  intros H. rewrite (inColumn_lookup _ _ _ _ H), find_id_None. naive_solver.
Qed.

Lemma filter_other_id (l : list Task) i j :
  j ≠ i →
  (∃ x, x ∈ filter (λ x, id x ≠ i) l ∧ id x = j) ↔ ∃ x, x ∈ l ∧ id x = j.
Proof.
  intros Hne. split; intros (x & Hx & <-); exists x.
  - apply list_elem_of_filter in Hx. naive_solver.
  - split; [|done]. by apply list_elem_of_filter.
Qed.

Lemma filter_same_id (l : list Task) i :
  ¬ ∃ x, x ∈ filter (λ x, id x ≠ i) l ∧ id x = i.
Proof. intros (x & Hx & Hid). apply list_elem_of_filter in Hx. naive_solver. Qed.

(** A move whose source column lacks the task leaves the store as
    [getProjectData] left it. *)
Lemma moveTaskInProject_absent s p i f t :
  ¬ inColumn (view s p) i f →
  moveTaskInProject p i f t s
  = (loaded p s,
     if bool_decide (view s p !! f = None ∧ f ∈ object_prototype_keys)
     then TypeError else Returned).
Proof.
  intros Habs. destruct (view s p !! f) as [l|] eqn:E.
  - rewrite (moveTaskInProject_not_found _ _ _ _ t l E).
    + rewrite bool_decide_eq_false_2; [done|naive_solver].
    + by apply (not_inColumn_find _ _ _ _ E).
  - rewrite (moveTaskInProject_no_column _ _ _ _ t E).
    repeat case_bool_decide; naive_solver.
Qed.

(** C1, as the code has it.  On a board where the task's id is in exactly
    one column, a move to one of the board's columns leaves it in exactly
    one column: if the task is in [fromColumn] the call returns normally
    and the task is then in [toColumn] and nowhere else, otherwise the
    board is unchanged; the columns of all other tasks are unchanged. *)
Theorem moveTask_keeps_one_column (s : store) (p : Z) (i f t : string) :
  let b := view s p in
  let r := moveTaskInProject p i f t s in
  let b' := view r.1 p in
  is_Some (b !! t) →
  inExactlyOneColumn b i →
  inExactlyOneColumn b' i
  ∧ (inColumn b i f → r.2 = Returned ∧ ∀ c, inColumn b' i c ↔ c = t)
  ∧ (¬ inColumn b i f → b' = b)
  ∧ (∀ j c, j ≠ i → inColumn b' j c ↔ inColumn b j c).
Proof.
  intros b r b' [lt Ht] Hone.
  assert (¬ inColumn b i f → b' = b) as Habsent.
  { intros Habs. unfold b', r. rewrite (moveTaskInProject_absent _ _ _ _ t Habs).
    simpl. apply view_loaded. }
  destruct (b !! f) as [l|] eqn:Ef; cycle 1.
  { assert (¬ inColumn b i f) as Habs by (unfold inColumn; rewrite Ef; naive_solver).
    rewrite (Habsent Habs). naive_solver. }
  destruct (List.find (λ x, bool_decide (id x = i)) l) as [task|] eqn:Hfind; cycle 1.
  { assert (¬ inColumn b i f) as Habs by by apply (not_inColumn_find _ _ _ _ Ef).
    rewrite (Habsent Habs). naive_solver. }
  apply find_id_Some in Hfind as Htask. destruct Htask as [Hin Hid].
  pose proof (moveTaskInProject_found s p i f t l task Ef Hfind) as Hmove.
  simpl in Hmove. fold b in Hmove.
  set (removed := <[f := filter (λ x, id x ≠ i) l]> b) in *.
  assert (∃ l', removed !! t = Some l'
                ∧ ∀ j, j ≠ i → (∃ x, x ∈ l' ∧ id x = j) ↔ inColumn b j t)
    as (l' & Hl' & Hother).
  { unfold removed. destruct (decide (t = f)) as [->|Hne].
    - rewrite lookup_insert_eq. eexists; split; [done|].
      intros j Hj. rewrite (inColumn_lookup _ _ _ _ Ef). by apply filter_other_id.
    - rewrite lookup_insert_ne by done. exists lt. split; [done|].
      intros j Hj. by rewrite (inColumn_lookup _ _ _ _ Ht). }
  rewrite Hl' in Hmove.
  assert (b' = <[t := l' ++ [task]]> removed) as Hb'.
  { unfold b', r. rewrite Hmove. simpl. apply view_insert. }
  assert (inColumn b i f) as Hf by (apply (inColumn_lookup _ _ _ _ Ef); eauto).
  assert (∀ c, inColumn b i c → c = f) as Honly.
  { destruct Hone as (c0 & _ & Huniq). intros c Hc.
    rewrite (Huniq c Hc). symmetry. by apply Huniq. }
  assert (∀ c, inColumn b' i c ↔ c = t) as Hafter.
  { intros c. rewrite Hb', inColumn_insert. split.
    - intros [[-> _]|[Hne Hc]]; [done|]. exfalso.
      unfold removed in Hc. apply inColumn_insert in Hc as [[-> Hc]|[Hnf Hc]].
      + by apply (filter_same_id l i).
      + by apply Hnf, Honly.
    - intros ->. left. split; [done|]. exists task. rewrite elem_of_app.
      split; [right; by apply list_elem_of_singleton|done]. }
  split; [|split; [|split]].
  - exists t. split; [by apply Hafter|]. intros c Hc. by apply Hafter.
  - intros _. split; [|done]. unfold r. by rewrite Hmove.
  - done.
  - intros j c Hj. rewrite Hb', inColumn_insert.
    destruct (decide (c = t)) as [->|Hct].
    + rewrite <- (Hother j Hj). split.
      * intros [[_ (x & Hx & Hxj)]|[? _]]; [|done].
        apply elem_of_app in Hx as [Hx|Hx]; [eauto|].
        apply list_elem_of_singleton in Hx as ->. congruence.
      * intros (x & Hx & Hxj). left. split; [done|]. exists x.
        rewrite elem_of_app. eauto.
    + unfold removed. rewrite inColumn_insert.
      destruct (decide (c = f)) as [->|Hcf].
      * rewrite (inColumn_lookup _ _ _ _ Ef), (filter_other_id l i j Hj).
        naive_solver.
      * naive_solver.
Qed.

(** C2.  Creating tasks without a position appends each of them to the
    end of the target column: after [addTaskToProject] the column is the
    old sequence followed by the new task, after a series of creations it
    is the old sequence followed by the new tasks in creation order, the
    other columns are as before, and the local update of
    [handleAddTaskInline] appends in the same way. *)
Theorem createTask_appends (s : store) (p : Z) (c : string) (l ts : list Task) :
  view s p !! c = Some l →
  view (addTasks p c ts s) p !! c = Some (l ++ ts)
  ∧ (∀ c', c' ≠ c → view (addTasks p c ts s) p !! c' = view s p !! c')
  ∧ (∀ t, addTaskToProject p c t s
          = (<[p := <[c := l ++ [t]]> (view s p)]> (loaded p s), Returned))
  ∧ (∀ t, handleAddTaskInline_updater c t (view s p)
          = Some (<[c := l ++ [t]]> (view s p))).
Proof.
  intros Hc. split; [|split; [|split]].
  - revert s l Hc. induction ts as [|t ts IH]; intros s l Hc; simpl.
    + by rewrite app_nil_r.
    + rewrite (addTaskToProject_column _ _ _ _ _ Hc). simpl.
      rewrite (IH _ (l ++ [t])).
      * by rewrite <- app_assoc.
      * by rewrite view_insert, lookup_insert_eq.
  - intros c' Hne. revert s l Hc. induction ts as [|t ts IH]; intros s l Hc; simpl.
    + done.
    + rewrite (addTaskToProject_column _ _ _ _ _ Hc). simpl.
      rewrite (IH _ (l ++ [t])).
      * by rewrite view_insert, lookup_insert_ne.
      * by rewrite view_insert, lookup_insert_eq.
  - intros t. by apply addTaskToProject_column.
  - intros t. unfold handleAddTaskInline_updater, own_array.
    apply get_prop_array in Hc. by rewrite Hc.
Qed.


Lemma columnsOf_spec (b : board) i c : c ∈ columnsOf b i ↔ inColumn b i c.
Proof.
  unfold columnsOf, inColumn. rewrite list_elem_of_fmap. split.
  - intros ([c' l] & -> & H). apply list_elem_of_filter in H as [Hex Hin].
    apply elem_of_map_to_list in Hin. apply Exists_exists in Hex. simpl in *.
    naive_solver.
  - intros (l & Hl & Hex). exists (c, l). split; [done|].
    apply list_elem_of_filter. split.
    + apply Exists_exists. naive_solver.
    + by apply elem_of_map_to_list.
Qed.

Lemma columnsOf_singleton (b : board) i c :
  columnsOf b i = [c] → inExactlyOneColumn b i.
Proof.
  intros H. exists c. split.
  - apply columnsOf_spec. rewrite H. by apply list_elem_of_singleton.
  - intros c' Hc'. apply columnsOf_spec in Hc'. rewrite H in Hc'.
    by apply list_elem_of_singleton in Hc'.
Qed.

End BoardStore.

(** ** Concrete boards *)

Section BoardExamples.

Import ProjectDataService.
Open Scope string_scope.

(** Three tasks created in TO DO of a project the store did not know. *)
Example ordering_scenario :
  view (addTasks 42 "TO DO" [T1; T2; T3] initialStore) 42 !! "TO DO"
  = Some [T1; T2; T3].
Proof. vm_compute. reflexivity. Qed.

(** C1 as stated fails on a reachable store: [addTaskToProject] accepts a
    task that is already on the board, after which the task is in two
    columns, before a move and after it. *)
Lemma duplicate_id_in_two_columns :
  reachable withDuplicate
  ∧ (∃ l, view withDuplicate 1 !! "TO DO" = Some l ∧ PA_1 ∈ l)
  ∧ (∃ l, view withDuplicate 1 !! "DONE" = Some l ∧ PA_1 ∈ l)
  ∧ ¬ inExactlyOneColumn (view withDuplicate 1) "PA-1"
  ∧ columnsOf
      (view (moveTaskInProject 1 "PA-1" "TO DO" "IN PROGRESS" withDuplicate).1 1)
      "PA-1"
    = ["IN PROGRESS"; "DONE"]
  ∧ ¬ inExactlyOneColumn
        (view (moveTaskInProject 1 "PA-1" "TO DO" "IN PROGRESS" withDuplicate).1 1)
        "PA-1".
Proof.
  split; [apply reachable_step, reachable_init|].
  split; [eexists; split; [by vm_compute|set_solver]|].
  split; [eexists; split; [by vm_compute|set_solver]|].
  split; [|split; [by vm_compute|]].
  - intros (c & _ & Huniq).
    assert ("TO DO" = c) as H1 by (apply Huniq, columnsOf_spec; vm_compute; set_solver).
    assert ("DONE" = c) as H2 by (apply Huniq, columnsOf_spec; vm_compute; set_solver).
    congruence.
  - intros (c & _ & Huniq).
    assert ("IN PROGRESS" = c) as H1 by (apply Huniq, columnsOf_spec; vm_compute; set_solver).
    assert ("DONE" = c) as H2 by (apply Huniq, columnsOf_spec; vm_compute; set_solver).
    congruence.
Qed.

(** A move to a name that is not a column removes the task and then
    throws: the task is left in no column. *)
Example move_to_missing_column_loses_task :
  let r := moveTaskInProject 1 "PA-1" "TO DO" "ARCHIVE" initialStore in
  r.2 = TypeError ∧ ∀ c, ¬ inColumn (view r.1 1) "PA-1" c.
Proof.
  split; [by vm_compute|].
  intros c Hc. apply columnsOf_spec in Hc. vm_compute in Hc. by inversion Hc.
Qed.

(** Moving PA-1 of project 1 from TO DO to DONE. *)
Lemma moveTask_keeps_one_column_witness :
  is_Some (view initialStore 1 !! "DONE")
  ∧ inExactlyOneColumn (view initialStore 1) "PA-1"
  ∧ inExactlyOneColumn
      (view (moveTaskInProject 1 "PA-1" "TO DO" "DONE" initialStore).1 1) "PA-1".
Proof.
  assert (is_Some (view initialStore 1 !! "DONE")) as H1
    by (vm_compute; eexists; reflexivity).
  assert (inExactlyOneColumn (view initialStore 1) "PA-1") as H2
    by (apply (columnsOf_singleton _ _ "TO DO"); vm_compute; reflexivity).
  split; [exact H1|]. split; [exact H2|].
  exact (proj1 (moveTask_keeps_one_column initialStore 1 "PA-1" "TO DO" "DONE" H1 H2)).
Defined.

(** The ordering scenario: T1, T2, T3 created in TO DO of a new project. *)
Lemma createTask_appends_witness :
  view initialStore 42 !! "TO DO" = Some []
  ∧ view (addTasks 42 "TO DO" [T1; T2; T3] initialStore) 42 !! "TO DO"
    = Some [T1; T2; T3].
Proof.
  assert (view initialStore 42 !! "TO DO" = Some []) as H by (vm_compute; reflexivity).
  split; [exact H|].
  exact (proj1 (createTask_appends initialStore 42 "TO DO" [] [T1; T2; T3] H)).
Defined.



(** The invariant after a move that threw, and under a further operation. *)
Lemma board_columns_fixed_witness :
  reachable (perform (OpMoveTask 1 "PA-1" "TO DO" "ARCHIVE") initialStore)
  ∧ dom (view (perform (OpClearProjectData 1)
                 (perform (OpMoveTask 1 "PA-1" "TO DO" "ARCHIVE") initialStore)) 1)
    = dom (view (perform (OpMoveTask 1 "PA-1" "TO DO" "ARCHIVE") initialStore) 1).
Proof.
  assert (reachable (perform (OpMoveTask 1 "PA-1" "TO DO" "ARCHIVE") initialStore)) as H
    by (apply reachable_step, reachable_init).
  split; [exact H|].
  exact (proj1 (proj2 (board_columns_fixed _ 1 H)) (OpClearProjectData 1)).
Defined.

End BoardExamples.

(** * Properties of the timestamp *)

Section Timestamp.

Import IsoDate.

Lemma is_digit_digit n : is_digit (digit n) = true.
Proof.
  unfold is_digit, digit.
  assert (0 <= n mod 10 < 10) as H by (apply Z.mod_pos_bound; lia).
  rewrite nat_ascii_embedding by lia.
  apply andb_true_iff. split; apply Nat.leb_le; lia.
Qed.

Lemma hasShape_digit shape n rest :
  hasShape (String "d" shape) (String (digit n) rest) = hasShape shape rest.
Proof. cbn [hasShape]. rewrite bool_decide_eq_true_2 by done. by rewrite is_digit_digit. Qed.

Lemma hasShape_same p shape rest :
  p ≠ "d"%char → p ≠ "s"%char →
  hasShape (String p shape) (String p rest) = hasShape shape rest.
Proof.
  intros Hd Hs. cbn [hasShape]. rewrite !bool_decide_eq_false_2 by done.
  by rewrite bool_decide_eq_true_2.
Qed.

Lemma hasShape_sign shape c rest :
  is_sign c = true →
  hasShape (String "s" shape) (String c rest) = hasShape shape rest.
Proof. intros H. cbn [hasShape]. rewrite bool_decide_eq_false_2 by (intros [=]).
 rewrite bool_decide_eq_true_2 by done. by rewrite H. Qed.

Lemma toISOString_iso8601 t : iso8601 (toISOString t) = true.
Proof.
  unfold iso8601, toISOString, yearString.
  destruct ((0 <=? YearFromTime t) && (YearFromTime t <=? 9999)).
  - apply orb_true_iff. left. unfold pad. lazy [digits String.append].
    rewrite !hasShape_digit.
    do 7 (rewrite hasShape_same by (intros [=]); rewrite ?hasShape_digit).
    reflexivity.
  - apply orb_true_iff. right. unfold pad. lazy [digits String.append].
    rewrite hasShape_sign by (by destruct (YearFromTime t <? 0)).
    rewrite !hasShape_digit.
    do 7 (rewrite hasShape_same by (intros [=]); rewrite ?hasShape_digit).
    reflexivity.
Qed.

Lemma YearFromTime_spec t :
  DayFromYear (YearFromTime t) <= Day t < DayFromYear (YearFromTime t + 1).
Proof.
  unfold YearFromTime. generalize (Day t). intros d. cbv zeta.
  set (y0 := 1970 + (d * 400) / 146097).
  assert (146097 * (y0 - 1970) <= d * 400 < 146097 * (y0 - 1970) + 146097) as Hy0.
  { unfold y0. Z.div_mod_to_equations. lia. }
  clearbody y0.
  destruct (Z.ltb_spec d (DayFromYear y0)) as [H1|H1].
  - replace (y0 - 1 + 1) with y0 by lia. split; [|done].
    unfold DayFromYear in *. Z.div_mod_to_equations. lia.
  - destruct (Z.leb_spec (DayFromYear (y0 + 1)) d) as [H2|H2].
    + split; [done|]. unfold DayFromYear in *. Z.div_mod_to_equations. lia.
    + done.
Qed.

Lemma DayFromYear_succ y :
  DayFromYear (y + 1) = DayFromYear y + 365 + (if isLeapYear y then 1 else 0).
Proof.
  unfold DayFromYear, isLeapYear.
  destruct (Z.eqb_spec (y mod 4) 0) as [H4|H4]; simpl negb; cbv iota;
    [destruct (Z.eqb_spec (y mod 100) 0) as [H100|H100]; simpl negb; cbv iota;
       [destruct (Z.eqb_spec (y mod 400) 0) as [H400|H400]; simpl negb; cbv iota|]|];
    Z.div_mod_to_equations; lia.
Qed.

Lemma DayWithinYear_bounds t : 0 <= DayWithinYear t <= 364 + InLeapYear t.
Proof.
  unfold DayWithinYear, InLeapYear.
  pose proof (YearFromTime_spec t) as H. rewrite DayFromYear_succ in H.
  destruct (isLeapYear (YearFromTime t)); lia.
Qed.

Lemma InLeapYear_bounds t : 0 <= InLeapYear t <= 1.
Proof. unfold InLeapYear. destruct (isLeapYear _); lia. Qed.

Lemma MonthFromTime_bounds t : 0 <= MonthFromTime t <= 11.
Proof. unfold MonthFromTime. cbv zeta. repeat case_match; lia. Qed.

Lemma DateFromTime_bounds t : 1 <= DateFromTime t <= 31.
Proof.
  pose proof (DayWithinYear_bounds t) as Hd.
  pose proof (InLeapYear_bounds t) as Hl.
  unfold DateFromTime, MonthFromTime. cbv zeta.
  repeat match goal with
         | |- context [Z.ltb ?a ?b] => destruct (Z.ltb_spec a b)
         end; lia.
Qed.

Lemma YearFromTime_bounds t :
  validTime t → -271821 <= YearFromTime t <= 275760.
Proof.
  unfold validTime. intros Ht.
  pose proof (YearFromTime_spec t) as H. revert H.
  generalize (YearFromTime t). intros y. unfold Day, msPerDay, DayFromYear.
  intros H. Z.div_mod_to_equations. lia.
Qed.

(** Within the range of time values every field fits the width it is
    written with, so no digit is lost. *)
Lemma timestamp_fields_fit t :
  validTime t →
  -271821 <= YearFromTime t <= 275760
  ∧ 1 <= MonthFromTime t + 1 <= 12
  ∧ 1 <= DateFromTime t <= 31
  ∧ 0 <= HourFromTime t <= 23
  ∧ 0 <= MinFromTime t <= 59
  ∧ 0 <= SecFromTime t <= 59
  ∧ 0 <= msFromTime t <= 999.
Proof.
  intros Ht. pose proof (MonthFromTime_bounds t).
  pose proof (DateFromTime_bounds t). pose proof (YearFromTime_bounds t Ht).
  unfold HourFromTime, MinFromTime, SecFromTime, msFromTime, msPerSecond.
  repeat split; try lia; Z.div_mod_to_equations; lia.
Qed.

Example epoch : toISOString 0 = "1970-01-01T00:00:00.000Z"%string.
Proof. by vm_compute. Qed.

Example leap_day : toISOString 1709251199999 = "2024-02-29T23:59:59.999Z"%string.
Proof. by vm_compute. Qed.

Example latest_time : toISOString 8640000000000000 = "+275760-09-13T00:00:00.000Z"%string.
Proof. by vm_compute. Qed.

Example earliest_time :
  toISOString (-8640000000000000) = "-271821-04-20T00:00:00.000Z"%string.
Proof. by vm_compute. Qed.

End Timestamp.

(** * The timestamp read back *)

Section TimestampRead.

Import IsoDate Iso8601.

Lemma nat_of_digit n : nat_of_ascii (digit n) = (48 + Z.to_nat (n mod 10))%nat.
Proof.
  unfold digit. assert (0 <= n mod 10 < 10) as H by (apply Z.mod_pos_bound; lia).
  apply nat_ascii_embedding. lia.
Qed.

Lemma digitValue_digit n : digitValue (digit n) = Some (n mod 10).
Proof.
  unfold digitValue. rewrite is_digit_digit, nat_of_digit. f_equal.
  assert (0 <= n mod 10 < 10) as H by (apply Z.mod_pos_bound; lia). lia.
Qed.

Lemma is_sign_digit n : is_sign (digit n) = false.
Proof.
  unfold is_sign. apply orb_false_iff.
  split; apply bool_decide_eq_false; intros H;
    apply (f_equal nat_of_ascii) in H; rewrite nat_of_digit in H;
    vm_compute (nat_of_ascii _) in H; lia.
Qed.

Lemma readNumber_digit width acc n s :
  readNumber (S width) acc (String (digit n) s) = readNumber width (acc * 10 + n mod 10) s.
Proof. cbn [readNumber]. by rewrite digitValue_digit. Qed.

Lemma readNumber_done acc s : readNumber 0 acc s = Some (acc, s).
Proof. done. Qed.

Lemma expect_same c s : expect c (String c s) = Some s.
Proof. unfold expect. by rewrite bool_decide_eq_true_2. Qed.

Lemma two_digits n : 0 <= n <= 99 → (0 * 10 + n / 10 mod 10) * 10 + n mod 10 = n.
Proof. intros H. Z.div_mod_to_equations. lia. Qed.

Lemma three_digits n :
  0 <= n <= 999 → ((0 * 10 + n / 10 / 10 mod 10) * 10 + n / 10 mod 10) * 10 + n mod 10 = n.
Proof. intros H. Z.div_mod_to_equations. lia. Qed.

Lemma four_digits n :
  0 <= n <= 9999 →
  (((0 * 10 + n / 10 / 10 / 10 mod 10) * 10 + n / 10 / 10 mod 10) * 10 + n / 10 mod 10) * 10
  + n mod 10 = n.
Proof. intros H. Z.div_mod_to_equations. lia. Qed.

Lemma six_digits n :
  0 <= n <= 999999 →
  (((((0 * 10 + n / 10 / 10 / 10 / 10 / 10 mod 10) * 10 + n / 10 / 10 / 10 / 10 mod 10) * 10
     + n / 10 / 10 / 10 mod 10) * 10 + n / 10 / 10 mod 10) * 10 + n / 10 mod 10) * 10
  + n mod 10 = n.
Proof. intros H. Z.div_mod_to_equations. lia. Qed.

Lemma readYear_yearString y rest :
  -999999 <= y <= 999999 →
  readYear (yearString y ++ rest) = Some (y, rest).
Proof.
  intros Hy. unfold yearString.
  destruct ((0 <=? y) && (y <=? 9999)) eqn:E.
  - apply andb_true_iff in E as [H1 H2]. apply Z.leb_le in H1, H2.
    unfold pad. lazy [digits String.append]. unfold readYear.
    rewrite is_sign_digit, !readNumber_digit, readNumber_done.
    by rewrite four_digits.
  - unfold pad. lazy [digits String.append]. unfold readYear.
    assert (y < 0 ∨ 9999 < y) as Hcases.
    { apply andb_false_iff in E as [E|E]; [apply Z.leb_gt in E|apply Z.leb_gt in E]; lia. }
    destruct (Z.ltb_spec y 0) as [Hneg|Hpos].
    + replace (is_sign "-") with true by done.
      rewrite !readNumber_digit, readNumber_done, six_digits by lia.
      rewrite bool_decide_eq_true_2 by done. f_equal. f_equal. lia.
    + replace (is_sign "+") with true by done.
      rewrite !readNumber_digit, readNumber_done, six_digits by lia.
      rewrite bool_decide_eq_false_2 by done. f_equal. f_equal. lia.
Qed.

Lemma parse_toISOString t :
  validTime t →
  parse (toISOString t)
  = Some (mkDateTime (YearFromTime t) (MonthFromTime t + 1) (DateFromTime t)
            (HourFromTime t) (MinFromTime t) (SecFromTime t) (msFromTime t)).
Proof.
  intros Ht. destruct (timestamp_fields_fit t Ht) as (Hy & Hmo & Hd & Hh & Hmi & Hs & Hms).
  unfold parse, toISOString. rewrite readYear_yearString by lia.
  unfold pad. lazy [digits String.append]. cbn [mbind option_bind].
  rewrite expect_same. cbn [mbind option_bind].
  rewrite !readNumber_digit, readNumber_done, two_digits by lia. cbn [mbind option_bind].
  rewrite expect_same. cbn [mbind option_bind].
  rewrite !readNumber_digit, readNumber_done, two_digits by lia. cbn [mbind option_bind].
  rewrite expect_same. cbn [mbind option_bind].
  rewrite !readNumber_digit, readNumber_done, two_digits by lia. cbn [mbind option_bind].
  rewrite expect_same. cbn [mbind option_bind].
  rewrite !readNumber_digit, readNumber_done, two_digits by lia. cbn [mbind option_bind].
  rewrite expect_same. cbn [mbind option_bind].
  rewrite !readNumber_digit, readNumber_done, two_digits by lia. cbn [mbind option_bind].
  rewrite expect_same. cbn [mbind option_bind].
  rewrite !readNumber_digit, readNumber_done, three_digits by lia. cbn [mbind option_bind].
  rewrite expect_same. cbn [mbind option_bind].
  by rewrite bool_decide_eq_true_2.
Qed.

Lemma day_of_month t :
  1 <= DateFromTime t <= daysInMonth (YearFromTime t) (MonthFromTime t + 1)
  ∧ daysBefore (YearFromTime t) (MonthFromTime t + 1) + (DateFromTime t - 1)
    = DayWithinYear t.
Proof.
  pose proof (DayWithinYear_bounds t) as Hd.
  unfold DateFromTime, MonthFromTime, daysInMonth, daysBefore. cbv zeta.
  unfold InLeapYear in *.
  destruct (isLeapYear (YearFromTime t));
    repeat match goal with
           | |- context [Z.ltb ?a ?b] => destruct (Z.ltb_spec a b)
           end;
    repeat match goal with
           | |- context [Z.pos ?a + 1] =>
               let v := eval vm_compute in (Z.pos a + 1) in
               change (Z.pos a + 1) with v
           end;
    change (0 + 1) with 1; cbv iota; lia.
Qed.

Lemma time_of_day t :
  Day t * msPerDay + HourFromTime t * msPerHour + MinFromTime t * msPerMinute
  + SecFromTime t * msPerSecond + msFromTime t = t.
Proof.
  unfold Day, HourFromTime, MinFromTime, SecFromTime, msFromTime, msPerDay, msPerHour,
    msPerMinute, msPerSecond.
  Z.div_mod_to_equations. lia.
Qed.

(** The string [toISOString] writes for a time value is a date and time
    of the calendar, and denotes that time value. *)
Lemma toISOString_denotes t :
  validTime t →
  ∃ d, parse (toISOString t) = Some d ∧ calendar d ∧ timeOf d = t.
Proof.
  intros Ht. eexists. split; [by apply parse_toISOString|].
  destruct (timestamp_fields_fit t Ht) as (Hy & Hmo & Hd & Hh & Hmi & Hs & Hms).
  destruct (day_of_month t) as [Hday Hbefore].
  split; [done|]. unfold timeOf. cbn [year month day hour minute second millisecond].
  replace (DayFromYear (YearFromTime t)
           + daysBefore (YearFromTime t) (MonthFromTime t + 1) + (DateFromTime t - 1))
    with (Day t) by (unfold DayWithinYear in Hbefore; lia).
  apply time_of_day.
Qed.

End TimestampRead.

(** * Properties of the realtime client *)

Section Listeners.

Import WebSocketService.

Lemma afterCalls_nil w : afterCalls [] [] w = w.
Proof. destruct w. unfold afterCalls. simpl. by rewrite !app_nil_r. Qed.

Lemma afterCalls_afterCalls c1 e1 c2 e2 w :
  afterCalls c2 e2 (afterCalls c1 e1 w) = afterCalls (c1 ++ c2) (e1 ++ e2) w.
Proof. destruct w. unfold afterCalls. simpl. by rewrite !app_assoc. Qed.

Lemma listenerErrors_cons cb callbacks data :
  listenerErrors (cb :: callbacks) data
  = (if cb_throws cb data then [ConsoleError "Error in WebSocket listener:"] else [])
    ++ listenerErrors callbacks data.
Proof.
  unfold listenerErrors. destruct (cb_throws cb data) eqn:E.
  - by rewrite filter_cons_True.
  - rewrite filter_cons_False; [done|]. by rewrite E.
Qed.

Lemma call_caught cb data w :
  tryCatch (call cb data)
    (pure (print (ConsoleError "Error in WebSocket listener:"))) w
  = (afterCalls [(cb_id cb, data)]
       (if cb_throws cb data then [ConsoleError "Error in WebSocket listener:"] else [])
       w, Normal).
Proof.
  unfold tryCatch, call, pure. destruct (cb_throws cb data); destruct w; simpl.
  - reflexivity.
  - unfold afterCalls, record_call. simpl. by rewrite app_nil_r.
Qed.

Lemma forEach_caught callbacks data w :
  forEach (λ callback,
             tryCatch (call callback data)
               (pure (print (ConsoleError "Error in WebSocket listener:"))))
    callbacks w
  = (afterCalls ((λ cb, (cb_id cb, data)) <$> callbacks)
       (listenerErrors callbacks data) w, Normal).
Proof.
  revert w. induction callbacks as [|cb callbacks IH]; intros w.
  - simpl. unfold pure. by rewrite afterCalls_nil.
  - cbn [forEach]. unfold andThen at 1. rewrite call_caught, IH.
    by rewrite afterCalls_afterCalls, listenerErrors_cons.
Qed.

Lemma notifyListeners_eq event data w :
  notifyListeners event data w
  = (afterCalls ((λ cb, (cb_id cb, data)) <$> default [] (listeners (service w) !! event))
       (listenerErrors (default [] (listeners (service w) !! event)) data) w,
     Normal).
Proof.
  unfold notifyListeners. destruct (listeners (service w) !! event) as [callbacks|].
  - apply forEach_caught.
  - simpl. by rewrite afterCalls_nil.
Qed.




End Listeners.

(** * Listeners that change the subscriptions *)

Section LiveNotification.

Import WebSocketService LiveListeners.



(** When no listener changes the subscriptions, walking the live array
    is walking the list read at the start. *)
Lemma forEach_passive (event : string) (data : jsval) (callbacks : list callback)
    (steps index : nat) (w : World) :
  listeners (service w) !! event = Some callbacks →
  (index + steps)%nat = length callbacks →
  forEach (λ callback,
             tryCatch (call passive callback data)
               (pure (print (ConsoleError "Error in WebSocket listener:"))))
    event index steps w
  = WebSocketService.forEach
      (λ callback,
         tryCatch (WebSocketService.call callback data)
           (pure (print (ConsoleError "Error in WebSocket listener:"))))
      (drop index callbacks) w.
Proof.
  revert index w. induction steps as [|steps IH]; intros index w Hl Hlen.
  - rewrite drop_ge by lia. done.
  - cbn [forEach]. rewrite Hl. simpl.
    destruct (callbacks !! index) as [cb|] eqn:Hcb; cycle 1.
    { apply lookup_ge_None in Hcb. lia. }
    rewrite (drop_S _ _ _ Hcb). cbn [WebSocketService.forEach].
    unfold andThen.
    change (call passive cb data) with (WebSocketService.call cb data).
    rewrite call_caught. apply IH; [done|lia].
Qed.

Lemma notifyListeners_passive (event : string) (data : jsval) (w : World) :
  notifyListeners passive event data w = WebSocketService.notifyListeners event data w.
Proof.
  unfold notifyListeners, WebSocketService.notifyListeners.
  destruct (listeners (service w) !! event) as [callbacks|] eqn:Hl; [|done].
  by rewrite (forEach_passive event data callbacks _ 0 w Hl).
Qed.


End LiveNotification.

Section Sending.

Import IsoDate WebSocketService.

Lemma isOpen_false (s : Service) :
  ws s = None ∨ (∃ sock, ws s = Some sock ∧ readyState sock ≠ OPEN) →
  isOpen s = false.
Proof.
  unfold isOpen. intros [->|(sock & -> & Hne)]; [done|].
  by apply bool_decide_eq_false.
Qed.

Lemma sendMessage_closed type payload now w :
  isOpen (service w) = false →
  sendMessage type payload now w
  = (print (ConsoleWarn ("WebSocket is not connected, skipping message: " ++ type)) w,
     Normal).
Proof. intros H. unfold sendMessage. by rewrite H. Qed.

Lemma sendMessage_skipped type payload now w :
  isOpen (service w) = false → skipped (sendMessage type payload now) w.
Proof.
  intros H. unfold skipped. rewrite (sendMessage_closed _ _ _ _ H). by eexists.
Qed.

(** C9.  While the socket is [null] or not [OPEN], [sendMessage] and the
    five operations built on it send nothing and throw nothing, and leave
    the service, the timers and the listeners' calls as they were: the
    call only writes a warning to the console. *)
Theorem sendMessage_not_open_is_noop (w : World) (now : Z) :
  ws (service w) = None
  ∨ (∃ sock, ws (service w) = Some sock ∧ readyState sock ≠ OPEN) →
  (∀ type payload, skipped (sendMessage type payload now) w)
  ∧ (∀ task column projectId, skipped (createTask task column projectId now) w)
  ∧ (∀ taskId updates projectId, skipped (updateTask taskId updates projectId now) w)
  ∧ (∀ taskId fromColumn toColumn position projectId,
       skipped (moveTask taskId fromColumn toColumn position projectId now) w)
  ∧ (∀ taskId column projectId, skipped (deleteTask taskId column projectId now) w)
  ∧ (∀ projectId, skipped (requestBoardSync projectId now) w).
Proof.
  intros H. apply isOpen_false in H.
  repeat split; intros; by apply sendMessage_skipped.
Qed.

Lemma sendMessage_open type fields now w :
  isOpen (service w) = true →
  sendsEnvelope (sendMessage type (VObj fields) now) w.
Proof.
  intros H. unfold sendsEnvelope, sendMessage. rewrite H.
  cbn [stringify]. eexists _, _. split; [done|]. split; [done|].
  eexists _, _, _. split; [done|]. apply toISOString_iso8601.
Qed.

End Sending.

(** * The frame on the wire *)

Section Frames.

Import IsoDate Iso8601 WebSocketService Protocol.
Open Scope string_scope.

Lemma sendMessage_sends type payload j now w :
  isOpen (service w) = true → stringify payload = Some j →
  sends (sendMessage type payload now) (envelopeOf type j (toISOString now)) w.
Proof.
  intros Hopen Hj. unfold sends, sendMessage. rewrite Hopen.
  cbn [stringify]. rewrite Hj. by eexists.
Qed.

Lemma sendMessage_undefined type now w :
  isOpen (service w) = true →
  sends (sendMessage type VUndefined now)
    (JObj [("type", JStr type); ("timestamp", JStr (toISOString now))]) w.
Proof.
  intros Hopen. unfold sends, sendMessage. rewrite Hopen. cbn [stringify]. by eexists.
Qed.

Lemma stringify_object payload j :
  stringify payload = Some j →
  isObject j = true ↔ ∃ fields, payload = VObj fields.
Proof.
  destruct payload; cbn [stringify]; intros [= <-]; simpl; split;
    try done; try (intros [? [=]]); eauto.
Qed.

Lemma stringify_VObj fields : ∃ properties, stringify (VObj fields) = Some (JObj properties).
Proof. cbn [stringify]. by eexists. Qed.

Lemma operation_sends type fields now w :
  isOpen (service w) = true →
  ∃ properties,
    stringify (VObj fields) = Some (JObj properties)
    ∧ sends (sendMessage type (VObj fields) now)
        (envelopeOf type (JObj properties) (toISOString now)) w.
Proof.
  intros Hopen. destruct (stringify_VObj fields) as [properties H].
  exists properties. split; [done|]. by apply sendMessage_sends.
Qed.

(** C7, as the code has it.  On an open socket [sendMessage] hands one
    frame to the socket and changes nothing else but the console.  The
    frame is the envelope whose [type] is the type passed, whose [payload]
    is the JSON form of the payload passed, an object exactly when the
    payload passed is one, and whose [timestamp] is [toISOString] of the
    clock; [undefined] is the one payload without a JSON form, and the
    frame then has the fields [type] and [timestamp] only.  Each of the five
    operations sends the envelope of its own type whose payload is the
    object made of its arguments.  The timestamp has the shape of an
    ISO 8601 date and time in UTC, reads back as a date of the calendar
    and a time of the day, and denotes the time of the clock. *)
Theorem sendMessage_envelope (w : World) (now : Z) (sock : WebSocket) :
  ws (service w) = Some sock → readyState sock = OPEN → validTime now →
  (∀ type payload j,
     stringify payload = Some j →
     sends (sendMessage type payload now) (envelopeOf type j (toISOString now)) w
     ∧ (isObject j = true ↔ ∃ fields, payload = VObj fields))
  ∧ (∀ type payload,
       stringify payload = None →
       payload = VUndefined
       ∧ sends (sendMessage type payload now)
           (JObj [("type", JStr type); ("timestamp", JStr (toISOString now))]) w)
  ∧ (∀ task column projectId,
       ∃ properties,
         stringify (VObj [("task", task); ("column", column); ("projectId", projectId)])
         = Some (JObj properties)
         ∧ sends (createTask task column projectId now)
             (envelopeOf "create_task" (JObj properties) (toISOString now)) w)
  ∧ (∀ taskId updates projectId,
       ∃ properties,
         stringify (VObj [("taskId", taskId); ("updates", updates);
                          ("projectId", projectId)])
         = Some (JObj properties)
         ∧ sends (updateTask taskId updates projectId now)
             (envelopeOf "update_task" (JObj properties) (toISOString now)) w)
  ∧ (∀ taskId fromColumn toColumn position projectId,
       ∃ properties,
         stringify (VObj [("taskId", taskId); ("fromColumn", fromColumn);
                          ("toColumn", toColumn); ("position", position);
                          ("projectId", projectId)])
         = Some (JObj properties)
         ∧ sends (moveTask taskId fromColumn toColumn position projectId now)
             (envelopeOf "move_task" (JObj properties) (toISOString now)) w)
  ∧ (∀ taskId column projectId,
       ∃ properties,
         stringify (VObj [("taskId", taskId); ("column", column);
                          ("projectId", projectId)])
         = Some (JObj properties)
         ∧ sends (deleteTask taskId column projectId now)
             (envelopeOf "delete_task" (JObj properties) (toISOString now)) w)
  ∧ (∀ projectId,
       ∃ properties,
         stringify (VObj [("projectId", projectId)]) = Some (JObj properties)
         ∧ sends (requestBoardSync projectId now)
             (envelopeOf "request_board_sync" (JObj properties) (toISOString now)) w)
  ∧ iso8601 (toISOString now) = true
  ∧ ∃ d, parse (toISOString now) = Some d ∧ calendar d ∧ timeOf d = now.
Proof.
  intros Hws Hstate Hnow.
  assert (isOpen (service w) = true) as Hopen.
  { unfold isOpen. rewrite Hws. by apply bool_decide_eq_true. }
  split; [|split; [|split; [|split; [|split; [|split; [|split; [|split]]]]]]].
  - intros type payload j Hj. split; [by apply sendMessage_sends|].
    by apply stringify_object.
  - intros type payload Hnone.
    assert (payload = VUndefined) as -> by (by destruct payload).
    split; [done|]. by apply sendMessage_undefined.
  - intros. by apply operation_sends.
  - intros. by apply operation_sends.
  - intros. by apply operation_sends.
  - intros. by apply operation_sends.
  - intros. by apply operation_sends.
  - apply toISOString_iso8601.
  - by apply toISOString_denotes.
Qed.

End Frames.

Section Receiving.

Import WebSocketService.

Lemma get_payload data type :
  get data "type" = Some type → ∃ payload, get data "payload" = Some payload.
Proof. destruct data; simpl; intros [=]; eauto. Qed.

Lemma set_onlineUsers_same (s : Service) : set_onlineUsers (onlineUsers s) s = s.
Proof. by destruct s. Qed.

(** C5, as the code has it.  An inbound message whose type is none of the
    six the client dispatches is ignored: [handleMessage] returns
    normally after writing one line to the console, no frame is sent, no
    listener is called, and the service is unchanged. *)
Theorem unknown_type_is_ignored (w : World) (data type : jsval) :
  get data "type" = Some type →
  eventOf type = None →
  handleMessage data w = (print (ConsoleLog "Unknown message type:") w, Normal)
  ∧ onmessage (Some data) w = (print (ConsoleLog "Unknown message type:") w, Normal)
  ∧ skipped (handleMessage data) w.
Proof.
  intros Htype Hevent.
  assert (handleMessage data w = (print (ConsoleLog "Unknown message type:") w, Normal))
    as H.
  { destruct (get_payload _ _ Htype) as [payload Hpayload].
    unfold handleMessage. rewrite Htype, Hpayload.
    unfold eventOf in Hevent.
    repeat match type of Hevent with
           | (if ?b then _ else _) = None => destruct b; [discriminate|]
           end.
    done. }
  split; [done|]. split.
  - unfold onmessage, tryCatch. by rewrite H.
  - unfold skipped. rewrite H. by eexists.
Qed.

Lemma onmessage_calls data w :
  ∃ w', onmessage (Some data) w = (w', Normal)
        ∧ invoked w' = invoked w ++ callsFor (listeners (service w)) data
        ∧ sent w' = sent w ∧ timers w' = timers w ∧ delays w' = delays w
        ∧ set_onlineUsers (onlineUsers (service w)) (service w') = service w.
Proof.
  unfold onmessage, tryCatch, handleMessage, callsFor, delivery, pure, eventOf.
  destruct (get data "type") as [type|]; simpl;
    [|eexists; split; [done|]; simpl;
      by rewrite app_nil_r, set_onlineUsers_same].
  destruct (get data "payload") as [payload|]; simpl;
    [|eexists; split; [done|]; simpl;
      by rewrite app_nil_r, set_onlineUsers_same].
  repeat match goal with
         | |- context [strictEquals type ?l] => destruct (strictEquals type l)
         end; simpl;
    try (rewrite notifyListeners_eq; eexists; split; [done|]; simpl;
         by rewrite set_onlineUsers_same).
  - destruct (get payload "count") as [count|]; simpl.
    + rewrite notifyListeners_eq. eexists. split; [done|]. simpl.
      split; [done|]. repeat split. destruct w as [s ?]. by destruct s.
    + eexists. split; [done|]. simpl.
      by rewrite app_nil_r, set_onlineUsers_same.
  - eexists. split; [done|]. simpl. by rewrite app_nil_r, set_onlineUsers_same.
Qed.


End Receiving.

Section Reconnecting.

Import WebSocketService.

Lemma isOpen_setReadyState_CLOSED s : isOpen (setReadyState CLOSED s) = false.
Proof. unfold isOpen, setReadyState. destruct (ws s) eqn:E; simpl; [done|by rewrite E]. Qed.

Lemma drop_cycle (w : World) (userId : string) (code : Z) :
  code ≠ 1000 → timers w = [] →
  let attempts := reconnectAttempts (service w) in
  let limit := maxReconnectAttempts (service w) in
  let interval := reconnectInterval (service w) in
  ∃ w', (closed userId code ;; fireTimer true VUndefined) w = (w', Normal)
        ∧ timers w' = []
        ∧ maxReconnectAttempts (service w') = limit
        ∧ reconnectInterval (service w') = interval
        ∧ isConnected (service w') = false
        ∧ if bool_decide (attempts < limit)
          then reconnectAttempts (service w') = attempts + 1
               ∧ delays w' = delays w ++ [interval]
          else reconnectAttempts (service w') = attempts
               ∧ delays w' = delays w
               ∧ last (console w')
                 = Some (ConsoleLog "Max reconnection attempts reached").
Proof.
  intros Hcode Htimers attempts limit interval.
  destruct w as [s out con tim del inv]. simpl in Htimers. subst tim.
  unfold closed, onclose, andThen, pure.
  rewrite notifyListeners_eq.
  rewrite bool_decide_eq_true_2 by done.
  unfold attemptReconnect, afterCalls, withService, print, setTimeout.
  cbn [service sent console timers delays invoked reconnectAttempts
       maxReconnectAttempts reconnectInterval set_isConnected set_reconnectAttempts].
  fold attempts limit interval.
  assert (reconnectAttempts (setReadyState CLOSED s) = reconnectAttempts s
          ∧ maxReconnectAttempts (setReadyState CLOSED s) = maxReconnectAttempts s
          ∧ reconnectInterval (setReadyState CLOSED s) = reconnectInterval s)
    as (Ha & Hm & Hi) by (unfold setReadyState; by destruct (ws s)).
  rewrite Ha, Hm, Hi. cbn [service] in attempts, limit, interval.
  fold attempts limit interval.
  case_bool_decide as Hlt.
  - unfold fireTimer, dropTimer, runTimer, connect, withService, print.
    cbn [app timers service sent console delays invoked tail].
    replace (isOpen _) with false; cycle 1.
    { symmetry. apply (isOpen_setReadyState_CLOSED s). }
    eexists. split; [done|]. cbn. rewrite Hm, Hi. done.
  - unfold fireTimer. cbn [timers].
    eexists. split; [done|]. cbn. rewrite Hm, Hi, Ha.
    repeat split. by rewrite last_snoc.
Qed.

Lemma dropRepeatedly_delays (n : nat) (userId : string) (code : Z) (w : World) :
  code ≠ 1000 → timers w = [] →
  let limit := maxReconnectAttempts (service w) in
  let interval := reconnectInterval (service w) in
  let attempts := reconnectAttempts (service w) in
  let retries := (n `min` Z.to_nat (limit - attempts))%nat in
  ∃ w', dropRepeatedly n userId code w = (w', Normal)
        ∧ timers w' = []
        ∧ maxReconnectAttempts (service w') = limit
        ∧ reconnectInterval (service w') = interval
        ∧ reconnectAttempts (service w') = attempts + Z.of_nat retries
        ∧ delays w' = delays w ++ replicate retries interval
        ∧ ((Z.to_nat (limit - attempts) < n)%nat →
           isConnected (service w') = false
           ∧ last (console w') = Some (ConsoleLog "Max reconnection attempts reached")).
Proof.
  intros Hcode. revert w. induction n as [|n IH]; intros w Htimers; cbv zeta.
  - exists w. simpl. rewrite app_nil_r. repeat split; try done; lia.
  - destruct (drop_cycle w userId code Hcode Htimers)
      as (w1 & Hrun & Ht & Hm & Hi & Hc & Hcase).
    destruct (IH w1 Ht) as (w2 & Hrun' & Ht' & Hm' & Hi' & Ha' & Hd' & Hlast').
    exists w2. split.
    { cbn [dropRepeatedly]. unfold andThen in Hrun |- *.
      destruct (closed userId code w) as [w0 [|]]; [|done].
      rewrite Hrun. exact Hrun'. }
    rewrite Hm, Hi in *. 
    case_bool_decide as Hlt.
    + destruct Hcase as [Ha Hd]. rewrite Ha in *. rewrite Hd in Hd'.
      replace (S n `min` Z.to_nat (maxReconnectAttempts (service w) - reconnectAttempts (service w)))%nat
        with (S (n `min` Z.to_nat (maxReconnectAttempts (service w) - (reconnectAttempts (service w) + 1))))%nat
        by lia.
      repeat split; [done|done|done|lia| |intros; apply Hlast'; lia
                     |intros; apply Hlast'; lia].
      rewrite Hd'. simpl. by rewrite <- app_assoc.
    + destruct Hcase as (Ha & Hd & Hlast). rewrite Ha in *. rewrite Hd in Hd'.
      replace (S n `min` Z.to_nat (maxReconnectAttempts (service w) - reconnectAttempts (service w)))%nat
        with (n `min` Z.to_nat (maxReconnectAttempts (service w) - reconnectAttempts (service w)))%nat
        by lia.
      repeat split; [done|done|done|done|done| |].
      * destruct n as [|n']; [|apply Hlast'; lia].
        simpl in Hrun'. injection Hrun' as <-. done.
      * destruct n as [|n']; [|apply Hlast'; lia].
        simpl in Hrun'. injection Hrun' as <-. done.
Qed.






End Reconnecting.

(** ** Concrete runs *)

Section ServiceExamples.

Import WebSocketService.
Open Scope string_scope.


(** C5 as stated fails: an unknown type raises no error and nothing is
    sent back or handed to a listener. *)
Lemma unknown_type_gets_no_error :
  (handleMessage ping listeningWorld).2 = Normal
  ∧ ¬ acknowledged (handleMessage ping) listeningWorld.
Proof.
  split; [by vm_compute|].
  intros [H|H]; apply H; by vm_compute.
Qed.

(** A message of type [ping]. *)
Lemma unknown_type_is_ignored_witness :
  get ping "type" = Some (VStr "ping")
  ∧ eventOf (VStr "ping") = None
  ∧ skipped (handleMessage ping) listeningWorld.
Proof.
  assert (get ping "type" = Some (VStr "ping")) as H1 by reflexivity.
  assert (eventOf (VStr "ping") = None) as H2 by reflexivity.
  split; [exact H1|]. split; [exact H2|].
  exact (proj2 (proj2 (unknown_type_is_ignored listeningWorld ping (VStr "ping") H1 H2))).
Defined.



(** [createTask] before any connection was made. *)
Lemma sendMessage_not_open_is_noop_witness :
  ws (service initialWorld) = None
  ∧ skipped (createTask (VObj [("title", VStr "First")]) (VStr "TO DO") (VNum 1) 0)
      initialWorld.
Proof.
  assert (ws (service initialWorld) = None) as H by reflexivity.
  split; [exact H|].
  exact (proj1 (proj2 (sendMessage_not_open_is_noop initialWorld 0 (or_introl H))) _ _ _).
Defined.

(** Three listeners, the second of which throws. *)
Example faulty_listener_does_not_stop_the_others :
  invoked (notifyListeners "taskCreated" VNull
             (subscribe "taskCreated" (listener 3)
                (subscribe "taskCreated" (faulty 2)
                   (subscribe "taskCreated" (listener 1) initialWorld)))).1
  = [(1%nat, VNull); (2%nat, VNull); (3%nat, VNull)].
Proof. by vm_compute. Qed.

End ServiceExamples.

Section FrameRuns.

Import IsoDate Iso8601 WebSocketService Protocol.
Open Scope string_scope.

(** C7 as stated fails: a message sent without a payload has no
    [payload] field on the wire, and one sent with a string has a string
    there. *)
Lemma payload_field_need_not_be_an_object :
  sent (sendMessage "ping" VUndefined 0 connectedWorld).1
  = [JObj [("type", JStr "ping"); ("timestamp", JStr "1970-01-01T00:00:00.000Z")]]
  ∧ ¬ sendsEnvelope (sendMessage "ping" VUndefined 0) connectedWorld
  ∧ sent (sendMessage "chat" (VStr "hello") 0 connectedWorld).1
    = [JObj [("type", JStr "chat"); ("payload", JStr "hello");
             ("timestamp", JStr "1970-01-01T00:00:00.000Z")]]
  ∧ ¬ sendsEnvelope (sendMessage "chat" (VStr "hello") 0) connectedWorld.
Proof.
  assert (sent (sendMessage "ping" VUndefined 0 connectedWorld).1
          = [JObj [("type", JStr "ping"); ("timestamp", JStr "1970-01-01T00:00:00.000Z")]])
    as H1 by (by vm_compute).
  assert (sent (sendMessage "chat" (VStr "hello") 0 connectedWorld).1
          = [JObj [("type", JStr "chat"); ("payload", JStr "hello");
                   ("timestamp", JStr "1970-01-01T00:00:00.000Z")]])
    as H2 by (by vm_compute).
  split; [done|]. split; [|split; [done|]].
  - intros (w' & frame & Hrun & Hsent & type & payload & timestamp & Hframe & _).
    rewrite Hrun in H1. simpl in H1. rewrite H1 in Hsent.
    change (sent connectedWorld) with (@nil json) in Hsent. simpl in Hsent.
    injection Hsent as <-. discriminate Hframe.
  - intros (w' & frame & Hrun & Hsent & type & payload & timestamp & Hframe & _).
    rewrite Hrun in H2. simpl in H2. rewrite H2 in Hsent.
    change (sent connectedWorld) with (@nil json) in Hsent. simpl in Hsent.
    injection Hsent as <-. discriminate Hframe.
Qed.

(** A [move_task] message on the open connection. *)
Lemma sendMessage_envelope_witness :
  ws (service connectedWorld)
  = Some (mkWebSocket "ws://localhost:8000/ws?user_id=anonymous" OPEN)
  ∧ validTime 1700000000000
  ∧ sends
      (moveTask (VStr "PA-1") (VStr "TO DO") (VStr "DONE") (VNum 0) (VNum 1) 1700000000000)
      (envelopeOf "move_task"
         (JObj [("taskId", JStr "PA-1"); ("fromColumn", JStr "TO DO");
                ("toColumn", JStr "DONE"); ("position", JNum 0); ("projectId", JNum 1)])
         (toISOString 1700000000000))
      connectedWorld.
Proof.
  assert (ws (service connectedWorld)
          = Some (mkWebSocket "ws://localhost:8000/ws?user_id=anonymous" OPEN)) as H
    by reflexivity.
  assert (validTime 1700000000000) as Hnow by (unfold validTime; lia).
  split; [exact H|]. split; [exact Hnow|].
  destruct (proj1 (proj2 (proj2 (proj2 (proj2
              (sendMessage_envelope connectedWorld 1700000000000 _ H eq_refl Hnow)))))
              (VStr "PA-1") (VStr "TO DO") (VStr "DONE") (VNum 0) (VNum 1))
    as (properties & Hp & Hs).
  cbn [stringify] in Hp. injection Hp as <-. exact Hs.
Defined.

Example timestamp_of_the_witness :
  toISOString 1700000000000 = "2023-11-14T22:13:20.000Z".
Proof. by vm_compute. Qed.

End FrameRuns.

Section LiveRuns.

Import WebSocketService LiveListeners.
Open Scope string_scope.



End LiveRuns.

(** * More on the board store *)

Section StoreOperations.

Import ProjectDataService.

(** X2: Deleting from a column removes every task with the id from it and
    leaves all other tasks, and all other columns, where they were. *)
Theorem deleteTask_removes_every_copy (s : store) (p : Z) (i c : string)
    (l : list Task) :
  view s p !! c = Some l →
  let r := deleteTaskFromProject p i c s in
  let b' := view r.1 p in
  r.2 = Returned
  ∧ b' !! c = Some (filter (λ t, id t ≠ i) l)
  ∧ ¬ inColumn b' i c
  ∧ (∀ c', c' ≠ c → b' !! c' = view s p !! c')
  ∧ (∀ j c', j ≠ i → inColumn b' j c' ↔ inColumn (view s p) j c').
Proof.
  intros Hc r b'. unfold b', r.
  rewrite (deleteTaskFromProject_column _ _ _ _ _ Hc). simpl. rewrite view_insert.
  split; [done|]. split; [by rewrite lookup_insert_eq|]. split; [|split].
  - rewrite inColumn_insert. intros [[_ H]|[H _]]; [|done].
    by apply (filter_same_id l i).
  - intros c' Hne. by rewrite lookup_insert_ne.
  - intros j c' Hj. rewrite inColumn_insert.
    destruct (decide (c' = c)) as [->|Hne].
    + rewrite (inColumn_lookup _ _ _ _ Hc), (filter_other_id l i j Hj). naive_solver.
    + naive_solver.
Qed.

Lemma filter_id_idemp (l : list Task) i :
  filter (λ t, id t ≠ i) (filter (λ t, id t ≠ i) l) = filter (λ t, id t ≠ i) l.
Proof.
  induction l as [|t l IH]; [done|].
  rewrite (filter_cons _ t l). case_decide as H.
  - rewrite filter_cons_True by done. by rewrite IH.
  - done.
Qed.

Lemma loaded_loaded s p : loaded p (loaded p s) = loaded p s.
Proof.
  unfold loaded at 1. unfold getProjectData. by rewrite loaded_lookup.
Qed.

Lemma loaded_insert s p b : loaded p (<[p := b]> s) = <[p := b]> s.
Proof. unfold loaded, getProjectData. by rewrite lookup_insert_eq. Qed.

(** X3: Deleting twice is deleting once: same store, same completion. *)
Theorem deleteTask_twice (s : store) (p : Z) (i c : string) :
  deleteTaskFromProject p i c (deleteTaskFromProject p i c s).1
  = deleteTaskFromProject p i c s.
Proof.
  destruct (view s p !! c) as [l|] eqn:E.
  - rewrite (deleteTaskFromProject_column _ _ _ _ _ E). simpl.
    rewrite (deleteTaskFromProject_column _ _ _ _ (filter (λ t, id t ≠ i) l)).
    + rewrite view_insert, loaded_insert, !insert_insert_eq. by rewrite filter_id_idemp.
    + by rewrite view_insert, lookup_insert_eq.
  - assert (deleteTaskFromProject p i c s
            = (loaded p s, if bool_decide (c ∈ object_prototype_keys)
                           then TypeError else Returned)) as H.
    { unfold deleteTaskFromProject. rewrite getProjectData_eq.
      rewrite (get_prop_not_array _ _ E). by case_bool_decide. }
    rewrite H. simpl.
    unfold deleteTaskFromProject. rewrite getProjectData_eq, view_loaded, loaded_loaded.
    rewrite (get_prop_not_array _ _ E). by case_bool_decide.
Qed.

Lemma filter_all_other (l : list Task) i :
  (∀ t, t ∈ l → id t ≠ i) → filter (λ t, id t ≠ i) l = l.
Proof.
  induction l as [|t l IH]; intros H; [done|].
  rewrite filter_cons_True by (apply H; left).
  rewrite IH; [done|]. intros t' Ht'. apply H. by right.
Qed.

(** X4: Adding a task whose id is new to the column and deleting that id
    again restores the store. *)
Theorem add_then_delete_restores (s : store) (p : Z) (c : string) (t : Task)
    (l : list Task) :
  view s p !! c = Some l →
  (∀ t', t' ∈ l → id t' ≠ id t) →
  (deleteTaskFromProject p (id t) c (addTaskToProject p c t s).1).1 = loaded p s
  ∧ ∀ q, view (deleteTaskFromProject p (id t) c (addTaskToProject p c t s).1).1 q
         = view s q.
Proof.
  intros Hc Hfresh.
  assert ((deleteTaskFromProject p (id t) c (addTaskToProject p c t s).1).1 = loaded p s)
    as H.
  { rewrite (addTaskToProject_column _ _ _ _ _ Hc). simpl.
    rewrite (deleteTaskFromProject_column _ _ _ _ (l ++ [t])); cycle 1.
    { by rewrite view_insert, lookup_insert_eq. }
    simpl. rewrite view_insert, loaded_insert, !insert_insert_eq.
    rewrite filter_app, (filter_all_other l _ Hfresh).
    rewrite filter_cons_False by naive_solver. rewrite filter_nil, app_nil_r.
    rewrite (insert_id (view s p)) by done.
    apply insert_id, loaded_lookup. }
  split; [done|]. intros q. rewrite H. apply view_loaded.
Qed.

Lemma find_id_filter_app (l : list Task) i task :
  (∀ t, t ∈ l → id t ≠ i) → id task = i →
  List.find (λ x, bool_decide (id x = i)) (l ++ [task]) = Some task.
Proof.
  intros Hl Hid. induction l as [|t l IH]; simpl.
  - by rewrite bool_decide_eq_true_2.
  - rewrite bool_decide_eq_false_2 by (apply Hl; left).
    apply IH. intros t' Ht'. apply Hl. by right.
Qed.

(** X5: A move to another column and back puts the task at the end of its
    original column and restores the other column. *)
Theorem move_there_and_back (s : store) (p : Z) (i f t : string)
    (lf lt : list Task) (task : Task) :
  f ≠ t →
  view s p !! f = Some lf →
  view s p !! t = Some lt →
  List.find (λ x, bool_decide (id x = i)) lf = Some task →
  (∀ x, x ∈ lt → id x ≠ i) →
  let there := moveTaskInProject p i f t s in
  let back := moveTaskInProject p i t f there.1 in
  there.2 = Returned ∧ back.2 = Returned
  ∧ view back.1 p = <[f := filter (λ x, id x ≠ i) lf ++ [task]]> (view s p).
Proof.
  intros Hne Hf Ht Hfind Hlt there back.
  apply find_id_Some in Hfind as Htask. destruct Htask as [_ Hid].
  pose proof (moveTaskInProject_found s p i f t lf task Hf Hfind) as H1.
  cbv zeta in H1. rewrite lookup_insert_ne, Ht in H1 by done.
  set (b1 := <[t := lt ++ [task]]> (<[f := filter (λ x, id x ≠ i) lf]> (view s p))) in *.
  assert (view there.1 p = b1) as Hv1 by (unfold there; rewrite H1; apply view_insert).
  assert (b1 !! t = Some (lt ++ [task])) as Hb1t by (unfold b1; by rewrite lookup_insert_eq).
  pose proof (moveTaskInProject_found there.1 p i t f (lt ++ [task]) task) as H2.
  rewrite Hv1 in H2. specialize (H2 Hb1t (find_id_filter_app lt i task Hlt Hid)).
  cbv zeta in H2.
  assert (filter (λ x, id x ≠ i) (lt ++ [task]) = lt) as Hfil.
  { rewrite filter_app, (filter_all_other lt i Hlt).
    rewrite filter_cons_False by naive_solver. by rewrite filter_nil, app_nil_r. }
  rewrite Hfil in H2. rewrite lookup_insert_ne in H2 by done.
  unfold b1 in H2 at 1. rewrite lookup_insert_ne, lookup_insert_eq in H2 by done.
  split; [by unfold there; rewrite H1|]. split; [by unfold back; rewrite H2|].
  unfold back. rewrite H2. simpl. rewrite view_insert. unfold b1.
  apply map_eq. intros c.
  destruct (decide (c = f)) as [->|Hcf]; [by rewrite !lookup_insert_eq|].
  rewrite !(lookup_insert_ne _ f c) by done.
  destruct (decide (c = t)) as [->|Hct].
  - by rewrite lookup_insert_eq.
  - by rewrite !(lookup_insert_ne _ t c), (lookup_insert_ne _ f c) by done.
Qed.

(** X6: With equal source and target the store moves the task to the end of
    its column, while the update of [handleMoveTask] appends a second
    copy: the two results differ. *)
Theorem move_within_a_column (s : store) (p : Z) (i c : string)
    (l : list Task) (task : Task) :
  view s p !! c = Some l →
  List.find (λ x, bool_decide (id x = i)) l = Some task →
  moveTaskInProject p i c c s
  = (<[p := <[c := filter (λ x, id x ≠ i) l ++ [task]]> (view s p)]> (loaded p s),
     Returned)
  ∧ handleMoveTask_updater i c c (view s p) = Some (<[c := l ++ [task]]> (view s p))
  ∧ handleMoveTask_updater i c c (view s p)
    ≠ Some (view (moveTaskInProject p i c c s).1 p).
Proof.
  intros Hc Hfind.
  pose proof (moveTaskInProject_found s p i c c l task Hc Hfind) as H.
  cbv zeta in H. rewrite lookup_insert_eq, insert_insert_eq in H.
  assert (handleMoveTask_updater i c c (view s p) = Some (<[c := l ++ [task]]> (view s p)))
    as Hu.
  { unfold handleMoveTask_updater, own_array.
    pose proof Hc as Hp. apply get_prop_array in Hp. rewrite Hp. simpl.
    rewrite Hfind. simpl. by rewrite insert_insert_eq. }
  split; [done|]. split; [done|].
  rewrite Hu, H. simpl. rewrite view_insert. intros [= Heq].
  apply (f_equal (λ b : board, length <$> b !! c)) in Heq.
  rewrite !lookup_insert_eq in Heq. simpl in Heq. injection Heq as Heq.
  rewrite !length_app in Heq.
  apply find_id_Some in Hfind as [Hin Hid].
  assert (length (filter (λ x, id x ≠ i) l) < length l)%nat; [|lia].
  clear -Hin Hid. induction l as [|x l IH]; [by apply elem_of_nil in Hin|].
  rewrite filter_cons. apply elem_of_cons in Hin as [<-|Hin].
  - rewrite decide_False by naive_solver. simpl.
    pose proof (length_filter (λ x, id x ≠ i) l). lia.
  - specialize (IH Hin). case_decide; simpl; lia.
Qed.

(** X7: Adding to or deleting from a name that is no column changes no board;
    the call returns normally unless the name is inherited from
    [Object.prototype], in which case it throws. *)
Theorem unknown_column_is_ignored (s : store) (p : Z) (c : string) :
  view s p !! c = None →
  let outcome := if bool_decide (c ∈ object_prototype_keys) then TypeError else Returned in
  (∀ t, addTaskToProject p c t s = (loaded p s, outcome))
  ∧ (∀ i, deleteTaskFromProject p i c s = (loaded p s, outcome))
  ∧ (∀ t q, view (addTaskToProject p c t s).1 q = view s q)
  ∧ (∀ i q, view (deleteTaskFromProject p i c s).1 q = view s q).
Proof.
  intros Hc outcome.
  assert (∀ t, addTaskToProject p c t s = (loaded p s, outcome)) as Ha.
  { intros t. unfold addTaskToProject, outcome. rewrite getProjectData_eq.
    rewrite (get_prop_not_array _ _ Hc). by case_bool_decide. }
  assert (∀ i, deleteTaskFromProject p i c s = (loaded p s, outcome)) as Hd.
  { intros i. unfold deleteTaskFromProject, outcome. rewrite getProjectData_eq.
    rewrite (get_prop_not_array _ _ Hc). by case_bool_decide. }
  repeat split; [done|done| |].
  - intros t q. rewrite Ha. apply view_loaded.
  - intros i q. rewrite Hd. apply view_loaded.
Qed.

End StoreOperations.

(** * Boards as shared objects *)

Section SharedBoards.

Import ProjectDataService StoreObjects.

Lemma view_same h h' q : sameBoard h h' q → view h' q = view h q.
Proof.
  intros [Hp Hr]. unfold view. rewrite Hp.
  destruct (projectsData h !! q) as [r|] eqn:E; [|done]. simpl. f_equal.
  destruct (Hr r eq_refl) as [Ho Ha]. unfold boardOf.
  assert (properties h' r = properties h r) as -> by (unfold properties; by rewrite Ho).
  apply map_fmap_ext. intros name a Hname. unfold elements. by rewrite (Ha name a Hname).
Qed.

Lemma sameBoard_refl h q : sameBoard h h q.
Proof. by split. Qed.

Lemma sameBoard_trans h h1 h2 q :
  sameBoard h h1 q → sameBoard h1 h2 q → sameBoard h h2 q.
Proof.
  intros [Hp1 Hr1] [Hp2 Hr2]. split; [by rewrite Hp2|].
  intros r Hr. destruct (Hr1 r Hr) as [Ho1 Ha1].
  rewrite <- Hp1 in Hr. destruct (Hr2 r Hr) as [Ho2 Ha2].
  split; [by rewrite Ho2|]. intros name a Hname.
  rewrite <- (Ha1 name a Hname). apply (Ha2 name a).
  unfold properties in *. by rewrite Ho1.
Qed.

Lemma allocated_same h h' q :
  allocated h q → sameBoard h h' q → (next h ≤ next h')%nat → allocated h' q.
Proof.
  intros Ha [Hp Hr] Hn r Hq. rewrite Hp in Hq.
  destruct (Ha r Hq) as [Hlt Hcols]. destruct (Hr r Hq) as [Ho _].
  split; [lia|]. intros name a Hname.
  unfold properties in Hname. rewrite Ho in Hname.
  specialize (Hcols name a Hname). lia.
Qed.

Lemma newArray_same h q l : allocated h q → sameBoard h (newArray l h).1 q.
Proof.
  intros Ha. split; [done|]. intros r Hr. destruct (Ha r Hr) as [_ Hcols].
  split; [done|]. intros name a Hname. simpl.
  specialize (Hcols name a Hname). rewrite lookup_insert_ne; [done|lia].
Qed.

Lemma setProject_same h p q r : p ≠ q → sameBoard h (setProject p r h) q.
Proof. intros Hne. split; [by simpl; rewrite lookup_insert_ne|]. by intros. Qed.

Lemma assign_same h q r name a :
  projectsData h !! q ≠ Some r → sameBoard h (assign r name a h) q.
Proof.
  intros Hne. split; [done|]. intros rq Hrq. simpl.
  split; [|done]. rewrite lookup_insert_ne; [done|]. by intros ->.
Qed.

Lemma push_same h q a task :
  (∀ rq name, projectsData h !! q = Some rq → properties h rq !! name ≠ Some a) →
  sameBoard h (push a task h) q.
Proof.
  intros Hno. split; [done|]. intros rq Hrq. split; [done|].
  intros name a' Hname. simpl. rewrite lookup_insert_ne; [done|].
  intros ->. by apply (Hno rq name Hrq).
Qed.

(** The arrays of an object literal are new. *)
Lemma fill_columns h (columns : list (string * list Task)) :
  let filled := foldr newProperty (h, ∅) columns in
  (next h ≤ next filled.1)%nat
  ∧ projectsData filled.1 = projectsData h
  ∧ objects filled.1 = objects h
  ∧ (∀ a, (a < next h)%nat → arrays filled.1 !! a = arrays h !! a)
  ∧ (∀ name a, filled.2 !! name = Some a → (next h ≤ a < next filled.1)%nat).
Proof.
  induction columns as [|[c l] columns IH]; simpl.
  - split; [done|]. split; [done|]. split; [done|]. split; [done|].
    intros name a H. by rewrite lookup_empty in H.
  - destruct IH as (Hn & Hp & Ho & Ha & Hf).
    set (filled := foldr newProperty (h, ∅) columns) in *.
    unfold newProperty. simpl.
    split; [lia|]. split; [done|]. split; [done|]. split.
    + intros a Hlt. rewrite lookup_insert_ne by lia. by apply Ha.
    + intros name a. destruct (decide (c = name)) as [->|Hne].
      * rewrite lookup_insert_eq. intros [= <-]. lia.
      * rewrite lookup_insert_ne by done. intros H. specialize (Hf name a H). lia.
Qed.

Lemma newObject_new h b :
  let created := newObject b h in
  (next h ≤ created.2 < next created.1)%nat
  ∧ projectsData created.1 = projectsData h
  ∧ (∀ r, (r < next h)%nat → objects created.1 !! r = objects h !! r)
  ∧ (∀ a, (a < next h)%nat → arrays created.1 !! a = arrays h !! a)
  ∧ (∀ name a, properties created.1 created.2 !! name = Some a →
               (next h ≤ a < next created.1)%nat).
Proof.
  unfold newObject. cbv zeta.
  destruct (fill_columns h (map_to_list b)) as (Hn & Hp & Ho & Ha & Hf).
  cbv zeta in Hn, Hp, Ho, Ha, Hf.
  set (filled := foldr _ _ _) in *. simpl.
  split; [lia|]. split; [done|]. split; [|split].
  - intros r Hlt. rewrite lookup_insert_ne by lia. by rewrite Ho.
  - done.
  - intros name a. unfold properties. simpl. rewrite lookup_insert_eq. simpl.
    intros H. specialize (Hf name a H). lia.
Qed.

Lemma newObject_same h q b : allocated h q → sameBoard h (newObject b h).1 q.
Proof.
  intros Hal. destruct (newObject_new h b) as (Hn & Hp & Ho & Ha & _).
  cbv zeta in *. split; [by rewrite Hp|]. intros r Hr.
  destruct (Hal r Hr) as [Hlt Hcols]. split; [by apply Ho|].
  intros name a Hname. apply Ha. by apply (Hcols name).
Qed.

(** After [getProjectData] the board of [p] is there, and still shares
    nothing with that of [q]. *)
Lemma getProjectData_apart h p q :
  p ≠ q → allocated h q → apart h p q →
  let loaded := getProjectData p h in
  sameBoard h loaded.1 q
  ∧ allocated loaded.1 q
  ∧ apart loaded.1 p q
  ∧ projectsData loaded.1 !! p = Some loaded.2.
Proof.
  intros Hne Hal Hap. unfold getProjectData.
  destruct (projectsData h !! p) as [rp|] eqn:Hp; cbv zeta.
  - simpl. split; [apply sameBoard_refl|]. done.
  - destruct (newObject_new h emptyBoard) as (Hn & Hpd & Ho & Ha & Hf).
    cbv zeta in *. set (created := newObject emptyBoard h) in *.
    assert (sameBoard h (setProject p created.2 created.1) q) as Hsame.
    { eapply sameBoard_trans; [by apply newObject_same|by apply setProject_same]. }
    clearbody created. simpl.
    split; [done|]. split; [|split].
    + apply (allocated_same h); [done..|]. simpl. lia.
    + intros rp rq. simpl. rewrite lookup_insert_eq, lookup_insert_ne by done.
      intros [= <-] Hrq. rewrite Hpd in Hrq. destruct (Hal rq Hrq) as [Hlt Hcols].
      split; [lia|]. intros name name' a H1 H2.
      change (properties (setProject p created.2 created.1) ?r)
        with (properties created.1 r) in *.
      specialize (Hf name a H1).
      unfold properties in H2. rewrite (Ho rq Hlt) in H2.
      specialize (Hcols name' a H2). lia.
    + by rewrite lookup_insert_eq.
Qed.

Lemma get_prop_own h r name a :
  get_prop h r name = Array a ↔ properties h r !! name = Some a.
Proof.
  unfold get_prop. destruct (properties h r !! name); [naive_solver|].
  case_bool_decide; naive_solver.
Qed.

(** What [p]'s operations do once its board [rp] is loaded. *)
Lemma push_apart h p q rp name a task :
  apart h p q → projectsData h !! p = Some rp →
  properties h rp !! name = Some a →
  sameBoard h (push a task h) q.
Proof.
  intros Hap Hp Hname. apply push_same. intros rq name' Hq H.
  destruct (Hap rp rq Hp Hq) as [_ Hcols]. by apply (Hcols name name' a).
Qed.

Lemma assign_apart h p q rp name a :
  apart h p q → projectsData h !! p = Some rp →
  sameBoard h (assign rp name a h) q.
Proof.
  intros Hap Hp. apply assign_same. intros Hq.
  by destruct (Hap rp rp Hp Hq) as [Hne _].
Qed.

Lemma addTaskToProject_same h p q c t :
  p ≠ q → allocated h q → apart h p q →
  sameBoard h (addTaskToProject p c t h).1 q.
Proof.
  intros Hne Hal Hap.
  destruct (getProjectData_apart h p q Hne Hal Hap) as (Hs & Hal1 & Hap1 & Hp1).
  cbv zeta in *. unfold addTaskToProject. cbv zeta.
  set (loaded := getProjectData p h) in *.
  destruct (get_prop loaded.1 loaded.2 c) as [a| |] eqn:E; simpl; [|done..].
  apply get_prop_own in E.
  eapply sameBoard_trans; [exact Hs|].
  eapply sameBoard_trans; [by apply (push_apart _ p q loaded.2 c)|].
  by apply setProject_same.
Qed.

Lemma deleteTaskFromProject_same h p q i c :
  p ≠ q → allocated h q → apart h p q →
  sameBoard h (deleteTaskFromProject p i c h).1 q.
Proof.
  intros Hne Hal Hap.
  destruct (getProjectData_apart h p q Hne Hal Hap) as (Hs & Hal1 & Hap1 & Hp1).
  cbv zeta in *. unfold deleteTaskFromProject. cbv zeta.
  set (loaded := getProjectData p h) in *.
  destruct (get_prop loaded.1 loaded.2 c) as [a| |] eqn:E; simpl; [|done..].
  eapply sameBoard_trans; [exact Hs|].
  eapply sameBoard_trans; [by apply newArray_same|].
  eapply sameBoard_trans; [|by apply setProject_same].
  apply assign_same. simpl. intros Hq.
  by destruct (Hap1 loaded.2 loaded.2 Hp1 Hq) as [? _].
Qed.

Lemma moveTaskInProject_same h p q i f t :
  p ≠ q → allocated h q → apart h p q →
  sameBoard h (moveTaskInProject p i f t h).1 q.
Proof.
  intros Hne Hal Hap.
  destruct (getProjectData_apart h p q Hne Hal Hap) as (Hs & Hal1 & Hap1 & Hp1).
  cbv zeta in *. unfold moveTaskInProject. cbv zeta.
  set (loaded := getProjectData p h) in *. clearbody loaded.
  destruct (get_prop loaded.1 loaded.2 f) as [a| |] eqn:E; [|done..].
  destruct (List.find _ (elements loaded.1 a)) as [task|]; [|done].
  set (l := filter _ _). clearbody l.
  set (removed := assign loaded.2 f (newArray l loaded.1).2 (newArray l loaded.1).1).
  assert (sameBoard loaded.1 removed q) as Hrem.
  { eapply sameBoard_trans; [by apply newArray_same|].
    apply assign_same. simpl. intros Hq.
    by destruct (Hap1 loaded.2 loaded.2 Hp1 Hq) as [? _]. }
  assert (projectsData removed = projectsData loaded.1) as Hpd by done.
  assert (∀ rq, rq ≠ loaded.2 → properties removed rq = properties loaded.1 rq) as Hother.
  { intros rq Hrq. unfold properties, removed. simpl. by rewrite lookup_insert_ne. }
  assert (properties removed loaded.2
          = <[f := next loaded.1]> (properties loaded.1 loaded.2)) as Hown.
  { unfold properties, removed. simpl. by rewrite lookup_insert_eq. }
  clearbody removed.
  destruct (get_prop removed loaded.2 t) as [a'| |] eqn:E';
    try (eapply sameBoard_trans; [exact Hs|exact Hrem]).
  apply get_prop_own in E'.
  eapply sameBoard_trans; [exact Hs|].
  eapply sameBoard_trans; [exact Hrem|].
  eapply sameBoard_trans; [|by apply setProject_same].
  apply push_same. intros rq name' Hq Hcol. rewrite Hpd in Hq.
  destruct (Hap1 loaded.2 rq Hp1 Hq) as [Hneq Hcols].
  destruct (Hal1 rq Hq) as [_ Hlt].
  rewrite (Hother rq) in Hcol by done. specialize (Hlt name' a' Hcol).
  rewrite Hown in E'. destruct (decide (f = t)) as [->|Hft].
  - rewrite lookup_insert_eq in E'. injection E' as <-. lia.
  - rewrite lookup_insert_ne in E' by done. by apply (Hcols t name' a').
Qed.

End SharedBoards.

Section BoardsApart.

Import ProjectDataService StoreObjects.

Lemma apart_sym h p q : apart h p q → apart h q p.
Proof.
  intros H rq rp Hq Hp. destruct (H rp rq Hp Hq) as [Hne Hcols].
  split; [done|]. intros name name' a H1 H2. by apply (Hcols name' name a).
Qed.

Lemma apart_grown h h' p q :
  p ≠ q → allocated h q → apart h p q →
  sameBoard h h' q → grownFrom h h' p → apart h' p q.
Proof.
  intros Hne Hal Hap [Hq Hsame] Hgrown rp rq Hrp Hrq.
  rewrite Hq in Hrq. destruct (Hal rq Hrq) as [Hlt Hcols].
  destruct (Hsame rq Hrq) as [Ho _].
  destruct (Hgrown rp Hrp) as (_ & Hr & Hnew). split.
  - destruct Hr as [Hr|Hr]; [lia|]. by destruct (Hap rp rq Hr Hrq).
  - intros name name' a H1 H2. unfold properties in H2. rewrite Ho in H2.
    specialize (Hcols name' a H2).
    destruct (Hnew name a H1) as [_ [Ha|(r & name0 & Hr0 & Ha)]]; [lia|].
    destruct (Hap r rq Hr0 Hrq) as [_ Hno]. by apply (Hno name0 name' a).
Qed.

Lemma apart_same h h' p q :
  apart h p q → sameBoard h h' p → sameBoard h h' q → apart h' p q.
Proof.
  intros Hap [Hp Hsp] [Hq Hsq] rp rq Hrp Hrq. rewrite Hp in Hrp. rewrite Hq in Hrq.
  destruct (Hap rp rq Hrp Hrq) as [Hne Hcols]. split; [done|].
  destruct (Hsp rp Hrp) as [Hop _]. destruct (Hsq rq Hrq) as [Hoq _].
  intros name name' a H1 H2. unfold properties in H1, H2. rewrite Hop in H1.
  rewrite Hoq in H2. by apply (Hcols name name' a).
Qed.

Lemma allocated_grown h h' p : grownFrom h h' p → allocated h' p.
Proof.
  intros Hg r Hr. destruct (Hg r Hr) as (Hlt & _ & Hcols). split; [done|].
  intros name a Hname. by destruct (Hcols name a Hname).
Qed.

(** One step on [p]: the other boards stay as they were, that of [p] is
    made of what it had and of new addresses. *)
Lemma wellFormed_step h h' p :
  wellFormed h → (next h ≤ next h')%nat →
  (∀ q, p ≠ q → sameBoard h h' q) → grownFrom h h' p → wellFormed h'.
Proof.
  intros [Hal Hap] Hn Hsame Hgrown. split.
  - intros q. destruct (decide (p = q)) as [<-|Hne].
    + by apply (allocated_grown h).
    + apply (allocated_same h); [done|by apply Hsame|done].
  - intros a b Hab.
    destruct (decide (p = a)) as [<-|Hpa]; [|destruct (decide (p = b)) as [<-|Hpb]].
    + apply (apart_grown h); [done|done|by apply Hap|by apply Hsame|done].
    + apply apart_sym.
      apply (apart_grown h); [done|done|by apply Hap|by apply Hsame|done].
    + apply (apart_same h); [by apply Hap|by apply Hsame..].
Qed.

Lemma grownFrom_refl h p : allocated h p → grownFrom h h p.
Proof.
  intros Hal r Hr. destruct (Hal r Hr) as [Hlt Hcols].
  split; [done|]. split; [by right|]. intros name a Hname.
  split; [by apply (Hcols name)|]. right. by exists r, name.
Qed.

(** The same board in a later heap. *)
Lemma grownFrom_later h h1 h2 p :
  grownFrom h h1 p →
  projectsData h2 !! p = projectsData h1 !! p →
  (∀ r, projectsData h1 !! p = Some r → properties h2 r = properties h1 r) →
  (next h1 ≤ next h2)%nat →
  grownFrom h h2 p.
Proof.
  intros Hg Hp Hprops Hn r Hr. rewrite Hp in Hr.
  destruct (Hg r Hr) as (Hlt & Hold & Hcols).
  split; [lia|]. split; [done|]. intros name a Hname.
  rewrite (Hprops r Hr) in Hname. destruct (Hcols name a Hname) as [Ha Hor].
  split; [lia|done].
Qed.

(** A column of the board is given a new array. *)
Lemma grownFrom_assign h h1 p rp name l :
  grownFrom h h1 p → projectsData h1 !! p = Some rp → (next h ≤ next h1)%nat →
  grownFrom h (assign rp name (newArray l h1).2 (newArray l h1).1) p.
Proof.
  intros Hg Hp Hn r Hr. simpl in Hr. rewrite Hp in Hr. injection Hr as <-.
  destruct (Hg rp Hp) as (Hlt & Hold & Hcols). simpl.
  split; [lia|]. split; [done|]. intros name' a.
  unfold properties at 1. simpl. rewrite lookup_insert_eq. simpl.
  destruct (decide (name = name')) as [<-|Hne].
  - rewrite lookup_insert_eq. intros [= <-]. split; [lia|]. left. lia.
  - rewrite lookup_insert_ne by done. intros Hname.
    destruct (Hcols name' a Hname) as [Ha Hor]. split; [lia|done].
Qed.

Lemma grownFrom_newObject h p b :
  let created := newObject b h in
  grownFrom h (setProject p created.2 created.1) p.
Proof.
  destruct (newObject_new h b) as (Hn & Hpd & Ho & Ha & Hf). cbv zeta in *.
  set (created := newObject b h) in *. clearbody created.
  intros r. simpl. rewrite lookup_insert_eq. intros [= <-].
  split; [lia|]. split; [left; lia|]. intros name a Hname.
  specialize (Hf name a Hname). split; [lia|]. left. lia.
Qed.

Lemma getProjectData_grown h p :
  allocated h p →
  let loaded := getProjectData p h in
  grownFrom h loaded.1 p
  ∧ projectsData loaded.1 !! p = Some loaded.2
  ∧ (next h ≤ next loaded.1)%nat.
Proof.
  intros Hal. unfold getProjectData.
  destruct (projectsData h !! p) as [rp|] eqn:Hp; cbv zeta.
  - split; [by apply grownFrom_refl|done].
  - destruct (newObject_new h emptyBoard) as (Hn & _). cbv zeta in Hn.
    split; [apply grownFrom_newObject|].
    set (created := newObject emptyBoard h) in *. clearbody created.
    simpl. rewrite lookup_insert_eq. split; [done|lia].
Qed.

Lemma perform_step h o :
  wellFormed h →
  ∃ p, (next h ≤ next (perform o h))%nat
       ∧ (∀ q, p ≠ q → sameBoard h (perform o h) q)
       ∧ grownFrom h (perform o h) p.
Proof.
  intros [Hal Hap].
  destruct o as [p|p c t|p i f t|p i c|p]; exists p; cbn [perform].
  - destruct (getProjectData_grown h p (Hal p)) as (Hg & _ & Hn). cbv zeta in *.
    split; [done|]. split; [|done]. intros q Hne.
    by destruct (getProjectData_apart h p q Hne (Hal q) (Hap p q Hne)) as [? _].
  - split; [|split].
    + destruct (getProjectData_grown h p (Hal p)) as (_ & _ & Hn). cbv zeta in *.
      unfold addTaskToProject. cbv zeta.
      by destruct (get_prop _ _ c).
    + intros q Hne. apply addTaskToProject_same; [done|apply Hal|by apply Hap].
    + destruct (getProjectData_grown h p (Hal p)) as (Hg & Hp & Hn). cbv zeta in *.
      unfold addTaskToProject. cbv zeta.
      set (loaded := getProjectData p h) in *. clearbody loaded.
      destruct (get_prop _ _ c) as [a| |]; [|done..]. simpl.
      apply (grownFrom_later h loaded.1); [done| |done|done].
      simpl. by rewrite lookup_insert_eq.
  - unfold moveTaskInProject. cbv zeta.
    destruct (getProjectData_grown h p (Hal p)) as (Hg & Hp & Hn). cbv zeta in *.
    assert (∀ q, p ≠ q → sameBoard h (moveTaskInProject p i f t h).1 q) as Hsame.
    { intros q Hne. apply moveTaskInProject_same; [done|apply Hal|by apply Hap]. }
    unfold moveTaskInProject in Hsame. cbv zeta in Hsame.
    set (loaded := getProjectData p h) in *. clearbody loaded.
    destruct (get_prop loaded.1 loaded.2 f) as [a| |]; [|done..].
    destruct (List.find _ (elements loaded.1 a)) as [task|]; [|done].
    set (l := filter _ _) in *. clearbody l.
    pose proof (grownFrom_assign h loaded.1 p loaded.2 f l Hg Hp Hn) as Hg2.
    set (removed := assign loaded.2 f (newArray l loaded.1).2 (newArray l loaded.1).1)
      in *.
    assert (next removed = S (next loaded.1)) as Hnr by done.
    assert (projectsData removed !! p = Some loaded.2) as Hpr by done.
    clearbody removed.
    destruct (get_prop removed loaded.2 t) as [a'| |]; simpl; try (split; [lia|done]).
    split; [lia|]. split; [done|].
    apply (grownFrom_later h removed); [done| |done|done].
    simpl. by rewrite lookup_insert_eq.
  - unfold deleteTaskFromProject. cbv zeta.
    destruct (getProjectData_grown h p (Hal p)) as (Hg & Hp & Hn). cbv zeta in *.
    assert (∀ q, p ≠ q → sameBoard h (deleteTaskFromProject p i c h).1 q) as Hsame.
    { intros q Hne. apply deleteTaskFromProject_same; [done|apply Hal|by apply Hap]. }
    unfold deleteTaskFromProject in Hsame. cbv zeta in Hsame.
    set (loaded := getProjectData p h) in *. clearbody loaded.
    destruct (get_prop loaded.1 loaded.2 c) as [a| |]; [|done..].
    set (l := filter _ _) in *. clearbody l.
    pose proof (grownFrom_assign h loaded.1 p loaded.2 c l Hg Hp Hn) as Hg2.
    set (removed := assign loaded.2 c (newArray l loaded.1).2 (newArray l loaded.1).1)
      in *.
    assert (next removed = S (next loaded.1)) as Hnr by done.
    assert (projectsData removed !! p = Some loaded.2) as Hpr by done.
    clearbody removed. simpl.
    split; [lia|]. split; [done|].
    apply (grownFrom_later h removed); [done| |done|done].
    simpl. by rewrite lookup_insert_eq.
  - unfold clearProjectData. cbv zeta.
    destruct (newObject_new h emptyBoard) as (Hn & _). cbv zeta in Hn.
    split; [|split].
    + set (created := newObject emptyBoard h) in *. clearbody created. simpl. lia.
    + intros q Hne.
      eapply sameBoard_trans; [apply newObject_same, Hal|by apply setProject_same].
    + apply grownFrom_newObject.
Qed.

(** A new board stored under [p]. *)
Lemma wellFormed_newObject h p b :
  wellFormed h → wellFormed (setProject p (newObject b h).2 (newObject b h).1).
Proof.
  intros Hwf. apply (wellFormed_step h _ p); [done| | |].
  - destruct (newObject_new h b) as (Hn & _). cbv zeta in Hn.
    set (created := newObject b h) in *. clearbody created. simpl. lia.
  - intros q Hne. destruct Hwf as [Hal _].
    eapply sameBoard_trans; [apply newObject_same, Hal|by apply setProject_same].
  - apply grownFrom_newObject.
Qed.

Lemma wellFormed_initialHeap : wellFormed initialHeap.
Proof.
  unfold initialHeap. cbv zeta. do 3 apply wellFormed_newObject.
  split; [intros p r Hr|intros p q _ rp rq Hp _]; simpl in *; by rewrite lookup_empty in *.
Qed.

(** The service's own operations keep the boards apart. *)
Lemma reachable_wellFormed h : reachable h → wellFormed h.
Proof.
  induction 1 as [|h o _ IH]; [apply wellFormed_initialHeap|].
  destruct (perform_step h o IH) as (p & Hn & Hsame & Hg).
  by apply (wellFormed_step h _ p).
Qed.

(** X1: In every state the service reaches from its initial data through
    [getProjectData], [addTaskToProject], [moveTaskInProject],
    [deleteTaskFromProject] and [clearProjectData], the board of a
    project is made of addresses in use and shares no object and no array
    with the board of another project; and while that is so, each of
    these operations, and [updateProjectData], on one project leaves the
    board of the other as it was. *)
Theorem operations_touch_one_project (h : Heap) (p q : Z) :
  p ≠ q →
  (reachable h → allocated h q ∧ apart h p q)
  ∧ (allocated h q → apart h p q →
     view (getProjectData p h).1 q = view h q
     ∧ (∀ c t, view (addTaskToProject p c t h).1 q = view h q)
     ∧ (∀ i f t, view (moveTaskInProject p i f t h).1 q = view h q)
     ∧ (∀ i c, view (deleteTaskFromProject p i c h).1 q = view h q)
     ∧ view (clearProjectData p h) q = view h q
     ∧ (∀ r, view (updateProjectData p r h) q = view h q)).
Proof.
  intros Hne. split.
  - intros Hr. destruct (reachable_wellFormed h Hr) as [Hal Hap].
    split; [apply Hal|by apply Hap].
  - intros Hal Hap. split; [|split; [|split; [|split; [|split]]]].
    + apply view_same.
      by destruct (getProjectData_apart h p q Hne Hal Hap) as [? _].
    + intros c t. by apply view_same, addTaskToProject_same.
    + intros i f t. by apply view_same, moveTaskInProject_same.
    + intros i c. by apply view_same, deleteTaskFromProject_same.
    + apply view_same. unfold clearProjectData. cbv zeta.
      eapply sameBoard_trans; [by apply newObject_same|by apply setProject_same].
    + intros r. apply view_same. by apply setProject_same.
Qed.

End BoardsApart.

(** * The component's updates against the store *)

Section BoardUpdates.

Import ProjectDataService Board.

Lemma own_array_Some (b : board) c l : b !! c = Some l → own_array b c = Some l.
Proof. intros H. unfold own_array. apply get_prop_array in H. by rewrite H. Qed.

Lemma own_array_None (b : board) c : b !! c = None → own_array b c = None.
Proof.
  intros H. unfold own_array. rewrite (get_prop_not_array _ _ H). by case_bool_decide.
Qed.

Lemma handleMoveTask_updater_found (b : board) i f t lf lt task :
  f ≠ t → b !! f = Some lf → b !! t = Some lt →
  List.find (λ x, bool_decide (id x = i)) lf = Some task →
  handleMoveTask_updater i f t b
  = Some (<[t := lt ++ [task]]> (<[f := filter (λ x, id x ≠ i) lf]> b)).
Proof.
  intros Hne Hf Ht Hfind. unfold handleMoveTask_updater.
  rewrite (own_array_Some _ _ _ Hf). simpl. rewrite Hfind.
  by rewrite (own_array_Some _ _ _ Ht).
Qed.

(** X8: Between two different columns the update of [handleMoveTask], applied
    to the store's board, yields the board the store holds after
    [moveTaskInProject]. *)
Theorem move_update_matches_store (s : store) (p : Z) (i f t : string) :
  f ≠ t →
  is_Some (view s p !! f) →
  is_Some (view s p !! t) →
  handleMoveTask_updater i f t (view s p)
  = Some (view (moveTaskInProject p i f t s).1 p)
  ∧ (moveTaskInProject p i f t s).2 = Returned.
Proof.
  intros Hne [lf Hf] [lt Ht].
  destruct (List.find (λ x, bool_decide (id x = i)) lf) as [task|] eqn:Hfind.
  - rewrite (handleMoveTask_updater_found _ _ _ _ _ _ _ Hne Hf Ht Hfind).
    pose proof (moveTaskInProject_found s p i f t lf task Hf Hfind) as H.
    cbv zeta in H. rewrite lookup_insert_ne, Ht in H by done.
    rewrite H. simpl. by rewrite view_insert.
  - rewrite (moveTaskInProject_not_found _ _ _ _ t lf Hf Hfind). simpl.
    rewrite view_loaded. unfold handleMoveTask_updater.
    rewrite (own_array_Some _ _ _ Hf). simpl. by rewrite Hfind.
Qed.

(** X9: On a column the update of [handleDeleteTask] agrees with the store;
    on a name that is no column the update throws while the store leaves
    the board as it is. *)
Theorem delete_update_matches_store (s : store) (p : Z) (i c : string) :
  (is_Some (view s p !! c) →
   handleDeleteTask_updater i c (view s p)
   = Some (view (deleteTaskFromProject p i c s).1 p))
  ∧ (view s p !! c = None →
     handleDeleteTask_updater i c (view s p) = None
     ∧ view (deleteTaskFromProject p i c s).1 p = view s p).
Proof.
  split.
  - intros [l Hl]. unfold handleDeleteTask_updater.
    rewrite (own_array_Some _ _ _ Hl). simpl.
    rewrite (deleteTaskFromProject_column _ _ _ _ _ Hl). simpl.
    by rewrite view_insert.
  - intros Hn. split.
    + unfold handleDeleteTask_updater. by rewrite (own_array_None _ _ Hn).
    + rewrite (deleteTaskFromProject_no_column _ _ _ _ Hn). apply view_loaded.
Qed.

(** X10: A target taken from a card's menu differs from the card's column, and
    the move puts the task's id into the target and out of the current
    column, in the local update and in the store alike. *)
Theorem menu_move_reaches_target (s : store) (p : Z) (availableColumns : list string)
    (currentColumn toColumn : string) (task : Task) (l : list Task) :
  (∀ c, c ∈ availableColumns → is_Some (view s p !! c)) →
  view s p !! currentColumn = Some l →
  task ∈ l →
  toColumn ∈ moveOptions availableColumns currentColumn →
  toColumn ≠ currentColumn
  ∧ ∃ b', handleMoveTask_updater (id task) currentColumn toColumn (view s p) = Some b'
          ∧ view (moveTaskInProject p (id task) currentColumn toColumn s).1 p = b'
          ∧ inColumn b' (id task) toColumn
          ∧ ¬ inColumn b' (id task) currentColumn.
Proof.
  intros Hcols Hcur Hin Hopt.
  apply list_elem_of_filter in Hopt as [Hne Hto].
  destruct (Hcols _ Hto) as [lt Ht].
  split; [done|].
  destruct (List.find (λ x, bool_decide (id x = id task)) l) as [found|] eqn:Hfind;
    cycle 1.
  { exfalso. by apply (proj1 (find_id_None l (id task)) Hfind task). }
  eexists. split.
  { apply (handleMoveTask_updater_found _ _ _ _ _ _ _ (not_eq_sym Hne) Hcur Ht Hfind). }
  apply find_id_Some in Hfind as Hfound. destruct Hfound as [_ Hid].
  split; [|split].
  - pose proof (moveTaskInProject_found s p (id task) currentColumn toColumn l found
                  Hcur Hfind) as H.
    cbv zeta in H. rewrite lookup_insert_ne, Ht in H by done.
    rewrite H. simpl. by rewrite view_insert.
  - apply inColumn_insert. left. split; [done|]. exists found.
    rewrite elem_of_app. split; [right; by apply list_elem_of_singleton|done].
  - rewrite !inColumn_insert. intros [[? _]|[_ [[_ H]|[? _]]]]; [done| |done].
    by apply (filter_same_id l (id task)).
Qed.

(** X11: In one project two generated task ids are equal exactly when the
    creation times are. *)
Theorem newTaskId_by_time (projectId now now' : Z) :
  newTaskId projectId now = newTaskId projectId now' ↔ now = now'.
Proof.
  split; [|by intros ->]. unfold newTaskId. intros H.
  apply (inj (String.app _)) in H. apply (inj (String.app _)) in H.
  apply (inj (String.app _)) in H. by apply (inj pretty) in H.
Qed.

End BoardUpdates.

(** * More on the realtime client *)

Section Subscriptions.

Import WebSocketService.

Lemma removeFirst_absent n (l : list callback) :
  n ∉ cb_id <$> l → removeFirst n l = l.
Proof.
  induction l as [|c l IH]; [done|]. rewrite fmap_cons, not_elem_of_cons.
  intros [Hne Hl]. simpl. rewrite bool_decide_eq_false_2 by done. by rewrite IH.
Qed.

Lemma removeFirst_first n (l1 l2 : list callback) c :
  n ∉ cb_id <$> l1 → cb_id c = n → removeFirst n (l1 ++ c :: l2) = l1 ++ l2.
Proof.
  intros Hl1 Hc. induction l1 as [|c1 l1 IH]; simpl.
  - by rewrite bool_decide_eq_true_2.
  - rewrite fmap_cons, not_elem_of_cons in Hl1. destruct Hl1 as [Hne Hl1].
    rewrite bool_decide_eq_false_2 by done. by rewrite IH.
Qed.

Lemma set_listeners_same (s : Service) : set_listeners (listeners s) s = s.
Proof. by destruct s. Qed.

Lemma withService_same (f : Service → Service) w :
  f (service w) = service w → withService f w = w.
Proof. intros H. destruct w. unfold withService. simpl in *. by rewrite H. Qed.

(** X12: Unsubscribing a callback that is not registered changes nothing;
    otherwise exactly its first registration is removed. *)
Theorem unsubscribe_removes_first_registration (w : World) (event : string)
    (cb : callback) :
  ((∀ l, listeners (service w) !! event = Some l → cb_id cb ∉ cb_id <$> l) →
   unsubscribe event cb w = w)
  ∧ (∀ l1 c l2,
       listeners (service w) !! event = Some (l1 ++ c :: l2) →
       cb_id c = cb_id cb → cb_id cb ∉ cb_id <$> l1 →
       listeners (service (unsubscribe event cb w))
       = <[event := l1 ++ l2]> (listeners (service w))).
Proof.
  split.
  - intros H. unfold unsubscribe. apply withService_same.
    destruct (listeners (service w) !! event) as [l|] eqn:E; [|done].
    rewrite (removeFirst_absent _ _ (H l eq_refl)).
    rewrite insert_id by done. apply set_listeners_same.
  - intros l1 c l2 Hl Hc Hl1. unfold unsubscribe. simpl. rewrite Hl. simpl.
    by rewrite (removeFirst_first _ _ _ _ Hl1 Hc).
Qed.

(** X13: Subscribing a new callback and unsubscribing it again restores the
    listeners of every event. *)
Theorem subscribe_then_unsubscribe (w : World) (event : string) (cb : callback) :
  cb_id cb ∉ cb_id <$> default [] (listeners (service w) !! event) →
  let w' := unsubscribe event cb (subscribe event cb w) in
  listeners (service w')
  = <[event := default [] (listeners (service w) !! event)]> (listeners (service w))
  ∧ (∀ e, default [] (listeners (service w') !! e)
          = default [] (listeners (service w) !! e))
  ∧ (∀ e data, invoked (notifyListeners e data w').1
               = invoked (notifyListeners e data w).1)
  ∧ sent w' = sent w ∧ timers w' = timers w.
Proof.
  intros Hfresh w'.
  set (old := default [] (listeners (service w) !! event)) in *.
  assert (listeners (service w') = <[event := old]> (listeners (service w))) as Hl.
  { unfold w', unsubscribe, subscribe. simpl. rewrite lookup_insert_eq. simpl.
    rewrite insert_insert_eq. f_equal. fold old.
    rewrite <- (app_nil_r old) at 2.
    apply (removeFirst_first _ old [] cb); done. }
  assert (∀ e, default [] (listeners (service w') !! e)
               = default [] (listeners (service w) !! e)) as Hd.
  { intros e. rewrite Hl. destruct (decide (event = e)) as [<-|Hne].
    - by rewrite lookup_insert_eq.
    - by rewrite lookup_insert_ne. }
  split; [done|]. split; [done|]. split; [|done].
  intros e data. rewrite !notifyListeners_eq. simpl. by rewrite Hd.
Qed.

End Subscriptions.

Section Connection.

Import IsoDate WebSocketService.

Lemma received_without_listeners (messages : list jsval) (w : World) :
  listeners (service w) = ∅ →
  ∃ w', received messages w = (w', Normal)
        ∧ listeners (service w') = ∅ ∧ invoked w' = invoked w ∧ sent w' = sent w
        ∧ timers w' = timers w.
Proof.
  revert w. induction messages as [|data messages IH]; intros w Hl.
  - by exists w.
  - destruct (onmessage_calls data w) as (w1 & Hrun & Hi & Hs & Ht & _ & Hsvc).
    assert (listeners (service w1) = ∅) as Hl1 by (by rewrite <- Hl, <- Hsvc).
    destruct (IH w1 Hl1) as (w2 & Hrun' & Hl2 & Hi' & Hs' & Ht').
    exists w2. cbn [received foldr]. unfold andThen at 1. rewrite Hrun.
    change (foldr _ _ messages) with (received messages). rewrite Hrun'.
    rewrite Hi', Hs', Ht', Hi, Hs, Ht. repeat split; [done|].
    unfold callsFor. rewrite Hl. destruct (delivery data) as [[e pl]|]; simpl.
    + rewrite lookup_empty. simpl. by rewrite app_nil_r.
    + by rewrite app_nil_r.
Qed.

(** X14: After [disconnect] nothing is sent, no listener is called by inbound
    messages or notifications, and earlier unsubscribe functions do
    nothing. *)
Theorem disconnect_silences_the_service (w : World) :
  let w' := disconnect w in
  ws (service w') = None
  ∧ getConnectionStatus w' = (false, onlineUsers (service w))
  ∧ (∀ type payload now, skipped (sendMessage type payload now) w')
  ∧ (∀ messages, invoked (received messages w').1 = invoked w
                 ∧ sent (received messages w').1 = sent w)
  ∧ (∀ event data, invoked (notifyListeners event data w').1 = invoked w)
  ∧ (∀ event cb, unsubscribe event cb w' = w').
Proof.
  intros w'. split; [done|]. split; [done|]. split; [|split; [|split]].
  - intros. by apply sendMessage_skipped.
  - intros messages.
    destruct (received_without_listeners messages w' eq_refl)
      as (w2 & -> & _ & Hi & Hs & _). simpl. by rewrite Hi, Hs.
  - intros event data. rewrite notifyListeners_eq. simpl.
    rewrite lookup_empty. simpl. by rewrite app_nil_r.
  - intros event cb. unfold unsubscribe. apply withService_same.
    simpl. by rewrite lookup_empty.
Qed.

(** X15: [disconnect] leaves pending timers alone: a reconnection scheduled
    before it still opens a new socket afterwards. *)
Theorem disconnect_keeps_pending_reconnect (w : World) (delay : Z)
    (userId : string) (rest : list (Z * timerAction)) (error : jsval) :
  timers w = (delay, RunConnect userId) :: rest →
  timers (disconnect w) = timers w
  ∧ reconnectAttempts (service (disconnect w)) = reconnectAttempts (service w)
  ∧ ∃ w', fireTimer true error (disconnect w) = (w', Normal)
          ∧ ws (service w')
            = Some {| ws_url := (url (service w) ++ "?user_id=" ++ userId)%string;
                      readyState := CONNECTING |}
          ∧ timers w' = rest.
Proof.
  intros Ht. split; [done|]. split; [done|].
  unfold fireTimer. change (timers (disconnect w)) with (timers w). rewrite Ht.
  unfold runTimer, connect.
  change (isOpen (service (dropTimer (disconnect w)))) with false. cbv iota.
  eexists. split; [done|]. simpl. by rewrite Ht.
Qed.


End Connection.

Section ConnectionMore.

Import IsoDate WebSocketService.

(** X17: A close event with a code other than 1000 that arrives after
    [disconnect] still schedules a reconnection, which opens a new socket. *)
Theorem close_after_disconnect_reconnects (w : World) (userId : string) (code : Z) :
  code ≠ 1000 → timers w = [] →
  reconnectAttempts (service w) < maxReconnectAttempts (service w) →
  ∃ w', (closed userId code ;; fireTimer true VUndefined) (disconnect w) = (w', Normal)
        ∧ ws (service w')
          = Some {| ws_url := (url (service w) ++ "?user_id=" ++ userId)%string;
                    readyState := CONNECTING |}
        ∧ delays w' = delays w ++ [reconnectInterval (service w)]
        ∧ reconnectAttempts (service w') = reconnectAttempts (service w) + 1.
Proof.
  intros Hcode Ht Hlt.
  destruct w as [s out con tim del inv]. simpl in Ht, Hlt. subst tim.
  unfold closed, onclose, andThen, pure. rewrite notifyListeners_eq.
  rewrite bool_decide_eq_true_2 by done.
  unfold attemptReconnect, afterCalls, withService, print, setTimeout, disconnect.
  cbn [service sent console timers delays invoked reconnectAttempts listeners
       maxReconnectAttempts reconnectInterval set_isConnected set_reconnectAttempts
       set_listeners set_ws setReadyState ws].
  rewrite bool_decide_eq_true_2 by done.
  unfold fireTimer, dropTimer, runTimer, connect, withService, print.
  cbn [app timers service sent console delays invoked tail isOpen ws
       set_reconnectAttempts set_isConnected].
  eexists. split; [done|]. by cbn.
Qed.


Lemma opened_effect (w : World) :
  ∃ w', opened w = (w', Normal)
        ∧ reconnectAttempts (service w') = 0
        ∧ isConnected (service w') = true
        ∧ maxReconnectAttempts (service w') = maxReconnectAttempts (service w)
        ∧ reconnectInterval (service w') = reconnectInterval (service w)
        ∧ timers w' = timers w ∧ delays w' = delays w.
Proof.
  unfold opened, onopen, andThen, pure. rewrite notifyListeners_eq.
  eexists. split; [done|]. simpl.
  unfold setReadyState. by destruct (ws (service w)).
Qed.

(** X19: An open resets the attempt counter, so later drops get the full
    number of retries again. *)
Theorem open_restores_the_retry_budget (w : World) (userId : string) (code : Z)
    (n : nat) :
  code ≠ 1000 → timers w = [] →
  ∃ w1 w2, opened w = (w1, Normal)
           ∧ reconnectAttempts (service w1) = 0
           ∧ dropRepeatedly n userId code w1 = (w2, Normal)
           ∧ delays w2
             = delays w
               ++ replicate (n `min` Z.to_nat (maxReconnectAttempts (service w)))
                    (reconnectInterval (service w)).
Proof.
  intros Hcode Ht.
  destruct (opened_effect w) as (w1 & Hrun & Ha & _ & Hm & Hi & Ht1 & Hd1).
  rewrite Ht in Ht1.
  destruct (dropRepeatedly_delays n userId code w1 Hcode Ht1)
    as (w2 & Hrun2 & _ & _ & _ & _ & Hd & _).
  exists w1, w2. rewrite Ha, Z.sub_0_r, Hm, Hi, Hd1 in Hd. done.
Qed.

End ConnectionMore.

Section Messages.

Import IsoDate WebSocketService.

Lemma handleMessage_user_count data payload w :
  get data "type" = Some (VStr "user_count") →
  get data "payload" = Some payload →
  handleMessage data w
  = match get payload "count" with
    | Some count =>
        notifyListeners "userCount" payload (withService (set_onlineUsers count) w)
    | None => (w, Throw)
    end.
Proof. intros Ht Hp. unfold handleMessage. by rewrite Ht, Hp. Qed.


Lemma onmessage_onlineUsers data w :
  onlineUsers (service (onmessage (Some data) w).1)
  = match delivery data with
    | Some (event, payload) =>
        if bool_decide (event = "userCount")
        then default VUndefined (get payload "count")
        else onlineUsers (service w)
    | None => onlineUsers (service w)
    end.
Proof.
  unfold onmessage, tryCatch, handleMessage, delivery, pure, eventOf.
  destruct (get data "type") as [type|]; simpl; [|done].
  destruct (get data "payload") as [payload|]; simpl; [|done].
  repeat match goal with
         | |- context [strictEquals type ?l] => destruct (strictEquals type l)
         end; simpl; try done; try (by rewrite notifyListeners_eq).
  destruct (get payload "count") as [count|] eqn:Hc; [rewrite notifyListeners_eq|]; simpl.
  - by rewrite Hc.
  - done.
Qed.

(** X21: A message of any other type leaves the reported connection status
    unchanged. *)
Theorem only_user_count_changes_online_users (w : World) (data : jsval) :
  (∀ type, get data "type" = Some type → strictEquals type "user_count" = false) →
  getConnectionStatus (onmessage (Some data) w).1 = getConnectionStatus w.
Proof.
  intros Hno. unfold getConnectionStatus. f_equal.
  - destruct (onmessage_calls data w) as (w' & Hrun & _ & _ & _ & _ & Hsvc).
    rewrite Hrun. simpl. by rewrite <- Hsvc.
  - rewrite onmessage_onlineUsers. unfold delivery, eventOf.
    destruct (get data "type") as [type|]; simpl; [|done].
    specialize (Hno type eq_refl).
    destruct (get data "payload") as [payload|]; simpl; [|done].
    rewrite Hno.
    repeat match goal with
           | |- context [strictEquals type ?l] => destruct (strictEquals type l)
           end; simpl; done.
Qed.

(** X22: The [onmessage] handler never throws; a frame that is not JSON, is
    [null], or is a [user_count] without readable payload only writes an
    error line to the console. *)
Theorem malformed_message_is_logged (w : World) :
  (∀ parsed, (onmessage parsed w).2 = Normal)
  ∧ (∀ parsed,
       (parsed = None ∨ parsed = Some VNull
        ∨ ∃ data payload,
            parsed = Some data
            ∧ get data "type" = Some (VStr "user_count")
            ∧ get data "payload" = Some payload
            ∧ get payload "count" = None) →
       onmessage parsed w
       = (print (ConsoleError "Error parsing WebSocket message:") w, Normal)).
Proof.
  split.
  - intros [data|].
    + by destruct (onmessage_calls data w) as (w' & -> & _).
    + done.
  - intros parsed [->|[->|(data & payload & -> & Ht & Hp & Hc)]]; try done.
    unfold onmessage, tryCatch.
    by rewrite (handleMessage_user_count _ _ _ Ht Hp), Hc.
Qed.

(** X23: After an error event on an open socket the status reads disconnected
    while messages are still sent. *)
Theorem error_event_leaves_socket_usable (w : World) (error : jsval) :
  isOpen (service w) = true →
  ∃ w', onerror error w = (w', Normal)
        ∧ getConnectionStatus w' = (false, onlineUsers (service w))
        ∧ ws (service w') = ws (service w)
        ∧ timers w' = timers w
        ∧ ∀ type fields now, sendsEnvelope (sendMessage type (VObj fields) now) w'.
Proof.
  intros Hopen. unfold onerror, andThen, pure. rewrite notifyListeners_eq.
  eexists. split; [done|]. simpl. repeat split.
  intros type fields now. by apply sendMessage_open.
Qed.

End Messages.

(** * The account service *)

Section Accounts.

Import AuthService.

Lemma notify_fold (ls : list listener) (st : State) :
  let st' := foldl callListener st ls in
  currentUser st' = currentUser st
  ∧ isAuthenticated st' = isAuthenticated st
  ∧ availableUsers st' = availableUsers st
  ∧ authListeners st' = authListeners st
  ∧ item_currentUser st' = item_currentUser st
  ∧ item_isAuthenticated st' = item_isAuthenticated st
  ∧ notified st'
    = notified st ++ ((λ l, (l_id l, currentUser st, isAuthenticated st)) <$> ls).
Proof.
  revert st. induction ls as [|l ls IH]; intros st; simpl.
  - by rewrite app_nil_r.
  - destruct (IH (callListener st l)) as (H1 & H2 & H3 & H4 & H5 & H6 & H7).
    rewrite H1, H2, H3, H4, H5, H6, H7. unfold callListener.
    destruct (l_throws l (currentUser st) (isAuthenticated st)); simpl;
      by rewrite <- app_assoc.
Qed.

Lemma notifyAuthListeners_fields (st : State) :
  let st' := notifyAuthListeners st in
  currentUser st' = currentUser st
  ∧ isAuthenticated st' = isAuthenticated st
  ∧ availableUsers st' = availableUsers st
  ∧ authListeners st' = authListeners st
  ∧ item_currentUser st' = item_currentUser st
  ∧ item_isAuthenticated st' = item_isAuthenticated st
  ∧ notified st'
    = notified st
      ++ ((λ l, (l_id l, currentUser st, isAuthenticated st)) <$> authListeners st).
Proof. apply notify_fold. Qed.

Lemma inactive_after_login (userId : Z) (users : list User) :
  filter (λ u, isActive u = false)
    ((λ u, setActive (bool_decide (id u = userId)) u) <$> users)
  = setActive false <$> filter (λ u, id u ≠ userId) users.
Proof.
  induction users as [|u us IH]; [done|].
  rewrite fmap_cons, !filter_cons, IH. simpl.
  destruct (decide (id u = userId)) as [Heq|Hne].
  - rewrite bool_decide_eq_true_2 by done.
    rewrite decide_False by done. rewrite decide_False by naive_solver. done.
  - rewrite bool_decide_eq_false_2 by done.
    rewrite decide_True by done. rewrite decide_True by done. done.
Qed.

Lemma inactive_after_logout (users : list User) :
  filter (λ u, isActive u = false) (setActive false <$> users)
  = setActive false <$> users.
Proof.
  induction users as [|u us IH]; [done|].
  rewrite fmap_cons, filter_cons_True by done. by rewrite IH.
Qed.

Lemma login_fields (user : User) (st : State) :
  let st' := login user st in
  isLoggedIn st' = true
  ∧ getCurrentUser st' = Some user
  ∧ (∀ u, u ∈ availableUsers st' → isActive u = true ↔ id u = id user)
  ∧ item_currentUser st' = Some (UserJson user)
  ∧ item_isAuthenticated st' = Some "true"%string.
Proof.
  intros st'. unfold st', login.
  match goal with |- context [notifyAuthListeners ?x] =>
    destruct (notifyAuthListeners_fields x) as (H1 & H2 & H3 & H4 & H5 & H6 & H7)
  end.
  unfold isLoggedIn, getCurrentUser.
  rewrite H1, H2, H3, H5, H6. simpl.
  split; [done|]. split; [done|]. split; [|done].
  intros u Hu. apply list_elem_of_fmap in Hu as (v & -> & _). simpl.
  by rewrite bool_decide_eq_true.
Qed.

(** X24: After [login] exactly the users with the given id are active, the
    others are what [getAvailableUsers] returns, [localStorage] holds the
    user, and every listener has been called once. *)
Theorem login_activates_one_account (user : User) (st : State) :
  let st' := login user st in
  isLoggedIn st' = true
  ∧ getCurrentUser st' = Some user
  ∧ (∀ u, u ∈ availableUsers st' → isActive u = true ↔ id u = id user)
  ∧ getAvailableUsers st'
    = setActive false <$> filter (λ u, id u ≠ id user) (availableUsers st)
  ∧ item_currentUser st' = Some (UserJson user)
  ∧ item_isAuthenticated st' = Some "true"%string
  ∧ notified st'
    = notified st ++ ((λ l, (l_id l, Some user, true)) <$> authListeners st).
Proof.
  intros st'.
  destruct (login_fields user st) as (Hl & Hc & Ha & Hi & Hf).
  split; [done|]. split; [done|]. split; [done|].
  split; [|split; [done|split; [done|]]].
  - unfold st', login, getAvailableUsers.
    match goal with |- context [notifyAuthListeners ?x] =>
      destruct (notifyAuthListeners_fields x) as (_ & _ & -> & _)
    end.
    apply inactive_after_login.
  - unfold st', login.
    match goal with |- context [notifyAuthListeners ?x] =>
      destruct (notifyAuthListeners_fields x) as (_ & _ & _ & _ & _ & _ & ->)
    end.
    done.
Qed.

(** X25: [switchAccount] with an unknown id changes nothing and returns false;
    with a known id the current user is the entry as it was before the
    switch, and exactly the users with that id are active. *)
Theorem switchAccount_outcomes (userId : Z) (st : State) :
  ((∀ u, u ∈ availableUsers st → id u ≠ userId) →
   switchAccount userId st = (st, false))
  ∧ (∀ l1 u l2,
       availableUsers st = l1 ++ u :: l2 →
       id u = userId → (∀ v, v ∈ l1 → id v ≠ userId) →
       (switchAccount userId st).2 = true
       ∧ getCurrentUser (switchAccount userId st).1 = Some u
       ∧ ∀ v, v ∈ availableUsers (switchAccount userId st).1 →
              isActive v = true ↔ id v = userId).
Proof.
  split.
  - intros H. unfold switchAccount.
    destruct (List.find _ (availableUsers st)) as [u|] eqn:E; [|done].
    apply find_some in E as [Hin Hb]. apply bool_decide_eq_true in Hb.
    apply list_elem_of_In in Hin. by destruct (H u Hin).
  - intros l1 u l2 Hl Hu Hl1. unfold switchAccount. rewrite Hl.
    assert (List.find (λ u0, bool_decide (id u0 = userId)) (l1 ++ u :: l2) = Some u)
      as Hfind.
    { clear Hl. induction l1 as [|v l1 IH]; simpl.
      - by rewrite bool_decide_eq_true_2.
      - rewrite bool_decide_eq_false_2 by (apply Hl1; left).
        apply IH. intros v' Hv'. apply Hl1. by right. }
    rewrite Hfind. simpl.
    destruct (login_fields u st) as (_ & Hc & Ha & _).
    split; [done|]. split; [done|]. intros v Hv. rewrite <- Hu. by apply Ha.
Qed.

(** X26: After [logout] nobody is logged in, no user is active, the storage
    items are gone and [restoreAuthState] changes nothing. *)
Theorem logout_clears_the_session (st : State) :
  let st' := logout st in
  isLoggedIn st' = false
  ∧ getCurrentUser st' = None
  ∧ getAvailableUsers st' = setActive false <$> availableUsers st
  ∧ item_currentUser st' = None ∧ item_isAuthenticated st' = None
  ∧ notified st' = notified st ++ ((λ l, (l_id l, None, false)) <$> authListeners st)
  ∧ restoreAuthState st' = st'.
Proof.
  intros st'. unfold st', logout.
  match goal with |- context [notifyAuthListeners ?x] =>
    destruct (notifyAuthListeners_fields x) as (H1 & H2 & H3 & H4 & H5 & H6 & H7)
  end.
  unfold isLoggedIn, getCurrentUser, getAvailableUsers, restoreAuthState.
  rewrite H1, H2, H3, H5, H6, H7. simpl. repeat split.
  apply inactive_after_logout.
Qed.

(** X27: Whatever [localStorage] held, the service starts logged in as the
    first default user: the constructor's [login] overwrites the saved
    session before [restoreAuthState] reads it. *)
Theorem startup_ignores_saved_session (saved : option savedUser) (flag : option string) :
  startup saved flag = startup None None
  ∧ ∃ first rest,
      defaultUsers = first :: rest
      ∧ getCurrentUser (startup saved flag) = Some first
      ∧ item_currentUser (startup saved flag) = Some (UserJson first)
      ∧ isLoggedIn (startup saved flag) = true.
Proof.
  split; [done|]. eexists _, _. split; [done|]. done.
Qed.

Lemma updateFirst_length userId updates users :
  length (updateFirst userId updates users) = length users.
Proof.
  induction users as [|u us IH]; [done|]. simpl.
  case_bool_decide; simpl; by rewrite ?IH.
Qed.

Lemma updateFirst_others userId updates users :
  default userId (new_id updates) = userId →
  filter (λ u, id u ≠ userId) (updateFirst userId updates users)
  = filter (λ u, id u ≠ userId) users.
Proof.
  intros Hid. induction users as [|u us IH]; [done|]. simpl.
  case_bool_decide as Hu.
  - rewrite !filter_cons. rewrite decide_False by naive_solver.
    rewrite decide_False; [done|]. simpl. rewrite Hu. naive_solver.
  - rewrite !filter_cons, IH. done.
Qed.

Lemma updateProfile_logged_in (updates : Updates) (st : State) (user : User) :
  currentUser st = Some user →
  let st' := (updateProfile updates st).1 in
  currentUser st' = Some (merge user updates)
  ∧ item_currentUser st' = Some (UserJson (merge user updates))
  ∧ isAuthenticated st' = isAuthenticated st
  ∧ item_isAuthenticated st' = item_isAuthenticated st.
Proof.
  intros Hu st'. unfold st', updateProfile. rewrite Hu. simpl.
  match goal with |- context [notifyAuthListeners ?x] =>
    destruct (notifyAuthListeners_fields x) as (H1 & H2 & H3 & H4 & H5 & H6 & H7)
  end.
  by rewrite H1, H2, H5, H6.
Qed.

(** X28: [updateProfile] does nothing when nobody is logged in; otherwise the
    current user is merged with the updates and saved, and no user with
    another id is touched. *)
Theorem updateProfile_outcomes (updates : Updates) (st : State) :
  (currentUser st = None → updateProfile updates st = (st, false))
  ∧ (∀ user,
       currentUser st = Some user →
       let st' := (updateProfile updates st).1 in
       let updated := merge user updates in
       (updateProfile updates st).2 = true
       ∧ getCurrentUser st' = Some updated
       ∧ item_currentUser st' = Some (UserJson updated)
       ∧ isAuthenticated st' = isAuthenticated st
       ∧ length (availableUsers st') = length (availableUsers st)
       ∧ filter (λ u, id u ≠ id updated) (availableUsers st')
         = filter (λ u, id u ≠ id updated) (availableUsers st)
       ∧ notified st'
         = notified st
           ++ ((λ l, (l_id l, Some updated, isAuthenticated st)) <$> authListeners st)).
Proof.
  split.
  - intros H. unfold updateProfile. by rewrite H.
  - intros user Hu st' updated. unfold st', updateProfile. rewrite Hu. simpl.
    match goal with |- context [notifyAuthListeners ?x] =>
      destruct (notifyAuthListeners_fields x) as (H1 & H2 & H3 & H4 & H5 & H6 & H7)
    end.
    unfold getCurrentUser. rewrite H1, H2, H3, H5, H7. simpl.
    repeat split.
    + apply updateFirst_length.
    + apply updateFirst_others. unfold updated, merge. simpl.
      by destruct (new_id updates).
Qed.

Lemma withListeners_same (st : State) : withListeners (authListeners st) st = st.
Proof. by destruct st. Qed.

(** X29: Listeners form a set: adding twice is adding once, and removing a
    newly added listener restores the state. *)
Theorem authListeners_form_a_set (l : listener) (st : State) :
  addAuthListener l (addAuthListener l st) = addAuthListener l st
  ∧ (l_id l ∉ l_id <$> authListeners st →
     removeAuthListener l (addAuthListener l st) = st
     ∧ notified (notifyAuthListeners (addAuthListener l st))
       = notified (notifyAuthListeners st)
         ++ [(l_id l, currentUser st, isAuthenticated st)])
  ∧ (l_id l ∈ l_id <$> authListeners st → addAuthListener l st = st).
Proof.
  assert (l_id l ∈ l_id <$> authListeners st → addAuthListener l st = st) as Hin.
  { intros H. unfold addAuthListener, hasListener. by rewrite bool_decide_eq_true_2. }
  assert (l_id l ∉ l_id <$> authListeners st →
          addAuthListener l st = withListeners (authListeners st ++ [l]) st) as Hout.
  { intros H. unfold addAuthListener, hasListener. by rewrite bool_decide_eq_false_2. }
  split; [|split; [|done]].
  - destruct (decide (l_id l ∈ l_id <$> authListeners st)) as [H|H].
    + by rewrite !(Hin H).
    + rewrite (Hout H). unfold addAuthListener, hasListener. simpl.
      rewrite bool_decide_eq_true_2; [done|]. rewrite fmap_app. set_solver.
  - intros H. rewrite (Hout H). split.
    + unfold removeAuthListener. simpl. rewrite filter_app.
      rewrite filter_cons_False by naive_solver. rewrite filter_nil, app_nil_r.
      assert (filter (λ l', l_id l' ≠ l_id l) (authListeners st) = authListeners st)
        as ->.
      { clear -H. induction (authListeners st) as [|x xs IH]; [done|].
        rewrite fmap_cons, not_elem_of_cons in H. destruct H as [Hx Hxs].
        rewrite filter_cons_True by done. by rewrite IH. }
      destruct st. done.
    + destruct (notifyAuthListeners_fields (withListeners (authListeners st ++ [l]) st))
        as (_ & _ & _ & _ & _ & _ & ->).
      destruct (notifyAuthListeners_fields st) as (_ & _ & _ & _ & _ & _ & ->).
      simpl. by rewrite fmap_app, app_assoc.
Qed.

Lemma mirrored_login user st : mirrored (login user st).
Proof.
  destruct (login_fields user st) as (Hl & Hc & _ & H5 & H6).
  unfold getCurrentUser, isLoggedIn in *. apply andb_true_iff in Hl as [Hl _].
  unfold mirrored. rewrite H5, H6, Hc, Hl. naive_solver.
Qed.

Lemma mirrored_logout st : mirrored (logout st).
Proof.
  unfold logout.
  match goal with |- context [notifyAuthListeners ?x] =>
    destruct (notifyAuthListeners_fields x) as (H1 & H2 & _ & _ & H5 & H6 & _)
  end.
  unfold mirrored. rewrite H1, H2, H5, H6. simpl. split; [done|]. split; [done|].
  split; [done|]. by intros [? ?].
Qed.

Lemma restoreAuthState_mirrored st :
  mirrored st →
  restoreAuthState st
  = match currentUser st with
    | Some user => login user st
    | None => st
    end.
Proof.
  intros (H1 & H2 & H3). unfold restoreAuthState. rewrite H1, H2.
  destruct (currentUser st) as [user|]; simpl.
  - assert (isAuthenticated st = true) as -> by (apply H3; eauto). done.
  - by destruct (isAuthenticated st).
Qed.

(** X30: In every reachable state [localStorage] mirrors the session, so
    [restoreAuthState] never changes who is logged in. *)
Theorem storage_mirrors_the_session (st : State) :
  reachable st →
  mirrored st
  ∧ isLoggedIn st = isAuthenticated st
  ∧ getCurrentUser (restoreAuthState st) = getCurrentUser st
  ∧ isLoggedIn (restoreAuthState st) = isLoggedIn st.
Proof.
  intros Hr.
  assert (mirrored st) as Hm.
  { induction Hr as [saved flag|st c _ IH].
    - unfold mirrored. split; [done|]. split; [done|]. split; [by eexists|done].
    - destruct c as [user| |userId|updates|l|l|]; simpl.
      + apply mirrored_login.
      + apply mirrored_logout.
      + unfold switchAccount. destruct (List.find _ _); [apply mirrored_login|done].
      + destruct (currentUser st) as [user|] eqn:Hu.
        * destruct (updateProfile_logged_in updates st user Hu) as (Hc & Hi & Ha & Hf).
          unfold mirrored. rewrite Hc, Hi, Ha, Hf.
          destruct IH as (_ & H2 & H3). rewrite H2.
          assert (isAuthenticated st = true) as Ht by (apply H3; rewrite Hu; eauto).
          rewrite Ht. split; [done|]. split; [done|]. split; [by eexists|done].
        * unfold updateProfile. by rewrite Hu.
      + unfold addAuthListener. by destruct (hasListener l st).
      + done.
      + rewrite (restoreAuthState_mirrored st IH).
        destruct (currentUser st); [apply mirrored_login|done]. }
  split; [done|].
  assert (isLoggedIn st = isAuthenticated st) as Hlog.
  { destruct Hm as (_ & _ & H3). unfold isLoggedIn.
    destruct (isAuthenticated st); [|done]. simpl.
    apply bool_decide_eq_true. destruct (proj1 H3 eq_refl) as [u ->]. done. }
  split; [done|].
  rewrite (restoreAuthState_mirrored st Hm).
  destruct (currentUser st) as [user|] eqn:Hu; [|done].
  destruct (login_fields user st) as (Hl & Hc & _).
  rewrite Hc, Hl. unfold getCurrentUser. rewrite Hu. split; [done|].
  rewrite Hlog. symmetry. apply Hm. rewrite Hu. eauto.
Qed.

End Accounts.

(** * Concrete runs of the further properties *)

Section StoreRuns.

Import ProjectDataService Board.
Open Scope string_scope.

Lemma deleteTask_removes_every_copy_witness :
  view (addTasks 42 "TO DO" [T1; T2; T3] initialStore) 42 !! "TO DO" = Some [T1; T2; T3]
  ∧ ¬ inColumn
        (view (deleteTaskFromProject 42 "T2" "TO DO"
                 (addTasks 42 "TO DO" [T1; T2; T3] initialStore)).1 42)
        "T2" "TO DO".
Proof.
  assert (view (addTasks 42 "TO DO" [T1; T2; T3] initialStore) 42 !! "TO DO"
          = Some [T1; T2; T3]) as H by (vm_compute; reflexivity).
  split; [exact H|].
  exact (proj1 (proj2 (proj2 (deleteTask_removes_every_copy _ 42 "T2" "TO DO" _ H)))).
Defined.

Lemma add_then_delete_restores_witness :
  view initialStore 42 !! "TO DO" = Some []
  ∧ (deleteTaskFromProject 42 "T1" "TO DO"
       (addTaskToProject 42 "TO DO" T1 initialStore).1).1
    = loaded 42 initialStore.
Proof.
  assert (view initialStore 42 !! "TO DO" = Some []) as H by (vm_compute; reflexivity).
  assert (∀ t', t' ∈ [] → id t' ≠ id T1) as Hfresh
    by (intros t' Ht'; by apply elem_of_nil in Ht').
  split; [exact H|].
  exact (proj1 (add_then_delete_restores initialStore 42 "TO DO" T1 [] H Hfresh)).
Defined.

Lemma move_there_and_back_witness :
  "TO DO" ≠ "DONE"
  ∧ view (addTasks 42 "TO DO" [T1; T2; T3] initialStore) 42 !! "TO DO" = Some [T1; T2; T3]
  ∧ view (moveTaskInProject 42 "T1" "DONE" "TO DO"
            (moveTaskInProject 42 "T1" "TO DO" "DONE"
               (addTasks 42 "TO DO" [T1; T2; T3] initialStore)).1).1 42
    = <[ "TO DO" := (filter (λ x, id x ≠ "T1") [T1; T2; T3] ++ [T1])%list ]>
        (view (addTasks 42 "TO DO" [T1; T2; T3] initialStore) 42).
Proof.
  assert ("TO DO" ≠ "DONE") as H0 by done.
  assert (view (addTasks 42 "TO DO" [T1; T2; T3] initialStore) 42 !! "TO DO"
          = Some [T1; T2; T3]) as H1 by (vm_compute; reflexivity).
  assert (view (addTasks 42 "TO DO" [T1; T2; T3] initialStore) 42 !! "DONE" = Some [])
    as H2 by (vm_compute; reflexivity).
  assert (List.find (λ x, bool_decide (id x = "T1")) [T1; T2; T3] = Some T1) as H3
    by reflexivity.
  assert (∀ x, x ∈ [] → id x ≠ "T1") as H4
    by (intros x Hx; by apply elem_of_nil in Hx).
  split; [exact H0|]. split; [exact H1|].
  exact (proj2 (proj2 (move_there_and_back _ 42 "T1" "TO DO" "DONE" _ _ T1
                         H0 H1 H2 H3 H4))).
Defined.

Lemma move_within_a_column_witness :
  view (addTasks 42 "TO DO" [T1; T2; T3] initialStore) 42 !! "TO DO" = Some [T1; T2; T3]
  ∧ handleMoveTask_updater "T1" "TO DO" "TO DO"
      (view (addTasks 42 "TO DO" [T1; T2; T3] initialStore) 42)
    = Some (<[ "TO DO" := ([T1; T2; T3] ++ [T1])%list ]>
              (view (addTasks 42 "TO DO" [T1; T2; T3] initialStore) 42)).
Proof.
  assert (view (addTasks 42 "TO DO" [T1; T2; T3] initialStore) 42 !! "TO DO"
          = Some [T1; T2; T3]) as H1 by (vm_compute; reflexivity).
  assert (List.find (λ x, bool_decide (id x = "T1")) [T1; T2; T3] = Some T1) as H2
    by reflexivity.
  split; [exact H1|].
  exact (proj1 (proj2 (move_within_a_column _ 42 "T1" "TO DO" _ T1 H1 H2))).
Defined.

Lemma unknown_column_is_ignored_witness :
  view initialStore 1 !! "ARCHIVE" = None
  ∧ view (addTaskToProject 1 "ARCHIVE" T1 initialStore).1 1 = view initialStore 1.
Proof.
  assert (view initialStore 1 !! "ARCHIVE" = None) as H by (vm_compute; reflexivity).
  split; [exact H|].
  exact (proj1 (proj2 (proj2 (unknown_column_is_ignored initialStore 1 "ARCHIVE" H))) T1 1).
Defined.

Lemma move_update_matches_store_witness :
  "TO DO" ≠ "DONE"
  ∧ is_Some (view initialStore 1 !! "TO DO")
  ∧ is_Some (view initialStore 1 !! "DONE")
  ∧ handleMoveTask_updater "PA-1" "TO DO" "DONE" (view initialStore 1)
    = Some (view (moveTaskInProject 1 "PA-1" "TO DO" "DONE" initialStore).1 1).
Proof.
  assert ("TO DO" ≠ "DONE") as H0 by done.
  assert (is_Some (view initialStore 1 !! "TO DO")) as H1
    by (vm_compute; eexists; reflexivity).
  assert (is_Some (view initialStore 1 !! "DONE")) as H2
    by (vm_compute; eexists; reflexivity).
  split; [exact H0|]. split; [exact H1|]. split; [exact H2|].
  exact (proj1 (move_update_matches_store initialStore 1 "PA-1" "TO DO" "DONE" H0 H1 H2)).
Defined.

Lemma menu_move_reaches_target_witness :
  view (addTasks 42 "TO DO" [T1; T2; T3] initialStore) 42 !! "TO DO" = Some [T1; T2; T3]
  ∧ "DONE" ∈ moveOptions ["TO DO"; "IN PROGRESS"; "IN REVIEW"; "DONE"] "TO DO"
  ∧ "DONE" ≠ "TO DO".
Proof.
  assert (∀ c, c ∈ ["TO DO"; "IN PROGRESS"; "IN REVIEW"; "DONE"] →
               is_Some (view (addTasks 42 "TO DO" [T1; T2; T3] initialStore) 42 !! c))
    as H0.
  { intros c Hc. repeat (apply elem_of_cons in Hc as [->|Hc]);
      [vm_compute; eexists; reflexivity..|by apply elem_of_nil in Hc]. }
  assert (view (addTasks 42 "TO DO" [T1; T2; T3] initialStore) 42 !! "TO DO"
          = Some [T1; T2; T3]) as H1 by (vm_compute; reflexivity).
  assert (T2 ∈ [T1; T2; T3]) as H2 by (right; left).
  assert ("DONE" ∈ moveOptions ["TO DO"; "IN PROGRESS"; "IN REVIEW"; "DONE"] "TO DO")
    as H3 by (vm_compute; do 2 right; left).
  split; [exact H1|]. split; [exact H3|].
  exact (proj1 (menu_move_reaches_target _ 42 _ "TO DO" "DONE" T2 _ H0 H1 H2 H3)).
Defined.

End StoreRuns.

Section SharedRuns.

Import ProjectDataService StoreObjects.
Open Scope string_scope.

(** The boards of the initial heap are those of the initial store. *)
Example initialHeap_boards :
  view initialHeap 1 = Some projectA
  ∧ view initialHeap 2 = Some projectB
  ∧ view initialHeap 3 = Some projectC
  ∧ view initialHeap 4 = None.
Proof.
  split; [vm_compute; reflexivity|]. split; [vm_compute; reflexivity|].
  split; vm_compute; reflexivity.
Qed.

(** A run of the service on the heap and on the store of boards: the
    boards agree. *)
Example heap_run_agrees_with_store :
  let run := [OpAddTask 1 "DONE" T1; OpMoveTask 1 "PA-1" "TO DO" "DONE";
              OpDeleteTask 2 "PB-1" "TO DO"; OpAddTask 7 "TO DO" T2;
              OpMoveTask 7 "T2" "TO DO" "TO DO"] in
  let h := foldl (λ h o, perform o h) initialHeap run in
  let s := foldl (λ s o, ProjectDataService.perform o s) initialStore run in
  view h 1 = s !! 1 ∧ view h 2 = s !! 2 ∧ view h 7 = s !! 7.
Proof.
  cbv zeta. split; [vm_compute; reflexivity|]. split; vm_compute; reflexivity.
Qed.

(** Once [updateProjectData] has stored under 2 the board that 1 holds,
    a task added to project 2 shows on the board of project 1. *)
Example shared_board_is_changed_through_either_id :
  projectsData sharedBoard !! 2 = projectsData sharedBoard !! 1
  ∧ ¬ apart sharedBoard 2 1
  ∧ view sharedBoard 1 ≫= (.!! "TO DO") = projectA !! "TO DO"
  ∧ view (addTaskToProject 2 "TO DO" T1 sharedBoard).1 1 ≫= (.!! "TO DO")
    = (.++ [T1]) <$> projectA !! "TO DO".
Proof.
  split; [by vm_compute|]. split; [|split; by vm_compute].
  intros H.
  assert (projectsData sharedBoard !! 2 = Some 4%nat) as H2 by (by vm_compute).
  assert (projectsData sharedBoard !! 1 = Some 4%nat) as H1 by (by vm_compute).
  destruct (H 4%nat 4%nat H2 H1) as [Hne _]. exact (Hne eq_refl).
Qed.

(** A move in project 1 after a task was added to project 2. *)
Lemma operations_touch_one_project_witness :
  1 ≠ 2
  ∧ reachable (perform (OpAddTask 2 "DONE" T1) initialHeap)
  ∧ view (moveTaskInProject 1 "PA-1" "TO DO" "DONE"
            (perform (OpAddTask 2 "DONE" T1) initialHeap)).1 2
    = view (perform (OpAddTask 2 "DONE" T1) initialHeap) 2.
Proof.
  assert (1 ≠ 2) as H by lia.
  assert (reachable (perform (OpAddTask 2 "DONE" T1) initialHeap)) as Hr
    by (apply reachable_step, reachable_init).
  split; [exact H|]. split; [exact Hr|].
  destruct (operations_touch_one_project
              (perform (OpAddTask 2 "DONE" T1) initialHeap) 1 2 H) as [Hwf Hsame].
  destruct (Hwf Hr) as [Hal Hap].
  exact (proj1 (proj2 (proj2 (Hsame Hal Hap))) "PA-1" "TO DO" "DONE").
Defined.

End SharedRuns.

Section ServiceRuns.

Import WebSocketService.
Open Scope string_scope.

Lemma subscribe_then_unsubscribe_witness :
  (9%nat ∉ cb_id <$> default [] (listeners (service listeningWorld) !! "taskCreated"))
  ∧ sent (unsubscribe "taskCreated" (listener 9)
            (subscribe "taskCreated" (listener 9) listeningWorld))
    = sent listeningWorld.
Proof.
  assert (9%nat ∉ cb_id <$> default [] (listeners (service listeningWorld) !! "taskCreated"))
    as H.
  { vm_compute. intros H. apply elem_of_cons in H as [H|H]; [done|].
    by apply elem_of_nil in H. }
  split; [exact H|].
  exact (proj1 (proj2 (proj2 (proj2
    (subscribe_then_unsubscribe listeningWorld "taskCreated" (listener 9) H))))).
Defined.

Lemma disconnect_keeps_pending_reconnect_witness :
  timers (closed "anonymous" 1006 connectedWorld).1 = [(3000, RunConnect "anonymous")]
  ∧ timers (disconnect (closed "anonymous" 1006 connectedWorld).1)
    = timers (closed "anonymous" 1006 connectedWorld).1.
Proof.
  assert (timers (closed "anonymous" 1006 connectedWorld).1
          = [(3000, RunConnect "anonymous")]) as H by reflexivity.
  split; [exact H|].
  exact (proj1 (disconnect_keeps_pending_reconnect _ 3000 "anonymous" [] VUndefined H)).
Defined.

Lemma close_after_disconnect_reconnects_witness :
  1005 ≠ 1000
  ∧ timers connectedWorld = []
  ∧ reconnectAttempts (service connectedWorld) < maxReconnectAttempts (service connectedWorld)
  ∧ ∃ w', (closed "anonymous" 1005 ;; fireTimer true VUndefined) (disconnect connectedWorld)
          = (w', Normal)
          ∧ delays w' = (delays connectedWorld ++ [3000])%list.
Proof.
  assert (1005 ≠ 1000) as H0 by lia.
  assert (timers connectedWorld = []) as H1 by reflexivity.
  assert (reconnectAttempts (service connectedWorld)
          < maxReconnectAttempts (service connectedWorld)) as H2 by (vm_compute; reflexivity).
  split; [exact H0|]. split; [exact H1|]. split; [exact H2|].
  destruct (close_after_disconnect_reconnects connectedWorld "anonymous" 1005 H0 H1 H2)
    as (w' & Hrun & _ & Hd & _).
  exists w'. split; [exact Hrun|exact Hd].
Defined.


Lemma open_restores_the_retry_budget_witness :
  1006 ≠ 1000
  ∧ timers (dropRepeatedly 7 "anonymous" 1006 connectedWorld).1 = []
  ∧ ∃ w1 w2, opened (dropRepeatedly 7 "anonymous" 1006 connectedWorld).1 = (w1, Normal)
             ∧ reconnectAttempts (service w1) = 0
             ∧ dropRepeatedly 7 "anonymous" 1006 w1 = (w2, Normal).
Proof.
  assert (1006 ≠ 1000) as H0 by lia.
  assert (timers (dropRepeatedly 7 "anonymous" 1006 connectedWorld).1 = []) as H1
    by (vm_compute; reflexivity).
  split; [exact H0|]. split; [exact H1|].
  destruct (open_restores_the_retry_budget _ "anonymous" 1006 7 H0 H1)
    as (w1 & w2 & Hrun & Ha & Hrun2 & _).
  exists w1, w2. split; [exact Hrun|]. split; [exact Ha|exact Hrun2].
Defined.


Lemma only_user_count_changes_online_users_witness :
  getConnectionStatus (onmessage (Some (created 4)) connectedWorld).1
  = getConnectionStatus connectedWorld.
Proof.
  apply only_user_count_changes_online_users.
  intros type [= <-]. reflexivity.
Defined.

Lemma error_event_leaves_socket_usable_witness :
  isOpen (service connectedWorld) = true
  ∧ ∃ w', onerror VNull connectedWorld = (w', Normal)
          ∧ getConnectionStatus w' = (false, onlineUsers (service connectedWorld)).
Proof.
  assert (isOpen (service connectedWorld) = true) as H by reflexivity.
  split; [exact H|].
  destruct (error_event_leaves_socket_usable connectedWorld VNull H)
    as (w' & Hrun & Hs & _).
  exists w'. split; [exact Hrun|exact Hs].
Defined.

End ServiceRuns.

Section AccountRuns.

Import AuthService.

Lemma storage_mirrors_the_session_witness :
  reachable (run Logout (startup None None))
  ∧ mirrored (run Logout (startup None None)).
Proof.
  assert (reachable (run Logout (startup None None))) as H
    by (apply reachable_run, reachable_start).
  split; [exact H|].
  exact (proj1 (storage_mirrors_the_session _ H)).
Defined.

End AccountRuns.
